(** * Ingestion table mappings of the ADX Terraform provider

    A shallow embedding of [adx/resource_adx_table_mapping.go]: the
    mapping codec ([expandTableMapping], [flattenTableMapping]), the
    three lifecycle operations (Create/Update, Read, Delete) and the
    parts of the Go standard library they lean on ([unicode/utf8],
    [strings], [encoding/json] decoding into [[]Mapping]).

    Go strings are byte sequences: they are modelled as [string], whose
    characters ([ascii]) are the bytes.  Runes are integers ([Z]). *)

From Stdlib Require Import ZArith Ascii String List Lia Bool.
From stdpp Require Import gmap strings list.

Local Open Scope Z_scope.

(** ** Bytes *)

(** The numeric value of a byte. *)
Definition byte_val (c : ascii) : Z := Z.of_N (N_of_ascii c).

(** Go's conversion [byte(x)]: truncation to eight bits. *)
Definition byte_of (z : Z) : ascii := ascii_of_N (Z.to_N (z mod 256)).

(** The double quote and the backslash, the two bytes that
    [expandTableMapping] never escapes. *)
Definition dq : ascii := "034"%char.
Definition backslash : ascii := "092"%char.

(** [s[n:]] for [n <= len(s)]. *)
Fixpoint sdrop (n : nat) (s : string) : string :=
  match n, s with
  | O, _ => s
  | S k, String _ r => sdrop k r
  | S _, EmptyString => EmptyString
  end.

(** [s[i]] as a number; 0 out of range (never read there by the callers). *)
Definition byte_at (s : string) (i : nat) : Z :=
  match String.get i s with
  | Some c => byte_val c
  | None => 0
  end.

(** ** Package unicode/utf8 *)

Module utf8.

Definition RuneError : Z := 0xFFFD.
Definition RuneSelf : Z := 0x80.
Definition MaxRune : Z := 0x10FFFF.
Definition surrogateMin : Z := 0xD800.
Definition surrogateMax : Z := 0xDFFF.

Definition tx : Z := 0x80.
Definition t2 : Z := 0xC0.
Definition t3 : Z := 0xE0.
Definition t4 : Z := 0xF0.

Definition maskx : Z := 0x3F.
Definition mask2 : Z := 0x1F.
Definition mask3 : Z := 0x0F.
Definition mask4 : Z := 0x07.

Definition rune1Max : Z := 0x7F.
Definition rune2Max : Z := 0x7FF.
Definition rune3Max : Z := 0xFFFF.

Definition locb : Z := 0x80.
Definition hicb : Z := 0xBF.

(** The information of the table [first]: an ASCII byte, an invalid
    leading byte, or a leading byte with the size of its sequence and
    the range accepted for the second byte. *)
Inductive first_info : Type :=
| AS
| XX
| Lead (sz : nat) (lo hi : Z).

Definition first (p0 : Z) : first_info :=
  if p0 <? 0x80 then AS
  else if p0 <? 0xC2 then XX
  else if p0 <? 0xE0 then Lead 2 locb hicb
  else if p0 =? 0xE0 then Lead 3 0xA0 hicb
  else if p0 <? 0xED then Lead 3 locb hicb
  else if p0 =? 0xED then Lead 3 locb 0x9F
  else if p0 <? 0xF0 then Lead 3 locb hicb
  else if p0 =? 0xF0 then Lead 4 0x90 hicb
  else if p0 <? 0xF4 then Lead 4 locb hicb
  else if p0 =? 0xF4 then Lead 4 locb 0x8F
  else XX.

(** [DecodeRune]: the first rune of [p] and its width in bytes;
    [(RuneError, 0)] on empty input, [(RuneError, 1)] on an invalid
    encoding. *)
Definition DecodeRune (p : string) : Z * nat :=
  match p with
  | EmptyString => (RuneError, 0%nat)
  | String c0 _ =>
    let p0 := byte_val c0 in
    match first p0 with
    | AS => (p0, 1%nat)
    | XX => (RuneError, 1%nat)
    | Lead sz lo hi =>
      if (String.length p <? sz)%nat then (RuneError, 1%nat) else
      let b1 := byte_at p 1 in
      if (b1 <? lo) || (hi <? b1) then (RuneError, 1%nat) else
      if (sz <=? 2)%nat then
        (Z.lor (Z.shiftl (Z.land p0 mask2) 6) (Z.land b1 maskx), 2%nat)
      else
      let b2 := byte_at p 2 in
      if (b2 <? locb) || (hicb <? b2) then (RuneError, 1%nat) else
      if (sz <=? 3)%nat then
        (Z.lor (Z.lor (Z.shiftl (Z.land p0 mask3) 12)
                      (Z.shiftl (Z.land b1 maskx) 6))
               (Z.land b2 maskx), 3%nat)
      else
      let b3 := byte_at p 3 in
      if (b3 <? locb) || (hicb <? b3) then (RuneError, 1%nat) else
      (Z.lor (Z.lor (Z.lor (Z.shiftl (Z.land p0 mask4) 18)
                           (Z.shiftl (Z.land b1 maskx) 12))
                    (Z.shiftl (Z.land b2 maskx) 6))
             (Z.land b3 maskx), 4%nat)
    end
  end.

Definition encode3 (r : Z) : string :=
  String (byte_of (Z.lor t3 (Z.shiftr r 12)))
  (String (byte_of (Z.lor tx (Z.land (Z.shiftr r 6) maskx)))
  (String (byte_of (Z.lor tx (Z.land r maskx))) EmptyString)).

(** [EncodeRune]: the UTF-8 encoding of [r]; runes out of range and
    surrogates are written as [RuneError].  [i] is [uint32(r)]. *)
Definition EncodeRune (r : Z) : string :=
  let i := r mod 2 ^ 32 in
  if i <=? rune1Max then String (byte_of r) EmptyString
  else if i <=? rune2Max then
    String (byte_of (Z.lor t2 (Z.shiftr r 6)))
    (String (byte_of (Z.lor tx (Z.land r maskx))) EmptyString)
  else if (MaxRune <? i) || ((surrogateMin <=? i) && (i <=? surrogateMax)) then
    encode3 RuneError
  else if i <=? rune3Max then encode3 r
  else
    String (byte_of (Z.lor t4 (Z.shiftr r 18)))
    (String (byte_of (Z.lor tx (Z.land (Z.shiftr r 12) maskx)))
    (String (byte_of (Z.lor tx (Z.land (Z.shiftr r 6) maskx)))
    (String (byte_of (Z.lor tx (Z.land r maskx))) EmptyString))).

(** The runes a [for _, c := range s] loop visits: an invalid byte is
    one [RuneError] of width 1.  [skip] counts the bytes of the current
    rune still to pass over. *)
Fixpoint range_runes (skip : nat) (s : string) : list Z :=
  match s with
  | EmptyString => []
  | String _ r =>
    match skip with
    | S k => range_runes k r
    | O => let '(rn, sz) := DecodeRune s in rn :: range_runes (sz - 1) r
    end
  end.

(** [ValidString]: every rune of [s] is validly encoded. *)
Fixpoint valid_from (skip : nat) (s : string) : bool :=
  match s with
  | EmptyString => true
  | String _ r =>
    match skip with
    | S k => valid_from k r
    | O =>
      let '(rn, sz) := DecodeRune s in
      if (rn =? RuneError) && (sz =? 1)%nat then false
      else valid_from (sz - 1) r
    end
  end.

Definition ValidString (s : string) : bool := valid_from 0 s.

End utf8.

(** ** Package strings *)

Module strings.

Fixpoint all_bytes (p : ascii -> bool) (s : string) : bool :=
  match s with
  | EmptyString => true
  | String c r => p c && all_bytes p r
  end.

Fixpoint map_bytes (f : ascii -> ascii) (s : string) : string :=
  match s with
  | EmptyString => EmptyString
  | String c r => String (f c) (map_bytes f r)
  end.

Definition is_ascii (c : ascii) : bool := byte_val c <? utf8.RuneSelf.

Definition is_upper (c : ascii) : bool :=
  (byte_val "A" <=? byte_val c) && (byte_val c <=? byte_val "Z").

Definition is_lower (c : ascii) : bool :=
  (byte_val "a" <=? byte_val c) && (byte_val c <=? byte_val "z").

(** [c += 'a' - 'A'] on the upper-case letters. *)
Definition lower_byte (c : ascii) : ascii :=
  if is_upper c then byte_of (byte_val c + (byte_val "a" - byte_val "A")) else c.

Definition upper_byte (c : ascii) : ascii :=
  if is_lower c then byte_of (byte_val c - (byte_val "a" - byte_val "A")) else c.

(** [Map(mapping, s)]: every rune of [s] replaced by its image, runes
    mapped to a negative value dropped. *)
Definition Map (mapping : Z -> Z) (s : string) : string :=
  String.concat EmptyString
    (List.map (fun c => let r := mapping c in
                        if r <? 0 then EmptyString else utf8.EncodeRune r)
              (utf8.range_runes 0 s)).

(** [ToLower]: the ASCII fast path of the library, and [Map] with
    [unicode.ToLower] otherwise.  The Unicode case table is not part of
    this development: it is the parameter [unicode_ToLower]. *)
Definition ToLower (unicode_ToLower : Z -> Z) (s : string) : string :=
  if all_bytes is_ascii s then map_bytes lower_byte s
  else Map unicode_ToLower s.

(** [Join(elems, sep)]. *)
Definition Join (elems : list string) (sep : string) : string :=
  String.concat sep elems.

(** [Split(s, sep)] for a one-byte separator. *)
Fixpoint Split (s : string) (sep : ascii) : list string :=
  match s with
  | EmptyString => [EmptyString]
  | String c r =>
    if Ascii.eqb c sep then EmptyString :: Split r sep
    else match Split r sep with
         | h :: t => String c h :: t
         | [] => [String c EmptyString]
         end
  end.

Definition contains_byte (sep : ascii) (s : string) : bool :=
  negb (all_bytes (fun c => negb (Ascii.eqb c sep)) s).

End strings.

(** ** Panics *)

(** A Go function either returns or panics.  [PanicFuel] is not a Go
    panic: it marks the recursion bound of the JSON parser below, and
    [Unmarshal_returns] shows that it is never reached. *)
Inductive panic : Type :=
| PanicTypeAssertion (key : string)
| PanicIndexOutOfRange (index len : nat)
| PanicJsonPhase
| PanicFuel.

Inductive outcome (A : Type) : Type :=
| Ok (a : A)
| Panic (p : panic).

Arguments Ok {A} a.
Arguments Panic {A} p.

(** ** Package encoding/json, decoding into [[]Mapping] *)

Module json.

(** *** Syntax: what [checkValid] accepts *)

(** The structure of a valid document.  String literals and object keys
    are kept as written (between the quotes, escapes included): they are
    unquoted when they are stored. *)
#[warnings="-register-all"]
Inductive value : Type :=
| JNull
| JBool (b : bool)
| JNumber (lit : string)
| JString (raw : string)
| JArray (elems : list value)
| JObject (members : list (string * value)).

Inductive presult (A : Type) : Type :=
| POk (a : A) (rest : string)
| PSyntax
| PFuel.

Arguments POk {A} a rest.
Arguments PSyntax {A}.
Arguments PFuel {A}.

Definition maxNestingDepth : N := 10000.

Definition is_space (c : ascii) : bool :=
  Ascii.eqb c " " || Ascii.eqb c "009" || Ascii.eqb c "013" || Ascii.eqb c "010".

Definition is_digit (c : ascii) : bool :=
  (byte_val "0" <=? byte_val c) && (byte_val c <=? byte_val "9").

Definition is_hex (c : ascii) : bool :=
  is_digit c
  || ((byte_val "a" <=? byte_val c) && (byte_val c <=? byte_val "f"))
  || ((byte_val "A" <=? byte_val c) && (byte_val c <=? byte_val "F")).

Definition is_simple_escape (c : ascii) : bool :=
  Ascii.eqb c "b" || Ascii.eqb c "f" || Ascii.eqb c "n" || Ascii.eqb c "r"
  || Ascii.eqb c "t" || Ascii.eqb c backslash || Ascii.eqb c "/" || Ascii.eqb c dq.

Fixpoint skip_space (s : string) : string :=
  match s with
  | String c r => if is_space c then skip_space r else s
  | EmptyString => EmptyString
  end.

(** The scanner inside a string literal, from after the opening quote
    (states [stateInString], [stateInStringEsc], [stateInStringEscU...]):
    the literal's content and the input after the closing quote. *)
Fixpoint scan_string (s : string) : option (string * string) :=
  match s with
  | EmptyString => None
  | String c r =>
    if Ascii.eqb c dq then Some (EmptyString, r)
    else if Ascii.eqb c backslash then
      match r with
      | EmptyString => None
      | String e r1 =>
        if is_simple_escape e then
          match scan_string r1 with
          | Some (raw, rest) => Some (String c (String e raw), rest)
          | None => None
          end
        else if Ascii.eqb e "u" then
          match r1 with
          | String h1 (String h2 (String h3 (String h4 r2))) =>
            if is_hex h1 && is_hex h2 && is_hex h3 && is_hex h4 then
              match scan_string r2 with
              | Some (raw, rest) =>
                Some (String c (String e (String h1 (String h2
                       (String h3 (String h4 raw))))), rest)
              | None => None
              end
            else None
          | _ => None
          end
        else None
      end
    else if byte_val c <? 0x20 then None
    else
      match scan_string r with
      | Some (raw, rest) => Some (String c raw, rest)
      | None => None
      end
  end.

(** The longest run of digits at the head of [s]. *)
Fixpoint scan_digits (s : string) : string * string :=
  match s with
  | String c r =>
    if is_digit c then let '(d, rest) := scan_digits r in (String c d, rest)
    else (EmptyString, s)
  | EmptyString => (EmptyString, EmptyString)
  end.

(** The integer part (states [state0], [state1]). *)
Definition scan_int (s : string) : option (string * string) :=
  match s with
  | String c r =>
    if Ascii.eqb c "0" then Some (String c EmptyString, r)
    else if is_digit c then let '(d, rest) := scan_digits r in Some (String c d, rest)
    else None
  | EmptyString => None
  end.

(** The optional fraction (states [stateDot], [stateDot0]). *)
Definition scan_frac (s : string) : option (string * string) :=
  match s with
  | String c r =>
    if Ascii.eqb c "." then
      match scan_digits r with
      | (EmptyString, _) => None
      | (d, rest) => Some (String c d, rest)
      end
    else Some (EmptyString, s)
  | EmptyString => Some (EmptyString, s)
  end.

(** The optional exponent (states [stateE], [stateESign], [stateE0]). *)
Definition scan_exp (s : string) : option (string * string) :=
  match s with
  | String c r =>
    if Ascii.eqb c "e" || Ascii.eqb c "E" then
      let '(sg, r1) :=
        match r with
        | String c1 r' =>
          if Ascii.eqb c1 "+" || Ascii.eqb c1 "-" then (String c1 EmptyString, r')
          else (EmptyString, r)
        | EmptyString => (EmptyString, r)
        end in
      match scan_digits r1 with
      | (EmptyString, _) => None
      | (d, rest) => Some (String c (sg +:+ d), rest)
      end
    else Some (EmptyString, s)
  | EmptyString => Some (EmptyString, s)
  end.

(** A number literal, from its first byte ([-] or a digit). *)
Definition scan_number (s : string) : option (string * string) :=
  let '(sign, s1) :=
    match s with
    | String c r => if Ascii.eqb c "-" then (String c EmptyString, r) else (EmptyString, s)
    | EmptyString => (EmptyString, s)
    end in
  match scan_int s1 with
  | None => None
  | Some (ip, s2) =>
    match scan_frac s2 with
    | None => None
    | Some (fp, s3) =>
      match scan_exp s3 with
      | None => None
      | Some (ep, s4) => Some (sign +:+ ip +:+ fp +:+ ep, s4)
      end
    end
  end.

(** [strip_prefix p s]: [s] without its prefix [p]. *)
Fixpoint strip_prefix (p s : string) : option string :=
  match p, s with
  | EmptyString, _ => Some s
  | String a p', String b s' => if Ascii.eqb a b then strip_prefix p' s' else None
  | String _ _, EmptyString => None
  end.

(** One value at the head of [s] ([stateBeginValue], leading space
    already skipped), the elements of an array after its first value
    begins, and the members of an object from the first key.  [depth]
    is the number of open arrays and objects; [fuel] bounds the
    recursion. *)
Fixpoint parse_value (fuel : nat) (depth : N) (s : string) : presult value :=
  match fuel with
  | O => PFuel
  | S f =>
    match s with
    | EmptyString => PSyntax
    | String c r =>
      if Ascii.eqb c "{" then
        if (maxNestingDepth <? depth + 1)%N then PSyntax else
        match skip_space r with
        | EmptyString => PSyntax
        | String c1 r1 =>
          if Ascii.eqb c1 "}" then POk (JObject []) r1
          else
            match parse_members f (depth + 1) (String c1 r1) with
            | POk ms rest => POk (JObject ms) rest
            | PSyntax => PSyntax
            | PFuel => PFuel
            end
        end
      else if Ascii.eqb c "[" then
        if (maxNestingDepth <? depth + 1)%N then PSyntax else
        match skip_space r with
        | EmptyString => PSyntax
        | String c1 r1 =>
          if Ascii.eqb c1 "]" then POk (JArray []) r1
          else
            match parse_elems f (depth + 1) (String c1 r1) with
            | POk vs rest => POk (JArray vs) rest
            | PSyntax => PSyntax
            | PFuel => PFuel
            end
        end
      else if Ascii.eqb c dq then
        match scan_string r with
        | Some (raw, rest) => POk (JString raw) rest
        | None => PSyntax
        end
      else if Ascii.eqb c "-" || is_digit c then
        match scan_number s with
        | Some (lit, rest) => POk (JNumber lit) rest
        | None => PSyntax
        end
      else if Ascii.eqb c "t" then
        match strip_prefix "true" s with
        | Some rest => POk (JBool true) rest
        | None => PSyntax
        end
      else if Ascii.eqb c "f" then
        match strip_prefix "false" s with
        | Some rest => POk (JBool false) rest
        | None => PSyntax
        end
      else if Ascii.eqb c "n" then
        match strip_prefix "null" s with
        | Some rest => POk JNull rest
        | None => PSyntax
        end
      else PSyntax
    end
  end
with parse_elems (fuel : nat) (depth : N) (s : string) : presult (list value) :=
  match fuel with
  | O => PFuel
  | S f =>
    match parse_value f depth s with
    | POk v r =>
      match skip_space r with
      | EmptyString => PSyntax
      | String c r1 =>
        if Ascii.eqb c "," then
          match parse_elems f depth (skip_space r1) with
          | POk vs rest => POk (v :: vs) rest
          | PSyntax => PSyntax
          | PFuel => PFuel
          end
        else if Ascii.eqb c "]" then POk [v] r1
        else PSyntax
      end
    | PSyntax => PSyntax
    | PFuel => PFuel
    end
  end
with parse_members (fuel : nat) (depth : N) (s : string) : presult (list (string * value)) :=
  match fuel with
  | O => PFuel
  | S f =>
    match s with
    | EmptyString => PSyntax
    | String c r =>
      if Ascii.eqb c dq then
        match scan_string r with
        | None => PSyntax
        | Some (key, r1) =>
          match skip_space r1 with
          | EmptyString => PSyntax
          | String c2 r2 =>
            if Ascii.eqb c2 ":" then
              match parse_value f depth (skip_space r2) with
              | POk v r3 =>
                match skip_space r3 with
                | EmptyString => PSyntax
                | String c4 r4 =>
                  if Ascii.eqb c4 "," then
                    match parse_members f depth (skip_space r4) with
                    | POk ms rest => POk ((key, v) :: ms) rest
                    | PSyntax => PSyntax
                    | PFuel => PFuel
                    end
                  else if Ascii.eqb c4 "}" then POk [(key, v)] r4
                  else PSyntax
                end
              | PSyntax => PSyntax
              | PFuel => PFuel
              end
            else PSyntax
          end
        end
      else PSyntax
    end
  end.

(** The recursion bound used for a document: twice its length and two. *)
Definition parse_fuel (data : string) : nat := 2 * String.length data + 2.

(** The whole document: one value between optional white space
    ([stateBeginValue] to [stateEndTop]). *)
Definition parse_document (data : string) : presult value :=
  match parse_value (parse_fuel data) 0 (skip_space data) with
  | POk v rest =>
    match skip_space rest with
    | EmptyString => POk v EmptyString
    | String _ _ => PSyntax
    end
  | PSyntax => PSyntax
  | PFuel => PFuel
  end.

(** *** Unquoting of string literals *)

Definition hex_val (c : ascii) : Z :=
  if is_digit c then byte_val c - byte_val "0"
  else if (byte_val "a" <=? byte_val c) && (byte_val c <=? byte_val "f")
       then byte_val c - byte_val "a" + 10
  else byte_val c - byte_val "A" + 10.

(** [getu4]: the rune of a [\uXXXX] at the head of [s], or [-1]. *)
Definition getu4 (s : string) : Z :=
  match s with
  | String c0 (String c1 (String h1 (String h2 (String h3 (String h4 _))))) =>
    if Ascii.eqb c0 backslash && Ascii.eqb c1 "u"
       && is_hex h1 && is_hex h2 && is_hex h3 && is_hex h4
    then ((hex_val h1 * 16 + hex_val h2) * 16 + hex_val h3) * 16 + hex_val h4
    else -1
  | _ => -1
  end.

Definition surr1 : Z := 0xd800.
Definition surr2 : Z := 0xdc00.
Definition surr3 : Z := 0xe000.
Definition surrSelf : Z := 0x10000.
Definition ReplacementChar : Z := 0xFFFD.

(** [utf16.IsSurrogate] and [utf16.DecodeRune]. *)
Definition utf16_IsSurrogate (r : Z) : bool := (surr1 <=? r) && (r <? surr3).

Definition utf16_DecodeRune (r1 r2 : Z) : Z :=
  if (surr1 <=? r1) && (r1 <? surr2) && (surr2 <=? r2) && (r2 <? surr3)
  then Z.lor (Z.shiftl (r1 - surr1) 10) (r2 - surr2) + surrSelf
  else ReplacementChar.

Definition simple_escape (e : ascii) : option ascii :=
  if Ascii.eqb e dq || Ascii.eqb e backslash || Ascii.eqb e "/" || Ascii.eqb e "'"
  then Some e
  else if Ascii.eqb e "b" then Some "008"%char
  else if Ascii.eqb e "f" then Some "012"%char
  else if Ascii.eqb e "n" then Some "010"%char
  else if Ascii.eqb e "r" then Some "013"%char
  else if Ascii.eqb e "t" then Some "009"%char
  else None.

Definition prepend (p : string) (o : option string) : option string :=
  match o with
  | Some t => Some (p +:+ t)
  | None => None
  end.

(** The loop of [unquoteBytes] on the content of a literal: escapes are
    replaced, other bytes are coerced to well-formed UTF-8.  [None] is
    the library's [ok = false]. *)
Fixpoint unquote_loop (fuel : nat) (s : string) : option string :=
  match s with
  | EmptyString => Some EmptyString
  | String c r =>
    match fuel with
    | O => None
    | S f =>
      if Ascii.eqb c backslash then
        match r with
        | EmptyString => None
        | String e r1 =>
          if Ascii.eqb e "u" then
            let rr := getu4 s in
            if rr <? 0 then None else
            let s1 := sdrop 6 s in
            if utf16_IsSurrogate rr then
              let dec := utf16_DecodeRune rr (getu4 s1) in
              if negb (dec =? ReplacementChar) then
                prepend (utf8.EncodeRune dec) (unquote_loop f (sdrop 6 s1))
              else
                prepend (utf8.EncodeRune ReplacementChar) (unquote_loop f s1)
            else prepend (utf8.EncodeRune rr) (unquote_loop f s1)
          else
            match simple_escape e with
            | Some b => prepend (String b EmptyString) (unquote_loop f r1)
            | None => None
            end
        end
      else if Ascii.eqb c dq || (byte_val c <? byte_val " ") then None
      else if byte_val c <? utf8.RuneSelf then
        prepend (String c EmptyString) (unquote_loop f r)
      else
        let '(rr, size) := utf8.DecodeRune s in
        prepend (utf8.EncodeRune rr) (unquote_loop f (sdrop size s))
    end
  end.

Definition unquoteBytes (raw : string) : option string :=
  unquote_loop (String.length raw) raw.

(** *** Storing into [[]Mapping] *)

Record Mapping : Type := mkMapping {
  Column : string;
  Path : string;
  DataType : string;
  Transform : string
}.

Definition zeroMapping : Mapping := mkMapping EmptyString EmptyString EmptyString EmptyString.

Inductive field : Type := FColumn | FPath | FDataType | FTransform.

(** The names of the struct tags. *)
Definition field_name (f : field) : string :=
  match f with
  | FColumn => "column"
  | FPath => "path"
  | FDataType => "datatype"
  | FTransform => "transform"
  end.

Definition fields : list field := [FColumn; FPath; FDataType; FTransform].

Definition set_field (f : field) (s : string) (m : Mapping) : Mapping :=
  match f with
  | FColumn => mkMapping s (Path m) (DataType m) (Transform m)
  | FPath => mkMapping (Column m) s (DataType m) (Transform m)
  | FDataType => mkMapping (Column m) (Path m) s (Transform m)
  | FTransform => mkMapping (Column m) (Path m) (DataType m) s
  end.

(** [foldName]: ASCII letters in upper case, every other rune replaced
    by the least rune of its case-folding orbit.  The Unicode folding
    table is not part of this development: [foldRune] is a parameter. *)
Fixpoint foldName_from (foldRune : Z -> Z) (skip : nat) (s : string) : string :=
  match s with
  | EmptyString => EmptyString
  | String c r =>
    match skip with
    | S k => foldName_from foldRune k r
    | O =>
      if byte_val c <? utf8.RuneSelf then
        String (strings.upper_byte c) (foldName_from foldRune 0 r)
      else
        let '(rn, n) := utf8.DecodeRune s in
        utf8.EncodeRune (foldRune rn) +:+ foldName_from foldRune (n - 1) r
    end
  end.

Definition foldName (foldRune : Z -> Z) (s : string) : string :=
  foldName_from foldRune 0 s.

(** The field a key selects: an exact match of its name, else a match
    of the folded names. *)
Definition find_field (foldRune : Z -> Z) (key : string) : option field :=
  match List.find (fun f => String.eqb (field_name f) key) fields with
  | Some f => Some f
  | None =>
    List.find (fun f => String.eqb (foldName foldRune (field_name f))
                                   (foldName foldRune key)) fields
  end.

Inductive error : Type :=
| SyntaxError
| UnmarshalTypeError (Value : string).

(** [saveError]: the first error is kept. *)
Definition saveError (saved : option error) (e : error) : option error :=
  match saved with
  | None => Some e
  | Some _ => saved
  end.

(** A value stored into a field of kind string ([literalStore], and
    [array] and [object] on a mismatched target).  [None] is the
    decoder's [panic(phasePanicMsg)]. *)
Definition store_string (v : value) (f : field) (m : Mapping) (saved : option error)
  : option (Mapping * option error) :=
  match v with
  | JString raw =>
    match unquoteBytes raw with
    | Some s => Some (set_field f s m, saved)
    | None => None
    end
  | JNull => Some (m, saved)
  | JBool _ => Some (m, saveError saved (UnmarshalTypeError "bool"))
  | JNumber _ => Some (m, saveError saved (UnmarshalTypeError "number"))
  | JArray _ => Some (m, saveError saved (UnmarshalTypeError "array"))
  | JObject _ => Some (m, saveError saved (UnmarshalTypeError "object"))
  end.

(** The members of an object stored into a struct [Mapping], in order:
    a later duplicate overwrites, an unknown key is skipped. *)
Fixpoint store_members (foldRune : Z -> Z) (ms : list (string * value))
  (m : Mapping) (saved : option error) : option (Mapping * option error) :=
  match ms with
  | [] => Some (m, saved)
  | (rawkey, v) :: rest =>
    match unquoteBytes rawkey with
    | None => None
    | Some key =>
      match find_field foldRune key with
      | Some f =>
        match store_string v f m saved with
        | Some (m', saved') => store_members foldRune rest m' saved'
        | None => None
        end
      | None => store_members foldRune rest m saved
      end
    end
  end.

(** A value stored into a fresh element of the slice. *)
Definition store_elem (foldRune : Z -> Z) (v : value) (saved : option error)
  : option (Mapping * option error) :=
  match v with
  | JObject ms => store_members foldRune ms zeroMapping saved
  | JNull => Some (zeroMapping, saved)
  | JArray _ => Some (zeroMapping, saveError saved (UnmarshalTypeError "array"))
  | JString raw =>
    match unquoteBytes raw with
    | Some _ => Some (zeroMapping, saveError saved (UnmarshalTypeError "string"))
    | None => None
    end
  | JNumber _ => Some (zeroMapping, saveError saved (UnmarshalTypeError "number"))
  | JBool _ => Some (zeroMapping, saveError saved (UnmarshalTypeError "bool"))
  end.

(** The elements of an array, appended to the slice one by one. *)
Fixpoint store_elems (foldRune : Z -> Z) (vs : list value) (saved : option error)
  : option (list Mapping * option error) :=
  match vs with
  | [] => Some ([], saved)
  | v :: rest =>
    match store_elem foldRune v saved with
    | None => None
    | Some (m, saved') =>
      match store_elems foldRune rest saved' with
      | Some (ms, saved'') => Some (m :: ms, saved'')
      | None => None
      end
    end
  end.

(** The document stored into a nil [[]Mapping]: the slice (nil and
    empty are both the empty list) and the saved error. *)
Definition store_slice (foldRune : Z -> Z) (v : value)
  : option (list Mapping * option error) :=
  match v with
  | JArray vs => store_elems foldRune vs None
  | JNull => Some ([], None)
  | JObject _ => Some ([], Some (UnmarshalTypeError "object"))
  | JString raw =>
    match unquoteBytes raw with
    | Some _ => Some ([], Some (UnmarshalTypeError "string"))
    | None => None
    end
  | JNumber _ => Some ([], Some (UnmarshalTypeError "number"))
  | JBool _ => Some ([], Some (UnmarshalTypeError "bool"))
  end.

(** [Unmarshal(data, &oMappings)] with [oMappings] nil: the document is
    checked first and stored only when it is valid.  The result is the
    slice after the call and the returned error. *)
Definition Unmarshal (foldRune : Z -> Z) (data : string)
  : outcome (list Mapping * option error) :=
  match parse_document data with
  | PSyntax => Ok ([], Some SyntaxError)
  | PFuel => Panic PanicFuel
  | POk v _ =>
    match store_slice foldRune v with
    | Some res => Ok res
    | None => Panic PanicJsonPhase
    end
  end.

End json.

(** ** Package fmt *)

Module fmt.

(** [Sprintf] for formats whose only verb is [%s] and whose operands are
    strings: each verb is replaced by the next operand. *)
Fixpoint Sprintf (format : string) (args : list string) : string :=
  match format with
  | EmptyString => EmptyString
  | String c r =>
    if Ascii.eqb c "%" then
      match r with
      | String v r1 =>
        if Ascii.eqb v "s" then
          match args with
          | a :: rest => a +:+ Sprintf r1 rest
          | [] => "%!s(MISSING)" +:+ Sprintf r1 []
          end
        else String c (Sprintf r args)
      | EmptyString => String c EmptyString
      end
    else String c (Sprintf r args)
  end.

End fmt.

(** ** Errors and diagnostics *)

(** An error value: one handed over by the Kusto client, or one built by
    [fmt.Errorf] from a format and its string operands ([ErrWrapf] when
    the last operand is the error it reports). *)
Inductive goerror : Type :=
| ErrOpaque (msg : string)
| ErrErrorf (format : string) (args : list string)
| ErrWrapf (format : string) (args : list string) (cause : goerror).

(** A diagnostic of severity Error: [diag.Errorf] keeps its format, its
    string operands (the [%q] verbs) and the error it reports (the
    [%+v] verb); [diag.FromErr] keeps the error. *)
Inductive Diagnostic : Type :=
| DiagErrorf (format : string) (args : list string) (cause : goerror)
| DiagFromErr (err : goerror).

Abbreviation Diagnostics := (list Diagnostic).

(** [diags.HasError()]: every diagnostic built here is an error. *)
Definition HasError (diags : Diagnostics) : bool :=
  match diags with
  | [] => false
  | _ :: _ => true
  end.

(** ** The Kusto management client *)

Record DateTime : Type := mkDateTime {
  Value : Z;
  Valid : bool
}.

Record TableMapping : Type := mkTableMapping {
  Name : string;
  Kind : string;
  Mapping : string;
  LastUpdatedOn : DateTime;
  Table : string;
  Database : string
}.

(** A management command as the client receives it: the database and
    the text of the statement. *)
Record Command : Type := mkCommand {
  cmd_database : string;
  cmd_text : string
}.

(** A row of a response, as [row.ToStruct(&rec)] finds it. *)
Inductive Row : Type :=
| RowStruct (rec : TableMapping)
| RowError (err : goerror).

(** What [client.Mgmt] returns: an error, or a row iterator (its rows,
    and the error it ends with, if any). *)
Inductive MgmtResult : Type :=
| MgmtError (err : goerror)
| MgmtRows (rows : list Row) (final : option goerror).

(** The cluster is an external service: [Mgmt] answers a command given
    the commands it received before. *)
Record Client : Type := mkClient {
  Endpoint : string;
  Mgmt : list Command -> Command -> MgmtResult
}.

Record Meta : Type := mkMeta {
  Kusto : Client
}.

(** [kusto.NewStmt("", opts).UnsafeAdd(query)]: the text of the statement. *)
Definition NewStmt (query : string) : string := query.
Definition UnsafeAdd (stmt query : string) : string := stmt +:+ query.

(** ** Resource data *)

(** A value of type [interface{}] held in a block of the [mapping] list. *)
Inductive attr : Type :=
| AString (s : string)
| ABool (b : bool)
| AInt (n : Z)
| ANil.

(** A block is a [map[string]interface{}]. *)
Abbreviation block := (gmap string attr).

(** The [*schema.ResourceData] of the resource: its ID and the
    attributes of the schema of [resourceADXTableMapping], each with the
    type the schema gives it (the assertions [d.Get(...).(string)] hold
    by the schema).  [attr_last_updated_on] keeps the value handed to
    [d.Set]. *)
Record ResourceData : Type := mkResourceData {
  Id : string;
  attr_name : string;
  attr_database_name : string;
  attr_table_name : string;
  attr_kind : string;
  attr_mapping : list block;
  attr_last_updated_on : option DateTime
}.

Definition SetId (v : string) (d : ResourceData) : ResourceData :=
  mkResourceData v (attr_name d) (attr_database_name d) (attr_table_name d)
                 (attr_kind d) (attr_mapping d) (attr_last_updated_on d).

Definition Set_table_name (v : string) (d : ResourceData) : ResourceData :=
  mkResourceData (Id d) (attr_name d) (attr_database_name d) v
                 (attr_kind d) (attr_mapping d) (attr_last_updated_on d).

Definition Set_database_name (v : string) (d : ResourceData) : ResourceData :=
  mkResourceData (Id d) (attr_name d) v (attr_table_name d)
                 (attr_kind d) (attr_mapping d) (attr_last_updated_on d).

Definition Set_kind (v : string) (d : ResourceData) : ResourceData :=
  mkResourceData (Id d) (attr_name d) (attr_database_name d) (attr_table_name d)
                 v (attr_mapping d) (attr_last_updated_on d).

Definition Set_mapping (v : list block) (d : ResourceData) : ResourceData :=
  mkResourceData (Id d) (attr_name d) (attr_database_name d) (attr_table_name d)
                 (attr_kind d) v (attr_last_updated_on d).

Definition Set_last_updated_on (v : DateTime) (d : ResourceData) : ResourceData :=
  mkResourceData (Id d) (attr_name d) (attr_database_name d) (attr_table_name d)
                 (attr_kind d) (attr_mapping d) (Some v).

(** ** The state the operations run in *)

(** The resource data, and the commands submitted to the management
    client so far (oldest first). *)
Record World : Type := mkWorld {
  data : ResourceData;
  sent : list Command
}.

(** An operation returns or panics, and leaves a state behind. *)
Definition M (A : Type) : Type := World -> outcome A * World.

Definition ret {A : Type} (a : A) : M A := fun w => (Ok a, w).

Definition bind {A B : Type} (m : M A) (k : A -> M B) : M B :=
  fun w =>
    match m w with
    | (Ok a, w') => k a w'
    | (Panic p, w') => (Panic p, w')
    end.

Notation "x <- m ;; k" := (bind m (fun x => k))
  (at level 100, m at next level, right associativity).
Notation "m ;;; k" := (bind m (fun _ => k))
  (at level 100, right associativity).

Definition lift {A : Type} (o : outcome A) : M A := fun w => (o, w).

Definition get_data : M ResourceData := fun w => (Ok (data w), w).

Definition modify_data (f : ResourceData -> ResourceData) : M unit :=
  fun w => (Ok tt, mkWorld (f (data w)) (sent w)).

(** [client.Mgmt(ctx, db, stmt)]: the command is recorded and answered. *)
Definition call_Mgmt (client : Client) (db stmt : string) : M MgmtResult :=
  fun w =>
    let c := mkCommand db stmt in
    (Ok (Mgmt client (sent w) c), mkWorld (data w) (sent w ++ [c])).

(** [xs[i]]. *)
Definition index {A : Type} (xs : list A) (i : nat) : outcome A :=
  match xs !! i with
  | Some x => Ok x
  | None => Panic (PanicIndexOutOfRange i (length xs))
  end.

(** ** Resource IDs *)

Record adxTableMappingResourceID : Type := mkADXTableMappingID {
  idEndpoint : string;
  idDatabaseName : string;
  idTableName : string;
  idKind : string;
  idName : string
}.

(** Modelled from the spec: [parseADXTableMappingID] is defined outside
    the source file.  The ID has five fields, pipe-delimited, parsed
    positionally; an ID with another number of fields is a parse
    error. *)
Definition parseADXTableMappingID (input : string) : goerror + adxTableMappingResourceID :=
  match strings.Split input "|" with
  | [e; db; t; k; n] => inr (mkADXTableMappingID e db t k n)
  | _ =>
    inl (ErrErrorf "error parsing ADX Table Mapping resource ID: unexpected format: %q"
                   [input])
  end.

(** ** Validation of the schema *)

(** Modelled from the spec: [stringIsNotEmpty] is defined outside the
    source file; an empty required string is rejected. *)
Definition stringIsNotEmpty (key v : string) : Diagnostics :=
  if (String.length v =? 0)%nat
  then [DiagErrorf "expected %q to not be an empty string" [key] (ErrOpaque v)]
  else [].

(** Comparison of two strings up to the case of their ASCII letters. *)
Definition equal_ignoring_case (a b : string) : bool :=
  String.eqb (strings.map_bytes strings.lower_byte a)
             (strings.map_bytes strings.lower_byte b).

(** Modelled from the spec: [stringInSlice] is defined outside the
    source file; a value is accepted when it is one of the listed
    values, compared case-insensitively. *)
Definition stringInSlice (valid : list string) (key v : string) : Diagnostics :=
  if List.existsb (equal_ignoring_case v) valid then []
  else [DiagErrorf "expected %q to be one of the listed values" [key] (ErrOpaque v)].

(** The [ValidateDiagFunc]s of the schema, attribute by attribute. *)
Definition validate_schema (d : ResourceData) : Diagnostics :=
  stringIsNotEmpty "name" (attr_name d)
  ++ stringIsNotEmpty "database_name" (attr_database_name d)
  ++ stringIsNotEmpty "table_name" (attr_table_name d)
  ++ stringInSlice ["Json"] "kind" (attr_kind d).

(** ** The resource *)

(** [quoted s] is [s] between double quotes. *)
Definition quoted (s : string) : string := String dq (s +:+ String dq EmptyString).

(** The formats of [expandTableMapping]. *)
Definition format_required : string :=
  quoted "column" +:+ ":" +:+ quoted "%s" +:+ ","
  +:+ quoted "path" +:+ ":" +:+ quoted "%s" +:+ ","
  +:+ quoted "datatype" +:+ ":" +:+ quoted "%s".

Definition format_transform : string :=
  "%s," +:+ quoted "transform" +:+ ":" +:+ quoted "%s".

(** [block[key].(string)]: panics unless the key holds a string. *)
Definition string_of (key : string) (b : block) : outcome string :=
  match b !! key with
  | Some (AString s) => Ok s
  | _ => Panic (PanicTypeAssertion key)
  end.

(** The body of the loop of [expandTableMapping]. *)
Definition expand_block (b : block) : outcome string :=
  match string_of "column" b with
  | Panic p => Panic p
  | Ok c =>
    match string_of "path" b with
    | Panic p => Panic p
    | Ok p =>
      match string_of "datatype" b with
      | Panic p => Panic p
      | Ok dt =>
        let mapping := fmt.Sprintf format_required [c; p; dt] in
        let mapping :=
          match b !! "transform" with
          | Some (AString t) =>
            if negb (String.length t =? 0)%nat
            then fmt.Sprintf format_transform [mapping; t]
            else mapping
          | _ => mapping
          end in
        Ok (fmt.Sprintf "{%s}" [mapping])
      end
    end
  end.

(** The loop over [input], appending to [mappings].  The elements of a
    list attribute whose element is a resource are blocks: the
    assertion [v.(map[string]interface{})] is in the type of [input]. *)
Fixpoint expand_loop (input : list block) (mappings : list string) : outcome (list string) :=
  match input with
  | [] => Ok mappings
  | v :: rest =>
    match expand_block v with
    | Ok mapping => expand_loop rest (mappings ++ [mapping])
    | Panic p => Panic p
    end
  end.

(** [expandTableMapping]: the empty string for no entry, else the
    objects of the entries joined by commas (no brackets around them). *)
Definition expandTableMapping (input : list block) : outcome string :=
  if (length input =? 0)%nat then Ok EmptyString
  else
    match expand_loop input [] with
    | Ok mappings => Ok (strings.Join mappings ",")
    | Panic p => Panic p
    end.

(** The block built for one decoded [Mapping]. *)
Definition flatten_block (v : json.Mapping) : block :=
  <["transform" := AString (json.Transform v)]>
    (<["datatype" := AString (json.DataType v)]>
      (<["path" := AString (json.Path v)]>
        (<["column" := AString (json.Column v)]> ∅))).

(** The loop of [flattenTableMapping] over the decoded slice. *)
Fixpoint flatten_loop (oMappings : list json.Mapping) (mappings : list block) : list block :=
  match oMappings with
  | [] => mappings
  | v :: rest => flatten_loop rest (mappings ++ [flatten_block v])
  end.

(** The commands of the spec's section 6, as the spec writes them. *)
Definition create_template (table kind name mapping_json : string) : string :=
  ".create-or-alter table " +:+ table +:+ " ingestion " +:+ kind
  +:+ " mapping '" +:+ name +:+ "' '[" +:+ mapping_json +:+ "]'".

Definition show_template (table kind name : string) : string :=
  ".show table " +:+ table +:+ " ingestion " +:+ kind +:+ " mapping '" +:+ name +:+ "'".

Definition drop_template (table kind name : string) : string :=
  ".drop table " +:+ table +:+ " ingestion " +:+ kind +:+ " mapping '" +:+ name +:+ "'".

(** The resource ID of the spec's section 6, as the spec writes it. *)
Definition id_format (endpoint database table kind name : string) : string :=
  endpoint +:+ "|" +:+ database +:+ "|" +:+ table +:+ "|" +:+ kind +:+ "|" +:+ name.

Section Resource.

#[local] Set Default Proof Using "Type".

(** The Unicode tables behind [strings.ToLower] and behind the folding
    of JSON keys. *)
Variable unicode_ToLower : Z -> Z.
Variable unicode_foldRune : Z -> Z.

Definition ToLower (s : string) : string := strings.ToLower unicode_ToLower s.

(** [flattenTableMapping]: the error of [json.Unmarshal] is dropped, and
    the list is built from the slice as the decoder left it. *)
Definition flattenTableMapping (input : string) : outcome (list block) :=
  if (String.length input =? 0)%nat then Ok []
  else
    match json.Unmarshal unicode_foldRune input with
    | Ok (oMappings, _) => Ok (flatten_loop oMappings [])
    | Panic p => Panic p
    end.

(** The callback of [resp.Do], run over the rows in order: it stops at
    the first row that does not decode. *)
Fixpoint resp_Do (id : adxTableMappingResourceID) (rows : list Row)
  (final : option goerror) (schemas : list TableMapping)
  : list TableMapping * option goerror :=
  match rows with
  | [] => (schemas, final)
  | RowStruct rec :: rest => resp_Do id rest final (schemas ++ [rec])
  | RowError err :: _ =>
    (schemas,
     Some (ErrWrapf "error parsing Table schema for Table %q (Database %q): %+v"
                    [idName id; idDatabaseName id] err))
  end.

(** Read: every [schemas[0]] is an index into the slice that [resp.Do]
    filled; the values that [d.Set] returns are dropped. *)
Definition resourceADXTableMappingRead (meta : Meta) : M Diagnostics :=
  let client := Kusto meta in
  d <- get_data ;;
  match parseADXTableMappingID (Id d) with
  | inl err => ret [DiagFromErr err]
  | inr id =>
    let showStatement :=
      fmt.Sprintf ".show table %s ingestion %s mapping '%s'"
                  [idTableName id; ToLower (idKind id); idName id] in
    resp <- call_Mgmt client (idDatabaseName id) (UnsafeAdd (NewStmt EmptyString) showStatement) ;;
    match resp with
    | MgmtError err =>
      ret [DiagErrorf "error reading Table %q (Database %q): %+v"
                      [idName id; idDatabaseName id] err]
    | MgmtRows rows final =>
      match resp_Do id rows final [] with
      | (_, Some err) => ret [DiagErrorf "%+v" [] err]
      | (schemas, None) =>
        s <- lift (index schemas 0) ;;
        modify_data (Set_table_name (Table s)) ;;;
        s <- lift (index schemas 0) ;;
        modify_data (Set_database_name (Database s)) ;;;
        s <- lift (index schemas 0) ;;
        modify_data (Set_kind (Kind s)) ;;;
        s <- lift (index schemas 0) ;;
        mapping <- lift (flattenTableMapping (Mapping s)) ;;
        modify_data (Set_mapping mapping) ;;;
        s <- lift (index schemas 0) ;;
        modify_data (Set_last_updated_on (LastUpdatedOn s)) ;;;
        ret []
      end
    end
  end.

(** Create/Update: the diagnostics of the closing Read are dropped. *)
Definition resourceADXTableMappingCreateUpdate (meta : Meta) : M Diagnostics :=
  let client := Kusto meta in
  d <- get_data ;;
  let name := attr_name d in
  let tableName := attr_table_name d in
  let databaseName := attr_database_name d in
  let kind := attr_kind d in
  mapping <- lift (expandTableMapping (attr_mapping d)) ;;
  let createStatement :=
    fmt.Sprintf ".create-or-alter table %s ingestion %s mapping '%s' '[%s]'"
                [tableName; ToLower kind; name; mapping] in
  res <- call_Mgmt client databaseName (UnsafeAdd (NewStmt EmptyString) createStatement) ;;
  match res with
  | MgmtError err =>
    ret [DiagErrorf "error creating Mapping %q (Table %q, Database %q): %+v"
                    [name; tableName; databaseName] err]
  | MgmtRows _ _ =>
    let id := fmt.Sprintf "%s|%s|%s|%s|%s"
                          [Endpoint client; databaseName; tableName; ToLower kind; name] in
    modify_data (SetId id) ;;;
    resourceADXTableMappingRead meta ;;;
    ret []
  end.

Definition resourceADXTableMappingDelete (meta : Meta) : M Diagnostics :=
  let client := Kusto meta in
  d <- get_data ;;
  match parseADXTableMappingID (Id d) with
  | inl err => ret [DiagFromErr err]
  | inr id =>
    let deleteStatement :=
      fmt.Sprintf ".drop table %s ingestion %s mapping '%s'"
                  [idTableName id; ToLower (idKind id); idName id] in
    res <- call_Mgmt client (idDatabaseName id) (UnsafeAdd (NewStmt EmptyString) deleteStatement) ;;
    match res with
    | MgmtError err =>
      ret [DiagErrorf "error deleting Table Mapping %q (Table %q, Database %q): %+v"
                      [idName id; idTableName id; idDatabaseName id] err]
    | MgmtRows _ _ =>
      modify_data (SetId EmptyString) ;;;
      ret []
    end
  end.

(** Modelled from the spec: the plugin SDK validates the configuration
    against the schema before it calls the resource; a rejected
    configuration never reaches [CreateContext] or [UpdateContext]. *)
Definition validated_CreateUpdate (meta : Meta) : M Diagnostics :=
  d <- get_data ;;
  let diags := validate_schema d in
  if HasError diags then ret diags
  else resourceADXTableMappingCreateUpdate meta.

(** ** Vocabulary of the statements *)

(** The commands an operation submits, written with the templates of
    the spec: Read and Delete submit one command when the ID parses,
    Create/Update submits the create command and, when it succeeds, what
    Read submits for the new ID. *)
Definition read_commands (d : ResourceData) : list Command :=
  match parseADXTableMappingID (Id d) with
  | inr id =>
    [mkCommand (idDatabaseName id)
               (show_template (idTableName id) (ToLower (idKind id)) (idName id))]
  | inl _ => []
  end.

Definition delete_commands (d : ResourceData) : list Command :=
  match parseADXTableMappingID (Id d) with
  | inr id =>
    [mkCommand (idDatabaseName id)
               (drop_template (idTableName id) (ToLower (idKind id)) (idName id))]
  | inl _ => []
  end.

Definition create_command (d : ResourceData) (mapping_json : string) : Command :=
  mkCommand (attr_database_name d)
            (create_template (attr_table_name d) (ToLower (attr_kind d))
                             (attr_name d) mapping_json).

Definition new_id (meta : Meta) (d : ResourceData) : string :=
  id_format (Endpoint (Kusto meta)) (attr_database_name d) (attr_table_name d)
            (ToLower (attr_kind d)) (attr_name d).

Definition create_commands (meta : Meta) (w : World) : list Command :=
  match expandTableMapping (attr_mapping (data w)) with
  | Panic _ => []
  | Ok mapping_json =>
    let c := create_command (data w) mapping_json in
    c :: match Mgmt (Kusto meta) (sent w) c with
         | MgmtError _ => []
         | MgmtRows _ _ => read_commands (SetId (new_id meta (data w)) (data w))
         end
  end.



(** The string a block holds under a key, if it holds one. *)
Definition get_string (key : string) (b : block) : option string :=
  match b !! key with
  | Some (AString s) => Some s
  | _ => None
  end.

Definition field_or_empty (key : string) (b : block) : string :=
  match get_string key b with
  | Some s => s
  | None => EmptyString
  end.

(** A mapping entry as the schema types it: [column], [path] and
    [datatype] hold strings ([transform] is optional). *)
Definition entry_ok (b : block) : bool :=
  match get_string "column" b, get_string "path" b, get_string "datatype" b with
  | Some _, Some _, Some _ => true
  | _, _, _ => false
  end.

(** The JSON object the spec describes for an entry: the keys [column],
    [path] and [datatype], quoted and in that order, and the key
    [transform] when the entry's transform is a non-empty string. *)
Definition transform_json (b : block) : string :=
  match get_string "transform" b with
  | Some t =>
    if (String.length t =? 0)%nat then EmptyString
    else "," +:+ quoted "transform" +:+ ":" +:+ quoted t
  | None => EmptyString
  end.

Definition entry_json (b : block) : string :=
  "{" +:+ quoted "column" +:+ ":" +:+ quoted (field_or_empty "column" b)
  +:+ "," +:+ quoted "path" +:+ ":" +:+ quoted (field_or_empty "path" b)
  +:+ "," +:+ quoted "datatype" +:+ ":" +:+ quoted (field_or_empty "datatype" b)
  +:+ transform_json b +:+ "}".

(** An entry built from four strings, and the entry read back from a
    block: its four keys, a missing transform being the empty string. *)
Definition mk_entry (column path datatype transform : string) : block :=
  <["transform" := AString transform]>
    (<["datatype" := AString datatype]>
      (<["path" := AString path]>
        (<["column" := AString column]> ∅))).

Definition read_back (b : block) : block :=
  mk_entry (field_or_empty "column" b) (field_or_empty "path" b)
           (field_or_empty "datatype" b) (field_or_empty "transform" b).

(** A field of a resource ID holds no pipe. *)
Definition no_pipe (s : string) : bool := negb (strings.contains_byte "|" s).

(** The fields [column], [path] and [datatype] of an entry are not empty. *)
Definition required_nonempty (b : block) : bool :=
  negb (String.length (field_or_empty "column" b) =? 0)%nat
  && negb (String.length (field_or_empty "path" b) =? 0)%nat
  && negb (String.length (field_or_empty "datatype" b) =? 0)%nat.

(** The conditions of the round trip on a field value: no quote and no
    backslash (the claims' condition), no control character, valid
    UTF-8. *)
Definition plain_byte (c : ascii) : bool :=
  negb (Ascii.eqb c dq) && negb (Ascii.eqb c backslash).

Definition printable_byte (c : ascii) : bool := 0x20 <=? byte_val c.

Definition no_quote_backslash (s : string) : bool := strings.all_bytes plain_byte s.

Definition no_control (s : string) : bool := strings.all_bytes printable_byte s.

Definition field_clean (s : string) : bool :=
  no_quote_backslash s && no_control s && utf8.ValidString s.

Definition all_fields (p : string -> bool) (b : block) : bool :=
  p (field_or_empty "column" b) && p (field_or_empty "path" b)
  && p (field_or_empty "datatype" b) && p (field_or_empty "transform" b).

(** The content of a string literal the scanner accepts: plain bytes
    and complete escapes. *)
Inductive literal : string -> Prop :=
| literal_nil : literal EmptyString
| literal_plain (c : ascii) (s : string) :
    c <> dq -> c <> backslash -> 0x20 <= byte_val c ->
    literal s -> literal (String c s)
| literal_escape (e : ascii) (s : string) :
    json.is_simple_escape e = true ->
    literal s -> literal (String backslash (String e s))
| literal_unicode (h1 h2 h3 h4 : ascii) (s : string) :
    json.is_hex h1 && json.is_hex h2 && json.is_hex h3 && json.is_hex h4 = true ->
    literal s ->
    literal (String backslash (String "u" (String h1 (String h2 (String h3 (String h4 s)))))).

(** The first [n] bytes of [s] exist and are not ASCII. *)
Fixpoint high_prefix (n : nat) (s : string) : bool :=
  match n with
  | O => true
  | S k =>
    match s with
    | String c r => (0x80 <=? byte_val c) && high_prefix k r
    | EmptyString => false
    end
  end.

(** A document whose literals and keys are all well formed. *)
Fixpoint wf_value (v : json.value) : Prop :=
  match v with
  | json.JString raw => literal raw
  | json.JArray vs =>
    (fix all (l : list json.value) : Prop :=
       match l with
       | [] => True
       | x :: t => wf_value x /\ all t
       end) vs
  | json.JObject ms =>
    (fix all (l : list (string * json.value)) : Prop :=
       match l with
       | [] => True
       | (k, x) :: t => literal k /\ wf_value x /\ all t
       end) ms
  | _ => True
  end.

Definition wf_values (vs : list json.value) : Prop :=
  wf_value (json.JArray vs).

Definition wf_members (ms : list (string * json.value)) : Prop :=
  wf_value (json.JObject ms).

(** A field the scanner reads through to the closing quote. *)
Definition scannable (s : string) : bool := no_quote_backslash s && no_control s.

(** The text of a member whose value is a string, and the text after the
    first three members of an entry. *)
Definition member_text (key s tail : string) : string :=
  String dq (key +:+ String dq (String ":" (String dq (s +:+ String dq tail)))).

Definition transform_tail (b : block) (X : string) : string :=
  match get_string "transform" b with
  | Some t =>
    if (String.length t =? 0)%nat then String "}" X
    else String "," (member_text "transform" t (String "}" X))
  | None => String "}" X
  end.

(** The members the decoder finds in the text of an entry. *)
Definition entry_members (b : block) : list (string * json.value) :=
  [("column", json.JString (field_or_empty "column" b));
   ("path", json.JString (field_or_empty "path" b));
   ("datatype", json.JString (field_or_empty "datatype" b))]
  ++ match get_string "transform" b with
     | Some t =>
       if (String.length t =? 0)%nat then [] else [("transform", json.JString t)]
     | None => []
     end.

(** The [Mapping] decoded from the text of an entry. *)
Definition entry_mapping (b : block) : json.Mapping :=
  json.mkMapping (field_or_empty "column" b) (field_or_empty "path" b)
                 (field_or_empty "datatype" b) (field_or_empty "transform" b).

(** *** Vocabulary of the further properties *)

(** The key whose assertion fails first in an entry that is not typed as
    the schema says. *)
Definition first_bad_key (b : block) : string :=
  match get_string "column" b with
  | None => "column"
  | Some _ =>
    match get_string "path" b with
    | None => "path"
    | Some _ => "datatype"
    end
  end.

(** A block with the four keys of a mapping entry, each a string, and
    nothing else. *)
Definition four_keys (b : block) : Prop :=
  exists c p d t, b = mk_entry c p d t.

(** The show and the create command, as the management client receives
    them. *)
Definition show_command (id : adxTableMappingResourceID) : Command :=
  mkCommand (idDatabaseName id)
            (show_template (idTableName id) (ToLower (idKind id)) (idName id)).


(** The number of entries a checked document gives: one per element of
    an array, none for any other value. *)
Definition element_count (v : json.value) : nat :=
  match v with
  | json.JArray vs => length vs
  | _ => 0%nat
  end.

(** The error a row that does not decode is reported with. *)
Definition row_error (id : adxTableMappingResourceID) (err : goerror) : goerror :=
  ErrWrapf "error parsing Table schema for Table %q (Database %q): %+v"
           [idName id; idDatabaseName id] err.

(** A command whose text starts with one of the given prefixes. *)
Fixpoint starts_with (p s : string) : bool :=
  match p with
  | EmptyString => true
  | String a p' =>
    match s with
    | String b s' => Ascii.eqb a b && starts_with p' s'
    | EmptyString => false
    end
  end.

Definition submits (prefixes : list string) (c : Command) : bool :=
  List.existsb (fun p => starts_with p (cmd_text c)) prefixes.

(** *** Concrete instances *)

(** Two entries, a cluster that answers every command with no rows, one
    that refuses every command, and a resource as Create finds it. *)
Definition sample_entries : list block :=
  [mk_entry "a" "$.a" "string" ""; mk_entry "b" "$.b" "int" "DateTimeFromUnixSeconds"].

Definition silent_cluster : Meta :=
  mkMeta (mkClient "https://c.kusto.windows.net" (fun _ _ => MgmtRows [] None)).

Definition failing_cluster : Meta :=
  mkMeta (mkClient "https://c.kusto.windows.net" (fun _ _ => MgmtError (ErrOpaque "refused"))).

Definition sample_data (id kind : string) : ResourceData :=
  mkResourceData id "m" "db" "t" kind sample_entries None.

Definition sample_id : string := "https://c.kusto.windows.net|db|t|json|m".

(** The Unicode tables play no part in the instances: the identity
    stands for both. *)
Definition no_table (r : Z) : Z := r.

(** A row as the cluster returns it, a cluster that answers every
    command with the mapping of the two entries (and a second row), one
    that accepts the first command and refuses the next ones, and one
    whose second row does not decode. *)
Definition sample_row (mapping : string) : TableMapping :=
  mkTableMapping "m" "Json" mapping (mkDateTime 1700000000 true) "t" "db".

Definition sample_document : string :=
  "[" +:+ strings.Join (List.map entry_json sample_entries) "," +:+ "]".

Definition echo_cluster : Meta :=
  mkMeta (mkClient "https://c.kusto.windows.net"
            (fun _ _ => MgmtRows [RowStruct (sample_row sample_document);
                                  RowStruct (sample_row EmptyString)] None)).

Definition refusing_after_first : Meta :=
  mkMeta (mkClient "https://c.kusto.windows.net"
            (fun history _ =>
               match history with
               | [] => MgmtRows [] None
               | _ :: _ => MgmtError (ErrOpaque "refused")
               end)).

Definition bad_row_cluster : Meta :=
  mkMeta (mkClient "https://c.kusto.windows.net"
            (fun _ _ => MgmtRows [RowStruct (sample_row sample_document);
                                  RowError (ErrOpaque "column mismatch");
                                  RowStruct (sample_row EmptyString)] None)).

Definition sample_parsed_id : adxTableMappingResourceID :=
  mkADXTableMappingID "https://c.kusto.windows.net" "db" "t" "json" "m".

(** An entry without a path. *)
Definition untyped_entry : block :=
  <["datatype" := AString "string"]> (<["column" := AString "c"]> ∅).

(** A cluster whose stream of rows ends with an error after a row that
    decodes. *)
Definition broken_stream_cluster : Meta :=
  mkMeta (mkClient "https://c.kusto.windows.net"
            (fun _ _ => MgmtRows [RowStruct (sample_row sample_document)]
                                 (Some (ErrOpaque "stream broken")))).

(** ** Facts about strings *)

#[local] Arguments String.append !_ _ / : simpl nomatch.

Lemma string_append_assoc (a b c : string) : (a +:+ b) +:+ c = a +:+ (b +:+ c).
Proof. induction a as [|x a IH]; simpl; [reflexivity | now rewrite IH]. Qed.

Lemma string_append_empty_r (a : string) : a +:+ EmptyString = a.
Proof. induction a as [|x a IH]; simpl; [reflexivity | now rewrite IH]. Qed.

Lemma string_length_append (a b : string) :
  String.length (a +:+ b) = (String.length a + String.length b)%nat.
Proof. induction a as [|x a IH]; simpl; [reflexivity | now rewrite IH]. Qed.

(** Strings built from literals and variables, brought to one
    right-nested form. *)
Ltac string_norm :=
  unfold quoted; simpl;
  repeat (rewrite !string_append_assoc; simpl);
  rewrite ?string_append_empty_r.

(** ** The codec: expansion *)

Lemma expand_block_entry_json (b : block) :
  entry_ok b = true -> expand_block b = Ok (entry_json b).
Proof.
  unfold entry_ok, expand_block, entry_json, transform_json, field_or_empty,
    get_string, string_of.
  destruct (b !! "column") as [[c| | |]|]; try discriminate.
  destruct (b !! "path") as [[p| | |]|]; try discriminate.
  destruct (b !! "datatype") as [[dt| | |]|]; try discriminate.
  intros _.
  destruct (b !! "transform") as [[t| | |]|];
    [destruct (String.length t =? 0)%nat|..];
    unfold format_required, format_transform; string_norm; reflexivity.
Qed.

Lemma expand_loop_entry_json (entries : list block) (acc : list string) :
  Forall (fun b => entry_ok b = true) entries ->
  expand_loop entries acc = Ok (acc ++ List.map entry_json entries).
Proof.
  intros H. revert acc.
  induction H as [|b entries Hb _ IH]; intros acc; simpl.
  - now rewrite app_nil_r.
  - rewrite (expand_block_entry_json b Hb), IH, <- List.app_assoc. reflexivity.
Qed.

Lemma expandTableMapping_entry_json (entries : list block) :
  Forall (fun b => entry_ok b = true) entries ->
  expandTableMapping entries = Ok (strings.Join (List.map entry_json entries) ",").
Proof.
  intros H. unfold expandTableMapping.
  destruct entries as [|b entries]; [reflexivity|].
  simpl Nat.eqb. cbv iota.
  now rewrite (expand_loop_entry_json _ [] H).
Qed.

(** ** Bytes and UTF-8 *)

Lemma byte_val_range (c : ascii) : 0 <= byte_val c < 256.
Proof.
  unfold byte_val. pose proof (N_ascii_bounded c) as H. lia.
Qed.

Lemma byte_of_val (c : ascii) : byte_of (byte_val c) = c.
Proof.
  unfold byte_of. rewrite Z.mod_small by apply byte_val_range.
  unfold byte_val. rewrite N2Z.id. apply ascii_N_embedding.
Qed.

Lemma byte_of_eq (z : Z) (c : ascii) : z mod 256 = byte_val c -> byte_of z = c.
Proof.
  intros H. unfold byte_of. rewrite H. unfold byte_val.
  rewrite N2Z.id. apply ascii_N_embedding.
Qed.

(** Two bit patterns that do not overlap add up. *)
Lemma lor_disjoint (k x y : Z) :
  0 <= k -> 0 <= x -> x mod 2 ^ k = 0 -> 0 <= y < 2 ^ k -> Z.lor x y = x + y.
Proof.
  intros Hk Hx Hm Hy. symmetry. apply Z.add_nocarry_lor.
  apply Z.bits_inj'. intros n Hn.
  rewrite Z.land_spec, Z.bits_0.
  destruct (Z.lt_ge_cases n k) as [Hlt|Hge].
  - assert (Z.testbit x n = false) as ->; [|reflexivity].
    rewrite <- (Z.mod_pow2_bits_low x k n) by lia.
    rewrite Hm. apply Z.bits_0.
  - assert (Z.testbit y n = false) as ->; [|apply andb_false_r].
    rewrite <- (Z.mod_small y (2 ^ k)) by lia.
    apply Z.mod_pow2_bits_high. lia.
Qed.

Lemma first_Lead (p0 : Z) (sz : nat) (lo hi : Z) :
  utf8.first p0 = utf8.Lead sz lo hi ->
  (sz = 2%nat \/ sz = 3%nat \/ sz = 4%nat) /\ 0x80 <= lo /\ hi <= 0xBF
  /\ (sz = 2%nat -> 0xC2 <= p0 <= 0xDF)
  /\ (sz = 3%nat -> 0xE0 <= p0 <= 0xEF /\ (p0 = 0xE0 -> 0xA0 <= lo) /\ (p0 = 0xED -> hi <= 0x9F))
  /\ (sz = 4%nat -> 0xF0 <= p0 <= 0xF4 /\ (p0 = 0xF0 -> 0x90 <= lo) /\ (p0 = 0xF4 -> hi <= 0x8F)).
Proof.
  unfold utf8.first, utf8.locb, utf8.hicb.
  repeat match goal with
         | |- context [?a <? ?b] => destruct (Z.ltb_spec a b)
         | |- context [?a =? ?b] => destruct (Z.eqb_spec a b)
         end;
    intros Heq; inversion Heq; subst; clear Heq; repeat split; intros; try lia; try discriminate.
Qed.

Lemma first_AS (p0 : Z) : utf8.first p0 = utf8.AS -> p0 < 0x80.
Proof.
  unfold utf8.first.
  repeat match goal with
         | |- context [?a <? ?b] => destruct (Z.ltb_spec a b)
         | |- context [?a =? ?b] => destruct (Z.eqb_spec a b)
         end; intros Heq; try discriminate; lia.
Qed.

Ltac bits_to_arith :=
  unfold utf8.mask2, utf8.mask3, utf8.mask4, utf8.maskx,
    utf8.tx, utf8.t2, utf8.t3, utf8.t4;
  change 0x1F with (Z.ones 5);
  change 0x0F with (Z.ones 4);
  change 0x07 with (Z.ones 3);
  change 0x3F with (Z.ones 6);
  rewrite ?Z.land_ones by lia;
  rewrite ?Z.shiftl_mul_pow2 by lia;
  rewrite ?Z.shiftr_div_pow2 by lia;
  change (2 ^ 3) with 8; change (2 ^ 4) with 16;
  change (2 ^ 5) with 32; change (2 ^ 6) with 64;
  change (2 ^ 12) with 4096; change (2 ^ 18) with 262144.

Ltac zlia :=
  try clear unicode_ToLower; try clear unicode_foldRune;
  change (2 ^ 4) with 16; change (2 ^ 5) with 32;
  change (2 ^ 6) with 64; change (2 ^ 7) with 128;
  change (2 ^ 12) with 4096; change (2 ^ 18) with 262144;
  change (2 ^ 32) with 4294967296;
  Z.div_mod_to_equations; lia.

Lemma decode2 (p0 b1 : Z) :
  0xC2 <= p0 <= 0xDF -> 0x80 <= b1 <= 0xBF ->
  Z.lor (Z.shiftl (Z.land p0 utf8.mask2) 6) (Z.land b1 utf8.maskx)
  = (p0 - 0xC0) * 64 + (b1 - 0x80).
Proof.
  intros H0 H1. bits_to_arith.
  rewrite (lor_disjoint 6) by zlia. zlia.
Qed.

Lemma decode3 (p0 b1 b2 : Z) :
  0xE0 <= p0 <= 0xEF -> 0x80 <= b1 <= 0xBF -> 0x80 <= b2 <= 0xBF ->
  Z.lor (Z.lor (Z.shiftl (Z.land p0 utf8.mask3) 12)
               (Z.shiftl (Z.land b1 utf8.maskx) 6))
        (Z.land b2 utf8.maskx)
  = (p0 - 0xE0) * 4096 + (b1 - 0x80) * 64 + (b2 - 0x80).
Proof.
  intros H0 H1 H2. bits_to_arith.
  rewrite (lor_disjoint 12 (p0 mod 16 * 4096)) by zlia.
  rewrite (lor_disjoint 6) by zlia. zlia.
Qed.

Lemma decode4 (p0 b1 b2 b3 : Z) :
  0xF0 <= p0 <= 0xF4 -> 0x80 <= b1 <= 0xBF -> 0x80 <= b2 <= 0xBF -> 0x80 <= b3 <= 0xBF ->
  Z.lor (Z.lor (Z.lor (Z.shiftl (Z.land p0 utf8.mask4) 18)
                      (Z.shiftl (Z.land b1 utf8.maskx) 12))
               (Z.shiftl (Z.land b2 utf8.maskx) 6))
        (Z.land b3 utf8.maskx)
  = (p0 - 0xF0) * 262144 + (b1 - 0x80) * 4096 + (b2 - 0x80) * 64 + (b3 - 0x80).
Proof.
  intros H0 H1 H2 H3. bits_to_arith.
  rewrite (lor_disjoint 18 (p0 mod 8 * 262144)) by zlia.
  rewrite (lor_disjoint 12 (p0 mod 8 * 262144 + _)) by zlia.
  rewrite (lor_disjoint 6) by zlia. zlia.
Qed.

Lemma encode2 (c0 c1 : ascii) :
  0xC2 <= byte_val c0 <= 0xDF -> 0x80 <= byte_val c1 <= 0xBF ->
  utf8.EncodeRune ((byte_val c0 - 0xC0) * 64 + (byte_val c1 - 0x80))
  = String c0 (String c1 EmptyString).
Proof.
  intros H0 H1. unfold utf8.EncodeRune, utf8.rune1Max, utf8.rune2Max.
  set (r := (byte_val c0 - 0xC0) * 64 + (byte_val c1 - 0x80)).
  assert (0x80 <= r <= 0x7FF) as Hr by (subst r; lia).
  rewrite (Z.mod_small r (2 ^ 32)) by lia.
  destruct (Z.leb_spec r 0x7F); [lia|].
  destruct (Z.leb_spec r 0x7FF); [|lia].
  bits_to_arith.
  rewrite (lor_disjoint 6), (lor_disjoint 7) by zlia.
  f_equal; [|f_equal]; apply byte_of_eq; subst r; zlia.
Qed.

Lemma encode3_bytes (c0 c1 c2 : ascii) :
  0xE0 <= byte_val c0 <= 0xEF -> 0x80 <= byte_val c1 <= 0xBF -> 0x80 <= byte_val c2 <= 0xBF ->
  (byte_val c0 = 0xE0 -> 0xA0 <= byte_val c1) ->
  (byte_val c0 = 0xED -> byte_val c1 <= 0x9F) ->
  utf8.EncodeRune ((byte_val c0 - 0xE0) * 4096 + (byte_val c1 - 0x80) * 64 + (byte_val c2 - 0x80))
  = String c0 (String c1 (String c2 EmptyString)).
Proof.
  intros H0 H1 H2 Hlo Hhi.
  unfold utf8.EncodeRune, utf8.encode3, utf8.rune1Max, utf8.rune2Max, utf8.rune3Max,
    utf8.MaxRune, utf8.surrogateMin, utf8.surrogateMax.
  set (r := (byte_val c0 - 0xE0) * 4096 + (byte_val c1 - 0x80) * 64 + (byte_val c2 - 0x80)).
  assert (0x800 <= r <= 0xFFFF /\ (r < 0xD800 \/ 0xDFFF < r)) as Hr by (subst r; lia).
  rewrite (Z.mod_small r (2 ^ 32)) by lia.
  destruct (Z.leb_spec r 0x7F); [lia|].
  destruct (Z.leb_spec r 0x7FF); [lia|].
  destruct (Z.ltb_spec 0x10FFFF r); [lia|].
  destruct (Z.leb_spec 0xD800 r); destruct (Z.leb_spec r 0xDFFF); try lia;
    destruct (Z.leb_spec r 0xFFFF); try lia; simpl orb; cbv iota;
    bits_to_arith;
    rewrite (lor_disjoint 5), !(lor_disjoint 7) by zlia;
    (f_equal; [|f_equal; [|f_equal]]); apply byte_of_eq; subst r; zlia.
Qed.

Lemma encode4_bytes (c0 c1 c2 c3 : ascii) :
  0xF0 <= byte_val c0 <= 0xF4 -> 0x80 <= byte_val c1 <= 0xBF ->
  0x80 <= byte_val c2 <= 0xBF -> 0x80 <= byte_val c3 <= 0xBF ->
  (byte_val c0 = 0xF0 -> 0x90 <= byte_val c1) ->
  (byte_val c0 = 0xF4 -> byte_val c1 <= 0x8F) ->
  utf8.EncodeRune ((byte_val c0 - 0xF0) * 262144 + (byte_val c1 - 0x80) * 4096
                   + (byte_val c2 - 0x80) * 64 + (byte_val c3 - 0x80))
  = String c0 (String c1 (String c2 (String c3 EmptyString))).
Proof.
  intros H0 H1 H2 H3 Hlo Hhi.
  unfold utf8.EncodeRune, utf8.rune1Max, utf8.rune2Max, utf8.rune3Max,
    utf8.MaxRune, utf8.surrogateMin, utf8.surrogateMax.
  set (r := (byte_val c0 - 0xF0) * 262144 + (byte_val c1 - 0x80) * 4096
            + (byte_val c2 - 0x80) * 64 + (byte_val c3 - 0x80)).
  assert (0x10000 <= r <= 0x10FFFF) as Hr by (subst r; lia).
  rewrite (Z.mod_small r (2 ^ 32)) by lia.
  destruct (Z.leb_spec r 0x7F); [lia|].
  destruct (Z.leb_spec r 0x7FF); [lia|].
  destruct (Z.ltb_spec 0x10FFFF r); [lia|].
  destruct (Z.leb_spec 0xD800 r); destruct (Z.leb_spec r 0xDFFF); try lia;
    destruct (Z.leb_spec r 0xFFFF); try lia; simpl orb; cbv iota;
    bits_to_arith;
    rewrite (lor_disjoint 4), !(lor_disjoint 7) by zlia;
    (f_equal; [|f_equal; [|f_equal; [|f_equal]]]); apply byte_of_eq; subst r; zlia.
Qed.

Lemma encode1_byte (c0 : ascii) :
  byte_val c0 < 0x80 -> utf8.EncodeRune (byte_val c0) = String c0 EmptyString.
Proof.
  intros H. pose proof (byte_val_range c0) as Hr.
  unfold utf8.EncodeRune, utf8.rune1Max.
  rewrite (Z.mod_small _ (2 ^ 32)) by lia.
  destruct (Z.leb_spec (byte_val c0) 0x7F); [|lia].
  now rewrite byte_of_val.
Qed.

(** A validly encoded rune is written back as it was read. *)
Lemma DecodeRune_EncodeRune (c0 : ascii) (r : string) (rn : Z) (size : nat) :
  utf8.DecodeRune (String c0 r) = (rn, size) ->
  ~ (rn = utf8.RuneError /\ size = 1%nat) ->
  String c0 r = utf8.EncodeRune rn +:+ sdrop size (String c0 r).
Proof.
  unfold utf8.DecodeRune.
  destruct (utf8.first (byte_val c0)) as [| |sz lo hi] eqn:Hf.
  - intros [= <- <-] _. apply first_AS in Hf. now rewrite encode1_byte.
  - intros [= <- <-] Hne. exfalso. now apply Hne.
  - apply first_Lead in Hf.
    destruct Hf as (Hsz & Hlo & Hhi & H2 & H3 & H4).
    destruct (String.length (String c0 r) <? sz)%nat eqn:Hlen;
      [intros [= <- <-] Hne; exfalso; now apply Hne|].
    apply Nat.ltb_ge in Hlen.
    destruct r as [|c1 r]; [simpl in Hlen; lia|].
    change (byte_at (String c0 (String c1 r)) 1) with (byte_val c1).
    destruct (Z.ltb_spec (byte_val c1) lo); simpl orb; cbv iota;
      [intros [= <- <-] Hne; exfalso; now apply Hne|].
    destruct (Z.ltb_spec hi (byte_val c1)); cbv iota;
      [intros [= <- <-] Hne; exfalso; now apply Hne|].
    destruct Hsz as [-> | [-> | ->]].
    + simpl Nat.leb. cbv iota. intros [= <- <-] _.
      rewrite decode2 by lia. rewrite encode2 by lia. reflexivity.
    + simpl Nat.leb. cbv iota.
      destruct r as [|c2 r]; [simpl in Hlen; lia|].
      change (byte_at (String c0 (String c1 (String c2 r))) 2) with (byte_val c2).
      unfold utf8.locb, utf8.hicb.
      destruct (Z.ltb_spec (byte_val c2) 0x80); simpl orb; cbv iota;
        [intros [= <- <-] Hne; exfalso; now apply Hne|].
      destruct (Z.ltb_spec 0xBF (byte_val c2)); cbv iota;
        [intros [= <- <-] Hne; exfalso; now apply Hne|].
      intros [= <- <-] _.
      rewrite decode3 by lia. rewrite encode3_bytes by lia. reflexivity.
    + simpl Nat.leb. cbv iota.
      destruct r as [|c2 [|c3 r]]; [simpl in Hlen; lia| simpl in Hlen; lia |].
      change (byte_at (String c0 (String c1 (String c2 (String c3 r)))) 2) with (byte_val c2).
      change (byte_at (String c0 (String c1 (String c2 (String c3 r)))) 3) with (byte_val c3).
      unfold utf8.locb, utf8.hicb.
      destruct (Z.ltb_spec (byte_val c2) 0x80); simpl orb; cbv iota;
        [intros [= <- <-] Hne; exfalso; now apply Hne|].
      destruct (Z.ltb_spec 0xBF (byte_val c2)); cbv iota;
        [intros [= <- <-] Hne; exfalso; now apply Hne|].
      destruct (Z.ltb_spec (byte_val c3) 0x80); simpl orb; cbv iota;
        [intros [= <- <-] Hne; exfalso; now apply Hne|].
      destruct (Z.ltb_spec 0xBF (byte_val c3)); cbv iota;
        [intros [= <- <-] Hne; exfalso; now apply Hne|].
      intros [= <- <-] _.
      rewrite decode4 by lia. rewrite encode4_bytes by lia. reflexivity.
Qed.

(** ** Unquoting *)

Lemma sdrop_length (n : nat) (s : string) :
  String.length (sdrop n s) = (String.length s - n)%nat.
Proof.
  revert s. induction n as [|n IH]; intros [|c r]; simpl; try reflexivity.
  apply IH.
Qed.

Lemma all_bytes_sdrop (p : ascii -> bool) (n : nat) (s : string) :
  strings.all_bytes p s = true -> strings.all_bytes p (sdrop n s) = true.
Proof.
  revert s. induction n as [|n IH]; intros [|c r]; simpl; try easy.
  intros [_ H]%andb_prop. now apply IH.
Qed.

Lemma valid_from_sdrop (k : nat) (s : string) :
  utf8.valid_from k s = utf8.valid_from 0 (sdrop k s).
Proof.
  revert s. induction k as [|k IH]; intros [|c r]; try reflexivity.
  simpl sdrop. rewrite <- IH. reflexivity.
Qed.

Lemma high_prefix_length (n : nat) (s : string) :
  high_prefix n s = true -> (n <= String.length s)%nat.
Proof.
  revert s. induction n as [|n IH]; intros [|c r]; simpl; try lia; try discriminate.
  intros [_ H]%andb_prop. apply IH in H. lia.
Qed.

(** The bytes [DecodeRune] passes over after a non-ASCII byte are not
    ASCII either. *)
Lemma DecodeRune_high_prefix (c0 : ascii) (r : string) (rn : Z) (size : nat) :
  0x80 <= byte_val c0 ->
  utf8.DecodeRune (String c0 r) = (rn, size) ->
  (1 <= size)%nat /\ high_prefix size (String c0 r) = true.
Proof.
  intros Hc0.
  assert ((0x80 <=? byte_val c0) = true) as Hb0 by (apply Z.leb_le; lia).
  assert (forall r', high_prefix 1 (String c0 r') = true) as H1.
  { intros r'. simpl. now rewrite Hb0. }
  unfold utf8.DecodeRune.
  destruct (utf8.first (byte_val c0)) as [| |sz lo hi] eqn:Hf.
  - intros [= <- <-]. split; [lia | apply H1].
  - intros [= <- <-]. split; [lia | apply H1].
  - apply first_Lead in Hf.
    destruct Hf as (Hsz & Hlo & Hhi & _).
    destruct (String.length (String c0 r) <? sz)%nat eqn:Hlen;
      [intros [= <- <-]; split; [lia | apply H1]|].
    apply Nat.ltb_ge in Hlen.
    destruct r as [|c1 r]; [simpl in Hlen; lia|].
    change (byte_at (String c0 (String c1 r)) 1) with (byte_val c1).
    destruct (Z.ltb_spec (byte_val c1) lo); simpl orb; cbv iota;
      [intros [= <- <-]; split; [lia | apply H1]|].
    destruct (Z.ltb_spec hi (byte_val c1)); cbv iota;
      [intros [= <- <-]; split; [lia | apply H1]|].
    assert ((0x80 <=? byte_val c1) = true) as Hb1 by (apply Z.leb_le; lia).
    destruct Hsz as [-> | [-> | ->]]; simpl Nat.leb; cbv iota.
    + intros [= <- <-]. split; [lia|]. simpl. now rewrite Hb0, Hb1.
    + destruct r as [|c2 r]; [simpl in Hlen; lia|].
      change (byte_at (String c0 (String c1 (String c2 r))) 2) with (byte_val c2).
      unfold utf8.locb, utf8.hicb.
      destruct (Z.ltb_spec (byte_val c2) 0x80); simpl orb; cbv iota;
        [intros [= <- <-]; split; [lia | apply H1]|].
      destruct (Z.ltb_spec 0xBF (byte_val c2)); cbv iota;
        [intros [= <- <-]; split; [lia | apply H1]|].
      assert ((0x80 <=? byte_val c2) = true) as Hb2 by (apply Z.leb_le; lia).
      intros [= <- <-]. split; [lia|]. simpl. now rewrite Hb0, Hb1, Hb2.
    + destruct r as [|c2 [|c3 r]]; [simpl in Hlen; lia | simpl in Hlen; lia |].
      change (byte_at (String c0 (String c1 (String c2 (String c3 r)))) 2) with (byte_val c2).
      change (byte_at (String c0 (String c1 (String c2 (String c3 r)))) 3) with (byte_val c3).
      unfold utf8.locb, utf8.hicb.
      destruct (Z.ltb_spec (byte_val c2) 0x80); simpl orb; cbv iota;
        [intros [= <- <-]; split; [lia | apply H1]|].
      destruct (Z.ltb_spec 0xBF (byte_val c2)); cbv iota;
        [intros [= <- <-]; split; [lia | apply H1]|].
      destruct (Z.ltb_spec (byte_val c3) 0x80); simpl orb; cbv iota;
        [intros [= <- <-]; split; [lia | apply H1]|].
      destruct (Z.ltb_spec 0xBF (byte_val c3)); cbv iota;
        [intros [= <- <-]; split; [lia | apply H1]|].
      assert ((0x80 <=? byte_val c2) = true) as Hb2 by (apply Z.leb_le; lia).
      assert ((0x80 <=? byte_val c3) = true) as Hb3 by (apply Z.leb_le; lia).
      intros [= <- <-]. split; [lia|]. simpl.
      now rewrite Hb0, Hb1, Hb2, Hb3.
Qed.

Lemma unquote_loop_unfold (f : nat) (c : ascii) (r : string) :
  json.unquote_loop (S f) (String c r) =
  if Ascii.eqb c backslash then
    match r with
    | EmptyString => None
    | String e r1 =>
      if Ascii.eqb e "u" then
        let rr := json.getu4 (String c r) in
        if rr <? 0 then None else
        let s1 := sdrop 6 (String c r) in
        if json.utf16_IsSurrogate rr then
          let dec := json.utf16_DecodeRune rr (json.getu4 s1) in
          if negb (dec =? json.ReplacementChar) then
            json.prepend (utf8.EncodeRune dec) (json.unquote_loop f (sdrop 6 s1))
          else
            json.prepend (utf8.EncodeRune json.ReplacementChar) (json.unquote_loop f s1)
        else json.prepend (utf8.EncodeRune rr) (json.unquote_loop f s1)
      else
        match json.simple_escape e with
        | Some b => json.prepend (String b EmptyString) (json.unquote_loop f r1)
        | None => None
        end
    end
  else if Ascii.eqb c dq || (byte_val c <? byte_val " ") then None
  else if byte_val c <? utf8.RuneSelf then
    json.prepend (String c EmptyString) (json.unquote_loop f r)
  else
    let '(rr, size) := utf8.DecodeRune (String c r) in
    json.prepend (utf8.EncodeRune rr) (json.unquote_loop f (sdrop size (String c r))).
Proof. reflexivity. Qed.

(** A field without quotes, backslashes and control characters, in valid
    UTF-8, is unquoted to itself. *)
Lemma unquote_loop_clean (fuel : nat) (s : string) :
  (String.length s <= fuel)%nat ->
  no_quote_backslash s = true -> no_control s = true -> utf8.valid_from 0 s = true ->
  json.unquote_loop fuel s = Some s.
Proof.
  revert s. induction fuel as [|f IH]; intros [|c r] Hlen Hq Hc Hv;
    try reflexivity; [simpl in Hlen; lia|].
  rewrite unquote_loop_unfold.
  pose proof Hq as Hq_all. pose proof Hc as Hc_all.
  unfold no_quote_backslash in Hq. unfold no_control in Hc.
  simpl in Hq, Hc.
  apply andb_prop in Hq as [Hq0 Hq]. apply andb_prop in Hc as [Hc0 Hc].
  unfold plain_byte in Hq0. apply andb_prop in Hq0 as [Hdq Hbs].
  apply negb_true_iff in Hdq, Hbs. rewrite Hdq, Hbs.
  unfold printable_byte in Hc0. apply Z.leb_le in Hc0.
  change (byte_val " ") with 0x20.
  destruct (Z.ltb_spec (byte_val c) 0x20); [lia|]. simpl orb. cbv iota.
  simpl in Hlen.
  unfold utf8.RuneSelf.
  destruct (Z.ltb_spec (byte_val c) 0x80) as [Hascii|Hhigh].
  - rewrite IH; try assumption; [reflexivity | lia |].
    simpl in Hv. unfold utf8.first in Hv.
    destruct (Z.ltb_spec (byte_val c) 0x80); [|lia].
    unfold utf8.RuneError in Hv.
    destruct (Z.eqb_spec (byte_val c) 0xFFFD); [lia|]. exact Hv.
  - destruct (utf8.DecodeRune (String c r)) as [rr size] eqn:Hd.
    pose proof (DecodeRune_high_prefix c r rr size Hhigh Hd) as [Hsize Hhp].
    apply high_prefix_length in Hhp.
    assert (utf8.valid_from 0 (String c r)
            = if (rr =? utf8.RuneError) && (size =? 1)%nat then false
              else utf8.valid_from (size - 1) r) as Hv'.
    { cbn [utf8.valid_from]. now rewrite Hd. }
    rewrite Hv' in Hv.
    destruct ((rr =? utf8.RuneError) && (size =? 1)%nat) eqn:Herr; [discriminate|].
    assert (~ (rr = utf8.RuneError /\ size = 1%nat)) as Hne.
    { intros [-> ->]. rewrite Z.eqb_refl in Herr. discriminate. }
    pose proof (DecodeRune_EncodeRune c r rr size Hd Hne) as Heq.
    rewrite IH.
    + simpl. now rewrite <- Heq.
    + rewrite sdrop_length. simpl. lia.
    + apply all_bytes_sdrop. exact Hq_all.
    + apply all_bytes_sdrop. exact Hc_all.
    + destruct size as [|k]; [lia|]. simpl sdrop.
      rewrite <- valid_from_sdrop. now replace (S k - 1)%nat with k in Hv by lia.
Qed.

Lemma unquoteBytes_clean (s : string) :
  field_clean s = true -> json.unquoteBytes s = Some s.
Proof.
  unfold field_clean, utf8.ValidString.
  intros [[Hq Hc]%andb_prop Hv]%andb_prop.
  unfold json.unquoteBytes. now apply unquote_loop_clean.
Qed.

(** ** String literals *)

Lemma literal_drop_high (n : nat) (s : string) :
  literal s -> high_prefix n s = true -> literal (sdrop n s).
Proof.
  revert s. induction n as [|n IH]; intros s Hl Hh; [exact Hl|].
  destruct s as [|c r]; [discriminate|].
  simpl in Hh. apply andb_prop in Hh as [Hc Hh]. apply Z.leb_le in Hc.
  simpl. apply IH; [|exact Hh].
  inversion Hl; subst; try assumption;
    exfalso; change (byte_val backslash) with 92 in Hc; lia.
Qed.

Lemma hex_val_nonneg (c : ascii) : json.is_hex c = true -> 0 <= json.hex_val c.
Proof.
  unfold json.is_hex, json.hex_val, json.is_digit.
  change (byte_val "0") with 48. change (byte_val "9") with 57.
  change (byte_val "a") with 97. change (byte_val "f") with 102.
  change (byte_val "A") with 65. change (byte_val "F") with 70.
  pose proof (byte_val_range c).
  repeat match goal with
         | |- context [?a <=? ?b] => destruct (Z.leb_spec a b)
         end; simpl; intros; try discriminate; lia.
Qed.

Lemma getu4_escape (h1 h2 h3 h4 : ascii) (s : string) :
  json.is_hex h1 && json.is_hex h2 && json.is_hex h3 && json.is_hex h4 = true ->
  0 <= json.getu4 (String backslash (String "u" (String h1 (String h2 (String h3 (String h4 s)))))).
Proof.
  intros H. unfold json.getu4.
  change (Ascii.eqb backslash backslash) with true.
  change (Ascii.eqb "u" "u") with true. simpl andb.
  rewrite H.
  apply andb_prop in H as [[[H1%hex_val_nonneg H2%hex_val_nonneg]%andb_prop
                            H3%hex_val_nonneg]%andb_prop H4%hex_val_nonneg].
  lia.
Qed.

(** A string on which [getu4] succeeds starts with a complete escape. *)
Lemma getu4_shape (s : string) :
  0 <= json.getu4 s ->
  exists h1 h2 h3 h4 r,
    s = String backslash (String "u" (String h1 (String h2 (String h3 (String h4 r)))))
    /\ json.is_hex h1 && json.is_hex h2 && json.is_hex h3 && json.is_hex h4 = true.
Proof.
  unfold json.getu4.
  destruct s as [|c0 [|c1 [|h1 [|h2 [|h3 [|h4 r]]]]]]; try (intros; lia).
  destruct (Ascii.eqb_spec c0 backslash) as [->|]; [|simpl; intros; lia].
  destruct (Ascii.eqb_spec c1 "u") as [->|]; [|simpl; intros; lia].
  simpl andb.
  destruct (json.is_hex h1 && json.is_hex h2 && json.is_hex h3 && json.is_hex h4) eqn:Hh;
    [|intros; lia].
  intros _. exists h1, h2, h3, h4, r. split; [reflexivity | exact Hh].
Qed.

Lemma simple_escape_total (e : ascii) :
  json.is_simple_escape e = true ->
  Ascii.eqb e "u" = false /\ exists b, json.simple_escape e = Some b.
Proof.
  unfold json.is_simple_escape, json.simple_escape.
  destruct (Ascii.eqb_spec e "b") as [->|]; [intros _; split; [reflexivity|eexists; reflexivity]|].
  destruct (Ascii.eqb_spec e "f") as [->|]; [intros _; split; [reflexivity|eexists; reflexivity]|].
  destruct (Ascii.eqb_spec e "n") as [->|]; [intros _; split; [reflexivity|eexists; reflexivity]|].
  destruct (Ascii.eqb_spec e "r") as [->|]; [intros _; split; [reflexivity|eexists; reflexivity]|].
  destruct (Ascii.eqb_spec e "t") as [->|]; [intros _; split; [reflexivity|eexists; reflexivity]|].
  destruct (Ascii.eqb_spec e backslash) as [->|]; [intros _; split; [reflexivity|eexists; reflexivity]|].
  destruct (Ascii.eqb_spec e "/") as [->|]; [intros _; split; [reflexivity|eexists; reflexivity]|].
  destruct (Ascii.eqb_spec e dq) as [->|]; [intros _; split; [reflexivity|eexists; reflexivity]|].
  discriminate.
Qed.

Lemma prepend_is_Some (p : string) (o : option string) :
  is_Some o -> is_Some (json.prepend p o).
Proof. intros [t ->]. simpl. eauto. Qed.

(** The content of a literal is always unquoted: [unquoteBytes] never
    reports [ok = false] on what the scanner accepted. *)
Lemma unquote_loop_literal (fuel : nat) (raw : string) :
  literal raw -> (String.length raw <= fuel)%nat ->
  is_Some (json.unquote_loop fuel raw).
Proof.
  revert raw. induction fuel as [|f IH]; intros raw Hl Hlen.
  - destruct raw; [simpl; eauto | simpl in Hlen; lia].
  - destruct raw as [|c r]; [simpl; eauto|].
    rewrite unquote_loop_unfold. simpl in Hlen.
    destruct (Ascii.eqb_spec c backslash) as [->|Hbs].
    + inversion Hl as [|c' s' Hdq Hnb _ _|e s' He Hs'|h1 h2 h3 h4 s' Hh Hs']; subst.
      * congruence.
      * destruct (simple_escape_total e He) as [-> [b ->]].
        apply prepend_is_Some, IH; [exact Hs' | simpl in Hlen; lia].
      * change (Ascii.eqb "u" "u") with true. cbv iota.
        pose proof (getu4_escape h1 h2 h3 h4 s' Hh) as Hu.
        set (rr := json.getu4 _) in *.
        cbv zeta.
        destruct (Z.ltb_spec rr 0); [lia|].
        change (sdrop 6 (String backslash (String "u" (String h1 (String h2
                 (String h3 (String h4 s'))))))) with s'.
        simpl in Hlen.
        destruct (json.utf16_IsSurrogate rr).
        -- destruct (negb (json.utf16_DecodeRune rr (json.getu4 s') =? json.ReplacementChar))
             eqn:Hdec.
           ++ apply prepend_is_Some.
              assert (0 <= json.getu4 s') as Hu2.
              { unfold json.utf16_DecodeRune in Hdec.
                destruct ((json.surr1 <=? rr) && (rr <? json.surr2)
                          && (json.surr2 <=? json.getu4 s')
                          && (json.getu4 s' <? json.surr3)) eqn:Hr.
                - apply andb_prop in Hr as [[_ Hr]%andb_prop _].
                  apply Z.leb_le in Hr. unfold json.surr2 in Hr. lia.
                - rewrite Z.eqb_refl in Hdec. discriminate. }
              destruct (getu4_shape s' Hu2) as (k1 & k2 & k3 & k4 & r' & -> & Hk).
              simpl sdrop.
              inversion Hs' as [|c' s'' Hdq Hnb _ _|e s'' He Hs''|j1 j2 j3 j4 s'' Hj Hs''];
                subst.
              ** congruence.
              ** discriminate.
              ** apply IH; [exact Hs''|]. simpl in Hlen. lia.
           ++ apply prepend_is_Some, IH; [exact Hs' | lia].
        -- apply prepend_is_Some, IH; [exact Hs' | lia].
    + inversion Hl as [|c' s' Hdq Hnb Hp Hs'|e s' He Hs'|h1 h2 h3 h4 s' Hh Hs']; subst;
        try congruence.
      apply Ascii.eqb_neq in Hdq. rewrite Hdq.
      change (byte_val " ") with 0x20.
      destruct (Z.ltb_spec (byte_val c) 0x20); [lia|]. simpl orb. cbv iota.
      unfold utf8.RuneSelf.
      destruct (Z.ltb_spec (byte_val c) 0x80) as [Hascii|Hhigh].
      * apply prepend_is_Some, IH; [exact Hs' | lia].
      * destruct (utf8.DecodeRune (String c r)) as [rr size] eqn:Hd.
        pose proof (DecodeRune_high_prefix c r rr size Hhigh Hd) as [Hsize Hhp].
        apply prepend_is_Some, IH.
        -- now apply literal_drop_high.
        -- rewrite sdrop_length. simpl. lia.
Qed.

Lemma unquoteBytes_literal (raw : string) :
  literal raw -> is_Some (json.unquoteBytes raw).
Proof.
  intros H. unfold json.unquoteBytes. now apply unquote_loop_literal.
Qed.

Lemma scan_string_unfold (c : ascii) (r : string) :
  json.scan_string (String c r) =
  if Ascii.eqb c dq then Some (EmptyString, r)
  else if Ascii.eqb c backslash then
    match r with
    | EmptyString => None
    | String e r1 =>
      if json.is_simple_escape e then
        match json.scan_string r1 with
        | Some (raw, rest) => Some (String c (String e raw), rest)
        | None => None
        end
      else if Ascii.eqb e "u" then
        match r1 with
        | String h1 (String h2 (String h3 (String h4 r2))) =>
          if json.is_hex h1 && json.is_hex h2 && json.is_hex h3 && json.is_hex h4 then
            match json.scan_string r2 with
            | Some (raw, rest) =>
              Some (String c (String e (String h1 (String h2
                     (String h3 (String h4 raw))))), rest)
            | None => None
            end
          else None
        | _ => None
        end
      else None
    end
  else if byte_val c <? 0x20 then None
  else
    match json.scan_string r with
    | Some (raw, rest) => Some (String c raw, rest)
    | None => None
    end.
Proof. reflexivity. Qed.

(** What the scanner takes for a string literal is a literal, and it
    consumes at least the closing quote. *)
Lemma scan_string_literal (n : nat) (s raw rest : string) :
  (String.length s <= n)%nat ->
  json.scan_string s = Some (raw, rest) ->
  literal raw /\ (String.length rest < String.length s)%nat.
Proof.
  revert s raw rest. induction n as [|n IH]; intros [|c r] raw rest Hlen;
    try discriminate; [simpl in Hlen; lia|].
  rewrite scan_string_unfold. simpl in Hlen.
  destruct (Ascii.eqb_spec c dq) as [->|Hdq].
  { intros [= <- <-]. split; [constructor | simpl; lia]. }
  destruct (Ascii.eqb_spec c backslash) as [->|Hbs].
  - destruct r as [|e r1]; [discriminate|].
    destruct (json.is_simple_escape e) eqn:He.
    + destruct (json.scan_string r1) as [[raw' rest']|] eqn:Hs; [|discriminate].
      intros [= <- <-].
      apply IH in Hs as [Hl Hr]; [|simpl in Hlen; lia].
      split; [now constructor | simpl in *; lia].
    + destruct (Ascii.eqb_spec e "u") as [->|]; [|discriminate].
      destruct r1 as [|h1 [|h2 [|h3 [|h4 r2]]]]; try discriminate.
      destruct (json.is_hex h1 && json.is_hex h2 && json.is_hex h3 && json.is_hex h4)
        eqn:Hh; [|discriminate].
      destruct (json.scan_string r2) as [[raw' rest']|] eqn:Hs; [|discriminate].
      intros [= <- <-].
      apply IH in Hs as [Hl Hr]; [|simpl in Hlen; lia].
      split; [now constructor | simpl in *; lia].
  - destruct (Z.ltb_spec (byte_val c) 0x20); [discriminate|].
    destruct (json.scan_string r) as [[raw' rest']|] eqn:Hs; [|discriminate].
    intros [= <- <-].
    apply IH in Hs as [Hl Hr]; [|lia].
    split; [constructor; assumption | simpl; lia].
Qed.

(** A field without quotes, backslashes and control characters is
    scanned as it stands, up to the closing quote. *)
Lemma scan_string_clean (s rest : string) :
  no_quote_backslash s = true -> no_control s = true ->
  json.scan_string (s +:+ String dq rest) = Some (s, rest).
Proof.
  unfold no_quote_backslash, no_control.
  induction s as [|c s IH]; intros Hq Hc.
  - reflexivity.
  - simpl in Hq, Hc.
    apply andb_prop in Hq as [[Hdq Hbs]%andb_prop Hq].
    apply andb_prop in Hc as [Hc0 Hc].
    apply negb_true_iff in Hdq, Hbs.
    unfold printable_byte in Hc0. apply Z.leb_le in Hc0.
    change (String c s +:+ String dq rest) with (String c (s +:+ String dq rest)).
    rewrite scan_string_unfold, Hdq, Hbs.
    destruct (Z.ltb_spec (byte_val c) 0x20); [lia|].
    now rewrite IH.
Qed.

(** ** The parser: what it returns, and that its fuel suffices *)

Lemma skip_space_length (s : string) :
  (String.length (json.skip_space s) <= String.length s)%nat.
Proof.
  induction s as [|c s IH]; simpl; [lia|].
  destruct (json.is_space c); simpl; lia.
Qed.

Lemma scan_digits_length (s d rest : string) :
  json.scan_digits s = (d, rest) -> (String.length rest <= String.length s)%nat.
Proof.
  revert d rest. induction s as [|c s IH]; intros d rest; simpl.
  - intros [= <- <-]. simpl. lia.
  - destruct (json.is_digit c).
    + destruct (json.scan_digits s) as [d' rest'] eqn:Hs.
      intros [= <- <-]. specialize (IH _ _ eq_refl). lia.
    + intros [= <- <-]. simpl. lia.
Qed.

Lemma scan_int_length (s ip rest : string) :
  json.scan_int s = Some (ip, rest) -> (String.length rest < String.length s)%nat.
Proof.
  unfold json.scan_int. destruct s as [|c r]; [discriminate|].
  destruct (Ascii.eqb c "0"); [intros [= <- <-]; simpl; lia|].
  destruct (json.is_digit c); [|discriminate].
  destruct (json.scan_digits r) as [d rest'] eqn:Hs.
  intros [= <- <-]. apply scan_digits_length in Hs. simpl. lia.
Qed.

Lemma scan_frac_length (s fp rest : string) :
  json.scan_frac s = Some (fp, rest) -> (String.length rest <= String.length s)%nat.
Proof.
  unfold json.scan_frac. destruct s as [|c r]; [intros [= <- <-]; simpl; lia|].
  destruct (Ascii.eqb c ".").
  - destruct (json.scan_digits r) as [d rest'] eqn:Hs.
    apply scan_digits_length in Hs.
    destruct d; [discriminate|]. intros [= <- <-]. simpl. lia.
  - intros [= <- <-]. simpl. lia.
Qed.

Lemma scan_exp_length (s ep rest : string) :
  json.scan_exp s = Some (ep, rest) -> (String.length rest <= String.length s)%nat.
Proof.
  unfold json.scan_exp. destruct s as [|c r]; [intros [= <- <-]; simpl; lia|].
  destruct (Ascii.eqb c "e" || Ascii.eqb c "E").
  - assert (forall sg r1,
              (String.length r1 <= String.length r)%nat ->
              match json.scan_digits r1 with
              | (EmptyString, _) => None
              | (d, rest0) => Some (String c (sg +:+ d), rest0)
              end = Some (ep, rest) ->
              (String.length rest <= String.length (String c r))%nat) as Hgen.
    { intros sg r1 Hr1. destruct (json.scan_digits r1) as [d rest'] eqn:Hs.
      apply scan_digits_length in Hs.
      destruct d; [discriminate|]. intros [= <- <-]. simpl. lia. }
    destruct r as [|c1 r'].
    + apply Hgen. lia.
    + destruct (Ascii.eqb c1 "+" || Ascii.eqb c1 "-"); apply Hgen; simpl; lia.
  - intros [= <- <-]. simpl. lia.
Qed.

Lemma scan_number_length (s lit rest : string) :
  json.scan_number s = Some (lit, rest) -> (String.length rest < String.length s)%nat.
Proof.
  unfold json.scan_number.
  set (p := match s with
            | String c r => if Ascii.eqb c "-" then (String c EmptyString, r) else (EmptyString, s)
            | EmptyString => (EmptyString, s)
            end).
  assert (String.length (snd p) <= String.length s)%nat as Hp.
  { subst p. destruct s as [|c r]; simpl; [lia|]. destruct (Ascii.eqb c "-"); simpl; lia. }
  destruct p as [sign s1]. simpl in Hp.
  destruct (json.scan_int s1) as [[ip s2]|] eqn:Hi; [|discriminate].
  destruct (json.scan_frac s2) as [[fp s3]|] eqn:Hf; [|discriminate].
  destruct (json.scan_exp s3) as [[ep s4]|] eqn:He; [|discriminate].
  intros [= <- <-].
  apply scan_int_length in Hi. apply scan_frac_length in Hf. apply scan_exp_length in He.
  lia.
Qed.

Lemma strip_prefix_length (p s rest : string) :
  json.strip_prefix p s = Some rest ->
  (String.length rest + String.length p = String.length s)%nat.
Proof.
  revert s. induction p as [|a p IH]; intros [|b s]; simpl; try discriminate.
  - intros [= <-]. reflexivity.
  - intros [= <-]. simpl. lia.
  - destruct (Ascii.eqb a b); [|discriminate]. intros H%IH. lia.
Qed.

Lemma wf_values_cons (v : json.value) (vs : list json.value) :
  wf_values (v :: vs) <-> wf_value v /\ wf_values vs.
Proof. reflexivity. Qed.

Lemma wf_members_cons (k : string) (v : json.value) (ms : list (string * json.value)) :
  wf_members ((k, v) :: ms) <-> literal k /\ wf_value v /\ wf_members ms.
Proof. reflexivity. Qed.

(** Whatever the parser returns is well formed, and it has consumed
    input. *)
Lemma parse_sound (fuel : nat) :
  (forall d s v rest,
      json.parse_value fuel d s = json.POk v rest ->
      wf_value v /\ (String.length rest < String.length s)%nat)
  /\ (forall d s vs rest,
         json.parse_elems fuel d s = json.POk vs rest ->
         wf_values vs /\ (String.length rest < String.length s)%nat)
  /\ (forall d s ms rest,
         json.parse_members fuel d s = json.POk ms rest ->
         wf_members ms /\ (String.length rest < String.length s)%nat).
Proof.
  induction fuel as [|f (IHv & IHe & IHm)]; [repeat split; discriminate|].
  split; [|split].
  - intros d s v rest. cbn [json.parse_value].
    destruct s as [|c r]; [discriminate|].
    pose proof (skip_space_length r) as Hsk.
    destruct (Ascii.eqb c "{").
    { destruct (json.maxNestingDepth <? d + 1)%N; [discriminate|].
      destruct (json.skip_space r) as [|c1 r1]; [discriminate|].
      destruct (Ascii.eqb c1 "}").
      - intros [= <- <-]. split; [exact I | simpl in *; lia].
      - destruct (json.parse_members f (d + 1)%N (String c1 r1)) as [ms rest'| |] eqn:Hm;
          try discriminate.
        intros [= <- <-]. apply IHm in Hm as [Hw Hl].
        split; [exact Hw | simpl in *; lia]. }
    destruct (Ascii.eqb c "[").
    { destruct (json.maxNestingDepth <? d + 1)%N; [discriminate|].
      destruct (json.skip_space r) as [|c1 r1]; [discriminate|].
      destruct (Ascii.eqb c1 "]").
      - intros [= <- <-]. split; [exact I | simpl in *; lia].
      - destruct (json.parse_elems f (d + 1)%N (String c1 r1)) as [vs rest'| |] eqn:He;
          try discriminate.
        intros [= <- <-]. apply IHe in He as [Hw Hl].
        split; [exact Hw | simpl in *; lia]. }
    destruct (Ascii.eqb c dq).
    { destruct (json.scan_string r) as [[raw rest']|] eqn:Hs; [|discriminate].
      intros [= <- <-]. apply (scan_string_literal _ _ _ _ (le_n _)) in Hs as [Hl Hr].
      split; [exact Hl | simpl; lia]. }
    destruct (Ascii.eqb c "-" || json.is_digit c).
    { destruct (json.scan_number (String c r)) as [[lit rest']|] eqn:Hs; [|discriminate].
      intros [= <- <-]. apply scan_number_length in Hs. split; [exact I | exact Hs]. }
    destruct (Ascii.eqb c "t").
    { destruct (json.strip_prefix "true" (String c r)) as [rest'|] eqn:Hs; [|discriminate].
      intros [= <- <-]. apply strip_prefix_length in Hs.
      split; [exact I | simpl in *; lia]. }
    destruct (Ascii.eqb c "f").
    { destruct (json.strip_prefix "false" (String c r)) as [rest'|] eqn:Hs; [|discriminate].
      intros [= <- <-]. apply strip_prefix_length in Hs.
      split; [exact I | simpl in *; lia]. }
    destruct (Ascii.eqb c "n"); [|discriminate].
    destruct (json.strip_prefix "null" (String c r)) as [rest'|] eqn:Hs; [|discriminate].
    intros [= <- <-]. apply strip_prefix_length in Hs.
    split; [exact I | simpl in *; lia].
  - intros d s vs rest. cbn [json.parse_elems].
    destruct (json.parse_value f d s) as [v r| |] eqn:Hv; try discriminate.
    apply IHv in Hv as [Hwv Hlv].
    pose proof (skip_space_length r) as Hsk.
    destruct (json.skip_space r) as [|c r1]; [discriminate|].
    destruct (Ascii.eqb c ",").
    + pose proof (skip_space_length r1) as Hsk1.
      destruct (json.parse_elems f d (json.skip_space r1)) as [vs' rest'| |] eqn:He;
        try discriminate.
      intros [= <- <-]. apply IHe in He as [Hwe Hle].
      split; [apply wf_values_cons; now split | simpl in *; lia].
    + destruct (Ascii.eqb c "]"); [|discriminate].
      intros [= <- <-].
      split; [apply wf_values_cons; now split | simpl in *; lia].
  - intros d s ms rest. cbn [json.parse_members].
    destruct s as [|c r]; [discriminate|].
    destruct (Ascii.eqb c dq); [|discriminate].
    destruct (json.scan_string r) as [[key r1]|] eqn:Hs; [|discriminate].
    apply (scan_string_literal _ _ _ _ (le_n _)) in Hs as [Hlk Hrk].
    pose proof (skip_space_length r1) as Hsk1.
    destruct (json.skip_space r1) as [|c2 r2]; [discriminate|].
    destruct (Ascii.eqb c2 ":"); [|discriminate].
    pose proof (skip_space_length r2) as Hsk2.
    destruct (json.parse_value f d (json.skip_space r2)) as [v r3| |] eqn:Hv;
      try discriminate.
    apply IHv in Hv as [Hwv Hlv].
    pose proof (skip_space_length r3) as Hsk3.
    destruct (json.skip_space r3) as [|c4 r4]; [discriminate|].
    destruct (Ascii.eqb c4 ",").
    + pose proof (skip_space_length r4) as Hsk4.
      destruct (json.parse_members f d (json.skip_space r4)) as [ms' rest'| |] eqn:Hm;
        try discriminate.
      intros [= <- <-]. apply IHm in Hm as [Hwm Hlm].
      split; [apply wf_members_cons; now repeat split | simpl in *; lia].
    + destruct (Ascii.eqb c4 "}"); [|discriminate].
      intros [= <- <-].
      split; [apply wf_members_cons; now repeat split | simpl in *; lia].
Qed.

(** The recursion bound is never hit. *)
Lemma parse_fuel_enough (fuel : nat) :
  (forall d s, (2 * String.length s + 1 <= fuel)%nat ->
               json.parse_value fuel d s <> json.PFuel)
  /\ (forall d s, (2 * String.length s + 2 <= fuel)%nat ->
                  json.parse_elems fuel d s <> json.PFuel)
  /\ (forall d s, (2 * String.length s + 2 <= fuel)%nat ->
                  json.parse_members fuel d s <> json.PFuel).
Proof.
  induction fuel as [|f (IHv & IHe & IHm)]; [repeat split; intros; lia|].
  destruct (parse_sound f) as (Sv & Se & Sm).
  split; [|split].
  - intros d s Hf. cbn [json.parse_value].
    destruct s as [|c r]; [discriminate|].
    pose proof (skip_space_length r) as Hsk. simpl in Hf.
    destruct (Ascii.eqb c "{").
    { destruct (json.maxNestingDepth <? d + 1)%N; [discriminate|].
      destruct (json.skip_space r) as [|c1 r1]; [discriminate|].
      destruct (Ascii.eqb c1 "}"); [discriminate|].
      specialize (IHm (d + 1)%N (String c1 r1)).
      destruct (json.parse_members f (d + 1)%N (String c1 r1)); try discriminate.
      exfalso. apply IHm; [simpl in *; lia | reflexivity]. }
    destruct (Ascii.eqb c "[").
    { destruct (json.maxNestingDepth <? d + 1)%N; [discriminate|].
      destruct (json.skip_space r) as [|c1 r1]; [discriminate|].
      destruct (Ascii.eqb c1 "]"); [discriminate|].
      specialize (IHe (d + 1)%N (String c1 r1)).
      destruct (json.parse_elems f (d + 1)%N (String c1 r1)); try discriminate.
      exfalso. apply IHe; [simpl in *; lia | reflexivity]. }
    destruct (Ascii.eqb c dq).
    { destruct (json.scan_string r) as [[raw rest']|]; discriminate. }
    destruct (Ascii.eqb c "-" || json.is_digit c).
    { destruct (json.scan_number (String c r)) as [[lit rest']|]; discriminate. }
    destruct (Ascii.eqb c "t").
    { destruct (json.strip_prefix "true" (String c r)); discriminate. }
    destruct (Ascii.eqb c "f").
    { destruct (json.strip_prefix "false" (String c r)); discriminate. }
    destruct (Ascii.eqb c "n"); [|discriminate].
    destruct (json.strip_prefix "null" (String c r)); discriminate.
  - intros d s Hf. cbn [json.parse_elems].
    specialize (IHv d s).
    destruct (json.parse_value f d s) as [v r| |] eqn:Hv; try discriminate;
      [|exfalso; apply IHv; [lia | reflexivity]].
    apply Sv in Hv as [_ Hlv].
    pose proof (skip_space_length r) as Hsk.
    destruct (json.skip_space r) as [|c r1]; [discriminate|].
    destruct (Ascii.eqb c ",").
    + pose proof (skip_space_length r1) as Hsk1.
      specialize (IHe d (json.skip_space r1)).
      destruct (json.parse_elems f d (json.skip_space r1)); try discriminate.
      exfalso. apply IHe; [simpl in *; lia | reflexivity].
    + destruct (Ascii.eqb c "]"); discriminate.
  - intros d s Hf. cbn [json.parse_members].
    destruct s as [|c r]; [discriminate|]. simpl in Hf.
    destruct (Ascii.eqb c dq); [|discriminate].
    destruct (json.scan_string r) as [[key r1]|] eqn:Hs; [|discriminate].
    apply (scan_string_literal _ _ _ _ (le_n _)) in Hs as [_ Hrk].
    pose proof (skip_space_length r1) as Hsk1.
    destruct (json.skip_space r1) as [|c2 r2]; [discriminate|].
    destruct (Ascii.eqb c2 ":"); [|discriminate].
    pose proof (skip_space_length r2) as Hsk2.
    specialize (IHv d (json.skip_space r2)).
    destruct (json.parse_value f d (json.skip_space r2)) as [v r3| |] eqn:Hv;
      try discriminate; [|exfalso; apply IHv; [simpl in *; lia | reflexivity]].
    apply Sv in Hv as [_ Hlv].
    pose proof (skip_space_length r3) as Hsk3.
    destruct (json.skip_space r3) as [|c4 r4]; [discriminate|].
    destruct (Ascii.eqb c4 ",").
    + pose proof (skip_space_length r4) as Hsk4.
      specialize (IHm d (json.skip_space r4)).
      destruct (json.parse_members f d (json.skip_space r4)); try discriminate.
      exfalso. apply IHm; [simpl in *; lia | reflexivity].
    + destruct (Ascii.eqb c4 "}"); discriminate.
Qed.

Lemma parse_document_fuel (data : string) : json.parse_document data <> json.PFuel.
Proof.
  unfold json.parse_document, json.parse_fuel.
  destruct (parse_fuel_enough (2 * String.length data + 2)) as (Hv & _ & _).
  specialize (Hv 0%N (json.skip_space data)).
  pose proof (skip_space_length data) as Hsk.
  destruct (json.parse_value _ 0 (json.skip_space data)) as [v rest| |]; try discriminate.
  - destruct (json.skip_space rest); discriminate.
  - intros _. apply Hv; [lia | reflexivity].
Qed.

Lemma parse_document_wf (data : string) (v : json.value) (rest : string) :
  json.parse_document data = json.POk v rest -> wf_value v.
Proof.
  unfold json.parse_document.
  destruct (json.parse_value _ 0 (json.skip_space data)) as [v' rest'| |] eqn:Hp;
    try discriminate.
  destruct (json.skip_space rest'); [|discriminate].
  intros [= <- <-]. now apply (parse_sound _) in Hp.
Qed.

(** ** Storing: the decoder never panics on a checked document *)

Lemma store_string_wf (v : json.value) (f : json.field) (m : json.Mapping) saved :
  wf_value v -> is_Some (json.store_string v f m saved).
Proof.
  destruct v; simpl; eauto.
  intros [s ->]%unquoteBytes_literal. eauto.
Qed.

Lemma store_members_wf (ms : list (string * json.value)) (m : json.Mapping) saved :
  wf_members ms -> is_Some (json.store_members unicode_foldRune ms m saved).
Proof.
  revert m saved. induction ms as [|[k v] ms IH]; intros m saved; [simpl; eauto|].
  intros (Hk & Hv & Hms)%wf_members_cons. simpl.
  apply unquoteBytes_literal in Hk as [key ->].
  destruct (json.find_field unicode_foldRune key) as [f|]; [|now apply IH].
  destruct (store_string_wf v f m saved Hv) as [[m' saved'] ->].
  now apply IH.
Qed.

Lemma store_elem_wf (v : json.value) saved :
  wf_value v -> is_Some (json.store_elem unicode_foldRune v saved).
Proof.
  destruct v; simpl; eauto.
  - intros [s ->]%unquoteBytes_literal. eauto.
  - apply store_members_wf.
Qed.

Lemma store_elems_wf (vs : list json.value) saved :
  wf_values vs -> is_Some (json.store_elems unicode_foldRune vs saved).
Proof.
  revert saved. induction vs as [|v vs IH]; intros saved; [simpl; eauto|].
  intros [Hv Hvs]%wf_values_cons. simpl.
  destruct (store_elem_wf v saved Hv) as [[m saved'] ->].
  destruct (IH saved' Hvs) as [[ms saved''] ->]. eauto.
Qed.

Lemma store_slice_wf (v : json.value) :
  wf_value v -> is_Some (json.store_slice unicode_foldRune v).
Proof.
  destruct v; simpl; eauto.
  - intros [s ->]%unquoteBytes_literal. eauto.
  - apply store_elems_wf.
Qed.

(** [json.Unmarshal] returns on every input. *)
Lemma Unmarshal_returns (data : string) :
  exists oMappings err, json.Unmarshal unicode_foldRune data = Ok (oMappings, err).
Proof.
  unfold json.Unmarshal.
  pose proof (parse_document_fuel data) as Hfuel.
  destruct (json.parse_document data) as [v rest| |] eqn:Hp.
  - apply parse_document_wf in Hp.
    destruct (store_slice_wf v Hp) as [[ms err] ->]. eauto.
  - eauto.
  - congruence.
Qed.

(** ** The codec: the bracket-wrapped expansion is decoded back *)

Lemma skip_space_head (c : ascii) (r : string) :
  json.is_space c = false -> json.skip_space (String c r) = String c r.
Proof. intros H. simpl. now rewrite H. Qed.

Lemma entry_json_text (b : block) (X : string) :
  entry_json b +:+ X
  = String "{"
      (member_text "column" (field_or_empty "column" b)
         (String ","
            (member_text "path" (field_or_empty "path" b)
               (String ","
                  (member_text "datatype" (field_or_empty "datatype" b)
                     (transform_tail b X)))))).
Proof.
  unfold entry_json, transform_json, transform_tail, member_text.
  destruct (get_string "transform" b) as [t|];
    [destruct (String.length t =? 0)%nat|]; string_norm; reflexivity.
Qed.

Lemma parse_value_string (f : nat) (d : N) (s rest : string) :
  scannable s = true ->
  json.parse_value (S f) d (String dq (s +:+ String dq rest)) = json.POk (json.JString s) rest.
Proof.
  intros [Hq Hc]%andb_prop. cbn [json.parse_value].
  change (Ascii.eqb dq "{") with false. change (Ascii.eqb dq "[") with false.
  change (Ascii.eqb dq dq) with true. cbv iota.
  now rewrite scan_string_clean.
Qed.

(** One member whose value is a string, and what follows it. *)
Lemma parse_members_text (f : nat) (d : N) (key s : string) (c : ascii) (rest : string) :
  scannable key = true -> scannable s = true -> json.is_space c = false ->
  json.parse_members (S (S f)) d (member_text key s (String c rest))
  = if Ascii.eqb c "," then
      match json.parse_members (S f) d (json.skip_space rest) with
      | json.POk ms r => json.POk ((key, json.JString s) :: ms) r
      | json.PSyntax => json.PSyntax
      | json.PFuel => json.PFuel
      end
    else if Ascii.eqb c "}" then json.POk [(key, json.JString s)] rest
    else json.PSyntax.
Proof.
  intros Hk Hs Hc. unfold member_text.
  pose proof Hk as [Hkq Hkc]%andb_prop.
  cbn [json.parse_members].
  change (Ascii.eqb dq dq) with true. cbv iota.
  rewrite scan_string_clean by assumption.
  rewrite (skip_space_head ":") by reflexivity.
  change (Ascii.eqb ":" ":") with true. cbv iota.
  rewrite (skip_space_head dq) by reflexivity.
  rewrite parse_value_string by assumption.
  rewrite (skip_space_head c) by assumption.
  reflexivity.
Qed.

Lemma skip_space_member_text (key s tail : string) :
  json.skip_space (member_text key s tail) = member_text key s tail.
Proof. reflexivity. Qed.

Lemma parse_value_object_text (f : nat) (key s tail : string) :
  json.parse_value (S f) 1 (String "{" (member_text key s tail))
  = match json.parse_members f 2 (member_text key s tail) with
    | json.POk ms rest => json.POk (json.JObject ms) rest
    | json.PSyntax => json.PSyntax
    | json.PFuel => json.PFuel
    end.
Proof. reflexivity. Qed.

Lemma all_fields_scannable (b : block) :
  all_fields scannable b = true ->
  scannable (field_or_empty "column" b) = true
  /\ scannable (field_or_empty "path" b) = true
  /\ scannable (field_or_empty "datatype" b) = true
  /\ scannable (field_or_empty "transform" b) = true.
Proof.
  unfold all_fields. intros [[[H1 H2]%andb_prop H3]%andb_prop H4]%andb_prop. auto.
Qed.

Lemma parse_value_entry (f : nat) (b : block) (X : string) :
  all_fields scannable b = true ->
  json.parse_value (6 + f) 1 (entry_json b +:+ X)
  = json.POk (json.JObject (entry_members b)) X.
Proof.
  intros (Hc & Hp & Hd & Ht)%all_fields_scannable.
  rewrite entry_json_text.
  change (6 + f)%nat with (S (S (S (S (S (S f)))))).
  rewrite parse_value_object_text.
  rewrite parse_members_text by (assumption || reflexivity).
  change (Ascii.eqb "," ",") with true. cbv iota.
  rewrite skip_space_member_text.
  rewrite parse_members_text by (assumption || reflexivity).
  change (Ascii.eqb "," ",") with true. cbv iota.
  rewrite skip_space_member_text.
  unfold transform_tail, entry_members, field_or_empty in *.
  destruct (get_string "transform" b) as [t|];
    [destruct (String.length t =? 0)%nat|].
  - rewrite parse_members_text by (assumption || reflexivity). reflexivity.
  - rewrite parse_members_text by (assumption || reflexivity).
    change (Ascii.eqb "," ",") with true. cbv iota.
    rewrite skip_space_member_text.
    rewrite parse_members_text by (assumption || reflexivity). reflexivity.
  - rewrite parse_members_text by (assumption || reflexivity). reflexivity.
Qed.

Lemma parse_elems_unfold (f : nat) (d : N) (s : string) :
  json.parse_elems (S f) d s =
  match json.parse_value f d s with
  | json.POk v r =>
    match json.skip_space r with
    | EmptyString => json.PSyntax
    | String c r1 =>
      if Ascii.eqb c "," then
        match json.parse_elems f d (json.skip_space r1) with
        | json.POk vs rest => json.POk (v :: vs) rest
        | json.PSyntax => json.PSyntax
        | json.PFuel => json.PFuel
        end
      else if Ascii.eqb c "]" then json.POk [v] r1
      else json.PSyntax
    end
  | json.PSyntax => json.PSyntax
  | json.PFuel => json.PFuel
  end.
Proof. reflexivity. Qed.

Lemma join_cons (x : string) (l : list string) :
  strings.Join (x :: l) "," =
  match l with
  | [] => x
  | _ :: _ => x +:+ String "," (strings.Join l ",")
  end.
Proof. destruct l; reflexivity. Qed.

(** The expansion of a non-empty list starts with a brace. *)
Lemma join_entries_head (b : block) (entries : list block) (Y : string) :
  exists R, strings.Join (List.map entry_json (b :: entries)) "," +:+ Y = String "{" R.
Proof.
  simpl List.map. rewrite join_cons.
  destruct (List.map entry_json entries).
  - rewrite entry_json_text. eauto.
  - rewrite string_append_assoc, entry_json_text. eauto.
Qed.

Lemma entry_json_length (b : block) : (2 <= String.length (entry_json b))%nat.
Proof.
  rewrite <- (string_append_empty_r (entry_json b)), entry_json_text.
  unfold member_text. simpl. lia.
Qed.

Lemma join_entries_length (entries : list block) :
  (2 * length entries <= String.length (strings.Join (List.map entry_json entries) ","))%nat.
Proof.
  induction entries as [|b entries IH]; [simpl; lia|].
  pose proof (entry_json_length b) as Hb.
  simpl List.map. rewrite join_cons.
  destruct entries as [|b' entries]; [simpl in *; lia|].
  simpl List.map in *. cbv iota.
  rewrite string_length_append.
  change (String.length (String "," ?x)) with (S (String.length x)).
  simpl length in *. lia.
Qed.

Lemma parse_elems_entries (entries : list block) :
  forall (fuel : nat) (X : string),
    entries <> [] ->
    Forall (fun b => all_fields scannable b = true) entries ->
    (length entries + 7 <= fuel)%nat ->
    json.parse_elems fuel 1 (strings.Join (List.map entry_json entries) "," +:+ String "]" X)
    = json.POk (List.map (fun b => json.JObject (entry_members b)) entries) X.
Proof.
  induction entries as [|b entries IH]; intros fuel X Hne Hall Hfuel; [congruence|].
  inversion Hall as [|b0 l0 Hb Hrest]; subst.
  destruct fuel as [|F]; [simpl in Hfuel; lia|].
  simpl length in Hfuel.
  rewrite parse_elems_unfold. simpl List.map. rewrite join_cons.
  replace F with (6 + (F - 6))%nat at 1 by lia.
  destruct entries as [|b' entries].
  - simpl List.map. cbv iota.
    rewrite parse_value_entry by assumption.
    rewrite (skip_space_head "]") by reflexivity.
    reflexivity.
  - change (List.map entry_json (b' :: entries))
      with (entry_json b' :: List.map entry_json entries).
    cbv iota.
    rewrite string_append_assoc.
    rewrite parse_value_entry by assumption.
    change (String "," ?a +:+ ?b) with (String "," (a +:+ b)).
    rewrite (skip_space_head ",") by reflexivity.
    change (Ascii.eqb "," ",") with true. cbv iota.
    change (entry_json b' :: List.map entry_json entries)
      with (List.map entry_json (b' :: entries)).
    destruct (join_entries_head b' entries (String "]" X)) as [R HR].
    rewrite HR, (skip_space_head "{") by reflexivity. rewrite <- HR.
    rewrite IH; [reflexivity | discriminate | assumption | simpl in *; lia].
Qed.

(** The document sent by Create/Update is read as the array of its
    entries. *)
Lemma parse_document_entries (entries : list block) :
  Forall (fun b => all_fields scannable b = true) entries ->
  json.parse_document ("[" +:+ strings.Join (List.map entry_json entries) "," +:+ "]")
  = json.POk (json.JArray (List.map (fun b => json.JObject (entry_members b)) entries))
             EmptyString.
Proof.
  intros Hall. destruct entries as [|b entries]; [reflexivity|].
  unfold json.parse_document, json.parse_fuel.
  pose proof (join_entries_length (b :: entries)) as Hlen.
  set (J := strings.Join (List.map entry_json (b :: entries)) ",") in *.
  change ("[" +:+ J +:+ "]") with (String "[" (J +:+ String "]" EmptyString)).
  rewrite (skip_space_head "[") by reflexivity.
  assert (String.length (String "[" (J +:+ String "]" EmptyString))
          = S (String.length J + 1)) as ->.
  { simpl. now rewrite string_length_append. }
  replace (2 * S (String.length J + 1) + 2)%nat
    with (S (2 * String.length J + 5)) by lia.
  destruct (join_entries_head b entries (String "]" EmptyString)) as [R HR].
  fold J in HR.
  cbn [json.parse_value].
  change (Ascii.eqb "[" "{") with false. change (Ascii.eqb "[" "[") with true.
  cbv iota.
  change (json.maxNestingDepth <? 0 + 1)%N with false. cbv iota.
  rewrite HR, (skip_space_head "{") by reflexivity.
  change (Ascii.eqb "{" "]") with false. cbv iota.
  rewrite <- HR. subst J.
  rewrite parse_elems_entries; [reflexivity | discriminate | assumption |].
  simpl length in *. lia.
Qed.

Lemma all_fields_clean (b : block) :
  all_fields field_clean b = true ->
  field_clean (field_or_empty "column" b) = true
  /\ field_clean (field_or_empty "path" b) = true
  /\ field_clean (field_or_empty "datatype" b) = true
  /\ field_clean (field_or_empty "transform" b) = true.
Proof.
  unfold all_fields. intros [[[H1 H2]%andb_prop H3]%andb_prop H4]%andb_prop. auto.
Qed.

Lemma field_clean_scannable (s : string) : field_clean s = true -> scannable s = true.
Proof.
  unfold field_clean, scannable. now intros [H _]%andb_prop.
Qed.

Lemma all_fields_clean_scannable (b : block) :
  all_fields field_clean b = true -> all_fields scannable b = true.
Proof.
  intros (H1 & H2 & H3 & H4)%all_fields_clean. unfold all_fields.
  now rewrite !field_clean_scannable.
Qed.

Lemma string_length_zero (t : string) : (String.length t =? 0)%nat = true -> t = EmptyString.
Proof. destruct t; [reflexivity | discriminate]. Qed.

Lemma store_members_string (key s : string) (f : json.field)
  (ms : list (string * json.value)) (m : json.Mapping) (saved : option json.error) :
  json.unquoteBytes key = Some key ->
  json.find_field unicode_foldRune key = Some f ->
  json.unquoteBytes s = Some s ->
  json.store_members unicode_foldRune ((key, json.JString s) :: ms) m saved
  = json.store_members unicode_foldRune ms (json.set_field f s m) saved.
Proof.
  intros Hk Hf Hs. cbn [json.store_members]. rewrite Hk, Hf.
  cbn [json.store_string]. now rewrite Hs.
Qed.

(** The members of an entry are stored into the [Mapping] of its four
    fields, without error. *)
Lemma store_members_entry (b : block) (saved : option json.error) :
  all_fields field_clean b = true ->
  json.store_members unicode_foldRune (entry_members b) json.zeroMapping saved
  = Some (entry_mapping b, saved).
Proof.
  intros (Hc & Hp & Hd & Ht)%all_fields_clean.
  apply unquoteBytes_clean in Hc, Hp, Hd, Ht.
  unfold entry_members, entry_mapping.
  cbn [app].
  rewrite (store_members_string "column" _ json.FColumn) by (reflexivity || assumption).
  rewrite (store_members_string "path" _ json.FPath) by (reflexivity || assumption).
  rewrite (store_members_string "datatype" _ json.FDataType) by (reflexivity || assumption).
  cbn [json.set_field json.Column json.Path json.DataType json.Transform json.zeroMapping].
  assert (field_or_empty "transform" b
          = match get_string "transform" b with Some t => t | None => EmptyString end)
    as Htr by reflexivity.
  rewrite Htr in *. clear Htr.
  destruct (get_string "transform" b) as [t|]; [|reflexivity].
  destruct (String.length t =? 0)%nat eqn:Hlen.
  - apply string_length_zero in Hlen. subst t. reflexivity.
  - rewrite (store_members_string "transform" _ json.FTransform)
      by (reflexivity || assumption).
    reflexivity.
Qed.

Lemma store_elems_entries (entries : list block) :
  Forall (fun b => all_fields field_clean b = true) entries ->
  json.store_elems unicode_foldRune
    (List.map (fun b => json.JObject (entry_members b)) entries) None
  = Some (List.map entry_mapping entries, None).
Proof.
  induction 1 as [|b entries Hb _ IH]; [reflexivity|].
  cbn [List.map json.store_elems json.store_elem].
  rewrite store_members_entry by assumption. now rewrite IH.
Qed.

Lemma flatten_loop_app (oMappings : list json.Mapping) (acc : list block) :
  flatten_loop oMappings acc = acc ++ List.map flatten_block oMappings.
Proof.
  revert acc. induction oMappings as [|v l IH]; intros acc; simpl.
  - now rewrite app_nil_r.
  - now rewrite IH, <- List.app_assoc.
Qed.

(** The document Create/Update sends is decoded to the entries it was
    built from. *)
Lemma Unmarshal_entries (entries : list block) :
  Forall (fun b => all_fields field_clean b = true) entries ->
  json.Unmarshal unicode_foldRune
    ("[" +:+ strings.Join (List.map entry_json entries) "," +:+ "]")
  = Ok (List.map entry_mapping entries, None).
Proof.
  intros Hall. unfold json.Unmarshal.
  rewrite parse_document_entries.
  - cbn [json.store_slice]. now rewrite store_elems_entries.
  - eapply Forall_impl; [exact Hall|]. intros b. apply all_fields_clean_scannable.
Qed.

Lemma flatten_wrapped_entries (entries : list block) :
  Forall (fun b => all_fields field_clean b = true) entries ->
  flattenTableMapping ("[" +:+ strings.Join (List.map entry_json entries) "," +:+ "]")
  = Ok (List.map read_back entries).
Proof.
  intros Hall. unfold flattenTableMapping.
  change ("[" +:+ ?x) with (String "[" x).
  cbn [String.length Nat.eqb].
  change (String "[" ?x) with ("[" +:+ x).
  rewrite Unmarshal_entries by assumption.
  rewrite flatten_loop_app. simpl app.
  rewrite List.map_map. reflexivity.
Qed.

(** Whatever is expanded starts with a brace, so it is never decoded as
    an array. *)
Lemma Unmarshal_object (R : string) :
  exists err, json.Unmarshal unicode_foldRune (String "{" R) = Ok ([], Some err).
Proof.
  unfold json.Unmarshal.
  pose proof (parse_document_fuel (String "{" R)) as Hfuel.
  destruct (json.parse_document (String "{" R)) as [v rest| |] eqn:Hp;
    [|eauto|congruence].
  assert (exists ms, v = json.JObject ms) as [ms ->].
  { unfold json.parse_document in Hp.
    rewrite (skip_space_head "{") in Hp by reflexivity.
    unfold json.parse_fuel in Hp.
    replace (2 * String.length (String "{" R) + 2)%nat
      with (S (2 * String.length (String "{" R) + 1)) in Hp by lia.
    cbn [json.parse_value] in Hp.
    change (Ascii.eqb "{" "{") with true in Hp. cbv iota in Hp.
    change (json.maxNestingDepth <? 0 + 1)%N with false in Hp. cbv iota in Hp.
    destruct (json.skip_space R) as [|c1 r1]; [discriminate|].
    destruct (Ascii.eqb c1 "}").
    - destruct (json.skip_space r1); [|discriminate].
      injection Hp as <- _. eauto.
    - destruct (json.parse_members _ _ _) as [ms rest'| |]; try discriminate.
      destruct (json.skip_space rest'); [|discriminate].
      injection Hp as <- _. eauto. }
  simpl. eauto.
Qed.

Lemma flatten_expansion_empty (entries : list block) (s : string) :
  Forall (fun b => entry_ok b = true) entries ->
  expandTableMapping entries = Ok s ->
  flattenTableMapping s = Ok [].
Proof.
  intros Hok. rewrite expandTableMapping_entry_json by assumption.
  intros [= <-]. destruct entries as [|b entries]; [reflexivity|].
  destruct (join_entries_head b entries EmptyString) as [R HR].
  rewrite string_append_empty_r in HR. rewrite HR.
  unfold flattenTableMapping. cbn [String.length Nat.eqb].
  destruct (Unmarshal_object R) as [err ->]. reflexivity.
Qed.

(** ** The operations *)

Lemma show_statement (t k n : string) :
  UnsafeAdd (NewStmt EmptyString)
            (fmt.Sprintf ".show table %s ingestion %s mapping '%s'" [t; k; n])
  = show_template t k n.
Proof. reflexivity. Qed.

Lemma drop_statement (t k n : string) :
  UnsafeAdd (NewStmt EmptyString)
            (fmt.Sprintf ".drop table %s ingestion %s mapping '%s'" [t; k; n])
  = drop_template t k n.
Proof. reflexivity. Qed.

Lemma create_statement (t k n m : string) :
  UnsafeAdd (NewStmt EmptyString)
            (fmt.Sprintf ".create-or-alter table %s ingestion %s mapping '%s' '[%s]'"
                         [t; k; n; m])
  = create_template t k n m.
Proof. reflexivity. Qed.

Lemma id_statement (e d t k n : string) :
  fmt.Sprintf "%s|%s|%s|%s|%s" [e; d; t; k; n] = id_format e d t k n.
Proof.
  unfold id_format. simpl. now rewrite string_append_empty_r.
Qed.

Ltac run_M :=
  unfold bind, ret, lift, get_data, modify_data, call_Mgmt; cbv beta iota zeta.

(** The three operations, case by case. *)
Lemma Read_cases (meta : Meta) (w : World) :
  resourceADXTableMappingRead meta w =
  match parseADXTableMappingID (Id (data w)) with
  | inl err => (Ok [DiagFromErr err], w)
  | inr id =>
    let c := mkCommand (idDatabaseName id)
                       (show_template (idTableName id) (ToLower (idKind id)) (idName id)) in
    let sent' := sent w ++ [c] in
    match Mgmt (Kusto meta) (sent w) c with
    | MgmtError err =>
      (Ok [DiagErrorf "error reading Table %q (Database %q): %+v"
                      [idName id; idDatabaseName id] err],
       mkWorld (data w) sent')
    | MgmtRows rows final =>
      match resp_Do id rows final [] with
      | (_, Some err) => (Ok [DiagErrorf "%+v" [] err], mkWorld (data w) sent')
      | ([], None) => (Panic (PanicIndexOutOfRange 0 0), mkWorld (data w) sent')
      | (s :: _, None) =>
        let d3 := Set_kind (Kind s)
                    (Set_database_name (Database s)
                       (Set_table_name (Table s) (data w))) in
        match flattenTableMapping (Mapping s) with
        | Panic p => (Panic p, mkWorld d3 sent')
        | Ok mapping =>
          (Ok [], mkWorld (Set_last_updated_on (LastUpdatedOn s) (Set_mapping mapping d3))
                          sent')
        end
      end
    end
  end.
Proof.
  unfold resourceADXTableMappingRead. run_M.
  destruct (parseADXTableMappingID (Id (data w))) as [err|id]; [reflexivity|].
  rewrite show_statement.
  destruct (Mgmt (Kusto meta) (sent w) _) as [err|rows final]; [reflexivity|].
  destruct (resp_Do id rows final []) as [[|s schemas] [err|]]; reflexivity.
Qed.

Lemma Delete_cases (meta : Meta) (w : World) :
  resourceADXTableMappingDelete meta w =
  match parseADXTableMappingID (Id (data w)) with
  | inl err => (Ok [DiagFromErr err], w)
  | inr id =>
    let c := mkCommand (idDatabaseName id)
                       (drop_template (idTableName id) (ToLower (idKind id)) (idName id)) in
    let sent' := sent w ++ [c] in
    match Mgmt (Kusto meta) (sent w) c with
    | MgmtError err =>
      (Ok [DiagErrorf "error deleting Table Mapping %q (Table %q, Database %q): %+v"
                      [idName id; idTableName id; idDatabaseName id] err],
       mkWorld (data w) sent')
    | MgmtRows _ _ => (Ok [], mkWorld (SetId EmptyString (data w)) sent')
    end
  end.
Proof.
  unfold resourceADXTableMappingDelete. run_M.
  destruct (parseADXTableMappingID (Id (data w))) as [err|id]; [reflexivity|].
  rewrite drop_statement.
  destruct (Mgmt (Kusto meta) (sent w) _) as [err|rows final]; reflexivity.
Qed.

Lemma CreateUpdate_cases (meta : Meta) (w : World) :
  resourceADXTableMappingCreateUpdate meta w =
  match expandTableMapping (attr_mapping (data w)) with
  | Panic p => (Panic p, w)
  | Ok mapping_json =>
    let c := create_command (data w) mapping_json in
    let sent' := sent w ++ [c] in
    match Mgmt (Kusto meta) (sent w) c with
    | MgmtError err =>
      (Ok [DiagErrorf "error creating Mapping %q (Table %q, Database %q): %+v"
                      [attr_name (data w); attr_table_name (data w);
                       attr_database_name (data w)] err],
       mkWorld (data w) sent')
    | MgmtRows _ _ =>
      match resourceADXTableMappingRead meta
              (mkWorld (SetId (new_id meta (data w)) (data w)) sent') with
      | (Ok _, w') => (Ok [], w')
      | (Panic p, w') => (Panic p, w')
      end
    end
  end.
Proof.
  unfold resourceADXTableMappingCreateUpdate, create_command, new_id. run_M.
  destruct (expandTableMapping (attr_mapping (data w))) as [mapping|p]; [|reflexivity].
  rewrite create_statement, id_statement.
  destruct (Mgmt (Kusto meta) (sent w) _) as [err|rows final]; [reflexivity|].
  simpl.
  destruct (resourceADXTableMappingRead meta _) as [[diags|p] w']; reflexivity.
Qed.

(** Read submits its command, if any, and leaves the ID as it was. *)
Lemma Read_effects (meta : Meta) (w : World) :
  sent (snd (resourceADXTableMappingRead meta w)) = sent w ++ read_commands (data w)
  /\ Id (data (snd (resourceADXTableMappingRead meta w))) = Id (data w).
Proof.
  rewrite Read_cases. unfold read_commands.
  destruct (parseADXTableMappingID (Id (data w))) as [err|id]; simpl.
  { now rewrite app_nil_r. }
  destruct (Mgmt (Kusto meta) (sent w) _) as [err|rows final]; simpl; [easy|].
  destruct (resp_Do id rows final []) as [[|s schemas] [err|]]; simpl; try easy.
  destruct (flattenTableMapping (Mapping s)); simpl; easy.
Qed.

(** What Delete and Create/Update submit. *)
Lemma Delete_sent (meta : Meta) (w : World) :
  sent (snd (resourceADXTableMappingDelete meta w)) = sent w ++ delete_commands (data w).
Proof.
  rewrite Delete_cases. unfold delete_commands.
  destruct (parseADXTableMappingID (Id (data w))) as [err|id]; simpl.
  - now rewrite app_nil_r.
  - destruct (Mgmt (Kusto meta) (sent w) _); reflexivity.
Qed.

Lemma CreateUpdate_sent (meta : Meta) (w : World) :
  sent (snd (resourceADXTableMappingCreateUpdate meta w)) = sent w ++ create_commands meta w.
Proof.
  rewrite CreateUpdate_cases. unfold create_commands.
  destruct (expandTableMapping (attr_mapping (data w))) as [mapping_json|p]; simpl.
  - destruct (Mgmt (Kusto meta) (sent w) _) as [err|rows final]; [reflexivity|].
    pose proof (Read_effects meta
                  (mkWorld (SetId (new_id meta (data w)) (data w))
                           (sent w ++ [create_command (data w) mapping_json])))
      as [Hsent _].
    destruct (resourceADXTableMappingRead meta _) as [[diags|p] w'];
      simpl in *; rewrite Hsent, <- List.app_assoc; reflexivity.
  - now rewrite app_nil_r.
Qed.

(** ** Resource IDs *)

Lemma Split_no_sep (sep : ascii) (s : string) :
  strings.contains_byte sep s = false -> strings.Split s sep = [s].
Proof.
  unfold strings.contains_byte. intros H%negb_false_iff.
  induction s as [|c s IH]; [reflexivity|].
  simpl in H. apply andb_prop in H as [Hc Hs].
  apply negb_true_iff in Hc. simpl. rewrite Hc, (IH Hs). reflexivity.
Qed.

Lemma Split_field (sep : ascii) (a rest : string) :
  strings.contains_byte sep a = false ->
  strings.Split (a +:+ String sep rest) sep = a :: strings.Split rest sep.
Proof.
  unfold strings.contains_byte. intros H%negb_false_iff.
  induction a as [|c a IH].
  - simpl. now rewrite Ascii.eqb_refl.
  - simpl in H. apply andb_prop in H as [Hc Ha].
    apply negb_true_iff in Hc.
    change (String c a +:+ String sep rest) with (String c (a +:+ String sep rest)).
    simpl. rewrite Hc, (IH Ha). reflexivity.
Qed.

Lemma parse_format (e d t k n : string) :
  no_pipe e = true -> no_pipe d = true -> no_pipe t = true ->
  no_pipe k = true -> no_pipe n = true ->
  parseADXTableMappingID (id_format e d t k n) = inr (mkADXTableMappingID e d t k n).
Proof.
  unfold no_pipe. intros He%negb_true_iff Hd%negb_true_iff Ht%negb_true_iff
                         Hk%negb_true_iff Hn%negb_true_iff.
  unfold parseADXTableMappingID, id_format. simpl.
  rewrite !Split_field, Split_no_sep by assumption. reflexivity.
Qed.

Lemma parse_wrong_count (input : string) :
  length (strings.Split input "|") <> 5%nat ->
  parseADXTableMappingID input
  = inl (ErrErrorf "error parsing ADX Table Mapping resource ID: unexpected format: %q"
                   [input]).
Proof.
  unfold parseADXTableMappingID.
  destruct (strings.Split input "|") as [|a [|b [|c [|d [|e [|f l]]]]]]; simpl;
    intros H; try reflexivity. lia.
Qed.

(** ** Entries read back *)

Lemma read_back_mk_entry (c p d t : string) :
  read_back (mk_entry c p d t) = mk_entry c p d t.
Proof. reflexivity. Qed.

Lemma read_back_without_transform (c p d t : string) :
  read_back (delete "transform" (mk_entry c p d t)) = mk_entry c p d EmptyString.
Proof. reflexivity. Qed.

Lemma expansion_head (entries : list block) (s : string) :
  Forall (fun b => entry_ok b = true) entries ->
  expandTableMapping entries = Ok s ->
  s = EmptyString \/ exists R, s = String "{" R.
Proof.
  intros Hok. rewrite expandTableMapping_entry_json by assumption.
  intros [= <-]. destruct entries as [|b entries]; [now left|right].
  destruct (join_entries_head b entries EmptyString) as [R HR].
  rewrite string_append_empty_r in HR. eauto.
Qed.

Lemma HasError_app_r (l : Diagnostics) (d : Diagnostic) : HasError (l ++ [d]) = true.
Proof. destruct l; reflexivity. Qed.

(** ** The claims *)

(** C1 (amended): for every list of mapping entries whose column, path
    and datatype are non-empty strings and whose fields contain no
    quote, no backslash and no control character and are valid UTF-8,
    [flattenTableMapping] applied to the bracket-wrapped expansion (the
    form the Create/Update command sends) gives back the entries in
    order, an absent transform being read back as the empty string;
    applied to the bare expansion it gives the empty list. *)
Theorem C1_round_trip_of_wrapped_expansion :
  forall entries : list block,
    Forall (fun b => entry_ok b = true) entries ->
    Forall (fun b => required_nonempty b = true) entries ->
    Forall (fun b => all_fields field_clean b = true) entries ->
    exists s,
      expandTableMapping entries = Ok s
      /\ flattenTableMapping ("[" +:+ s +:+ "]") = Ok (List.map read_back entries)
      /\ flattenTableMapping s = Ok []
      /\ (forall c p d t, read_back (mk_entry c p d t) = mk_entry c p d t).
Proof.
  intros entries Hok _ Hclean.
  exists (strings.Join (List.map entry_json entries) ",").
  pose proof (expandTableMapping_entry_json entries Hok) as He.
  split; [exact He|].
  split; [now apply flatten_wrapped_entries|].
  split; [now apply (flatten_expansion_empty entries)|].
  apply read_back_mk_entry.
Qed.

(** C2: when the ID parses and the management command of Read succeeds
    with no row and no stream error, Read reaches [schemas[0]] on an
    empty slice: an index-out-of-range panic, no guard before it. *)
Theorem C2_read_of_no_rows_panics :
  forall (meta : Meta) (w : World) (id : adxTableMappingResourceID),
    parseADXTableMappingID (Id (data w)) = inr id ->
    Mgmt (Kusto meta) (sent w)
         (mkCommand (idDatabaseName id)
                    (show_template (idTableName id) (ToLower (idKind id)) (idName id)))
    = MgmtRows [] None ->
    fst (resourceADXTableMappingRead meta w) = Panic (PanicIndexOutOfRange 0 0).
Proof.
  intros meta w id Hid Hresp. rewrite Read_cases, Hid. cbv zeta.
  rewrite Hresp. reflexivity.
Qed.

(** C3 (amended): a successful Create/Update sets the ID to endpoint,
    database, table, lowercased kind and name joined by pipes; parsing
    an ID so formatted gives back the five fields when none of them
    contains a pipe; an ID that does not split into five fields is a
    parse error, which Read and Delete return as their diagnostic. *)
Theorem C3_resource_id_round_trip :
  (forall meta w mapping_json rows final,
      expandTableMapping (attr_mapping (data w)) = Ok mapping_json ->
      Mgmt (Kusto meta) (sent w) (create_command (data w) mapping_json) = MgmtRows rows final ->
      Id (data (snd (resourceADXTableMappingCreateUpdate meta w)))
      = id_format (Endpoint (Kusto meta)) (attr_database_name (data w))
                  (attr_table_name (data w)) (ToLower (attr_kind (data w)))
                  (attr_name (data w)))
  /\ (forall e d t k n,
         no_pipe e = true -> no_pipe d = true -> no_pipe t = true ->
         no_pipe k = true -> no_pipe n = true ->
         parseADXTableMappingID (id_format e d t k n)
         = inr (mkADXTableMappingID e d t k n))
  /\ (forall input,
         length (strings.Split input "|") <> 5%nat ->
         exists err,
           parseADXTableMappingID input = inl err
           /\ forall meta w,
               Id (data w) = input ->
               resourceADXTableMappingRead meta w = (Ok [DiagFromErr err], w)
               /\ resourceADXTableMappingDelete meta w = (Ok [DiagFromErr err], w)).
Proof.
  split; [|split].
  - intros meta w mapping_json rows final He Hm.
    rewrite CreateUpdate_cases, He. cbv zeta. rewrite Hm.
    pose proof (Read_effects meta
                  (mkWorld (SetId (new_id meta (data w)) (data w))
                           (sent w ++ [create_command (data w) mapping_json]))) as [_ Hid].
    destruct (resourceADXTableMappingRead meta _) as [[diags|p] w']; exact Hid.
  - apply parse_format.
  - intros input Hn. eexists. split; [now apply parse_wrong_count|].
    intros meta w <-. rewrite Read_cases, Delete_cases.
    rewrite parse_wrong_count by assumption. split; reflexivity.
Qed.

(** C4: for entries whose column, path and datatype hold strings,
    [expandTableMapping] emits for each entry the keys column, path and
    datatype, quoted and in that order, and the key transform exactly
    when the entry's transform is a non-empty string; the objects are
    joined by commas.  The two entries of the spec expand as it says. *)
Theorem C4_expand_emits_keys :
  (forall entries : list block,
      Forall (fun b => entry_ok b = true) entries ->
      expandTableMapping entries = Ok (strings.Join (List.map entry_json entries) ","))
  /\ (forall b : block,
         transform_json b <> EmptyString
         <-> exists t, b !! "transform" = Some (AString t) /\ t <> EmptyString)
  /\ (forall (b : block) t,
         b !! "transform" = Some (AString t) -> t <> EmptyString ->
         transform_json b = "," +:+ quoted "transform" +:+ ":" +:+ quoted t)
  /\ expandTableMapping [mk_entry "a" "$.a" "string" ""]
     = Ok ("{" +:+ quoted "column" +:+ ":" +:+ quoted "a"
           +:+ "," +:+ quoted "path" +:+ ":" +:+ quoted "$.a"
           +:+ "," +:+ quoted "datatype" +:+ ":" +:+ quoted "string" +:+ "}")
  /\ expandTableMapping [mk_entry "b" "$.b" "int" "DateTimeFromUnixSeconds"]
     = Ok ("{" +:+ quoted "column" +:+ ":" +:+ quoted "b"
           +:+ "," +:+ quoted "path" +:+ ":" +:+ quoted "$.b"
           +:+ "," +:+ quoted "datatype" +:+ ":" +:+ quoted "int"
           +:+ "," +:+ quoted "transform" +:+ ":" +:+ quoted "DateTimeFromUnixSeconds"
           +:+ "}").
Proof.
  split; [exact expandTableMapping_entry_json|].
  split; [|split; [|split; reflexivity]].
  - intros b. unfold transform_json, get_string.
    destruct (b !! "transform") as [[t| | |]|];
      try (split; [intros H; now contradiction H | intros (t' & Heq & _); discriminate]).
    destruct t as [|c t]; simpl.
    + split; [intros H; now contradiction H|].
      intros (t' & [= <-] & Hne). now contradiction Hne.
    + split; [|discriminate].
      intros _. exists (String c t). split; [reflexivity | discriminate].
  - intros b t Hb Hne. unfold transform_json, get_string. rewrite Hb.
    destruct t; [now contradiction Hne | reflexivity].
Qed.

(** C5: the empty list expands to the empty string, and the empty
    string flattens to the empty list. *)
Theorem C5_empty_mapping :
  expandTableMapping [] = Ok EmptyString /\ flattenTableMapping EmptyString = Ok [].
Proof. split; reflexivity. Qed.

(** C6: the commands submitted to the management client are the three
    templates of the spec: Read and Delete submit the show and the drop
    command for the fields of the parsed ID, Create/Update submits the
    create command for its attributes, the mapping slot holding the
    output of [expandTableMapping], and then what Read submits; the kind
    is lowercased in each. *)
Theorem C6_submitted_commands :
  (forall meta w,
      sent (snd (resourceADXTableMappingRead meta w)) = sent w ++ read_commands (data w))
  /\ (forall meta w,
         sent (snd (resourceADXTableMappingDelete meta w)) = sent w ++ delete_commands (data w))
  /\ (forall meta w,
         sent (snd (resourceADXTableMappingCreateUpdate meta w))
         = sent w ++ create_commands meta w).
Proof.
  split; [|split].
  - intros meta w. apply Read_effects.
  - apply Delete_sent.
  - apply CreateUpdate_sent.
Qed.

(** C7: [flattenTableMapping] returns a list on every input.  When the
    decoder reports an error on a non-empty input, the error is dropped
    and the list is built from whatever was decoded: nothing for an
    input that is not a JSON document, and entries with empty fields
    where a value has the wrong type, as for the array of one object
    whose column is the number 1 and whose path is the string x. *)
Theorem C7_flatten_never_fails :
  (forall input, exists mappings, flattenTableMapping input = Ok mappings)
  /\ (forall input oMappings err,
         input <> EmptyString ->
         json.Unmarshal unicode_foldRune input = Ok (oMappings, Some err) ->
         flattenTableMapping input = Ok (List.map flatten_block oMappings))
  /\ (forall input,
         input <> EmptyString ->
         json.parse_document input = json.PSyntax ->
         json.Unmarshal unicode_foldRune input = Ok ([], Some json.SyntaxError)
         /\ flattenTableMapping input = Ok [])
  /\ (let input := "[{" +:+ quoted "column" +:+ ":1," +:+ quoted "path" +:+ ":"
                   +:+ quoted "x" +:+ "}]" in
      json.Unmarshal unicode_foldRune input
      = Ok ([json.mkMapping "" "x" "" ""], Some (json.UnmarshalTypeError "number"))
      /\ flattenTableMapping input = Ok [mk_entry "" "x" "" ""]).
Proof.
  split; [|split; [|split]].
  - intros input. unfold flattenTableMapping.
    destruct (String.length input =? 0)%nat; [eauto|].
    destruct (Unmarshal_returns input) as (oMappings & err & ->). eauto.
  - intros input oMappings err Hne Hu. unfold flattenTableMapping.
    destruct input as [|c r]; [congruence|].
    cbn [String.length Nat.eqb]. rewrite Hu, flatten_loop_app. reflexivity.
  - intros input Hne Hp.
    assert (json.Unmarshal unicode_foldRune input = Ok ([], Some json.SyntaxError)) as Hu.
    { unfold json.Unmarshal. now rewrite Hp. }
    split; [exact Hu|]. unfold flattenTableMapping.
    destruct input as [|c r]; [congruence|].
    cbn [String.length Nat.eqb]. now rewrite Hu.
  - cbv zeta. split; vm_compute; reflexivity.
Qed.

(** C8: when the management client returns an error, Create/Update
    returns one error diagnostic carrying the name, the table and the
    database, and leaves the resource data, the ID with it, as it was;
    Delete returns one error diagnostic and leaves the ID as it was.
    Delete sets the ID to the empty string when the drop command
    succeeds, and an operation changes the ID only when its command
    succeeded. *)
Theorem C8_client_errors :
  (forall meta w mapping_json err,
      expandTableMapping (attr_mapping (data w)) = Ok mapping_json ->
      Mgmt (Kusto meta) (sent w) (create_command (data w) mapping_json) = MgmtError err ->
      resourceADXTableMappingCreateUpdate meta w
      = (Ok [DiagErrorf "error creating Mapping %q (Table %q, Database %q): %+v"
                        [attr_name (data w); attr_table_name (data w);
                         attr_database_name (data w)] err],
         mkWorld (data w) (sent w ++ [create_command (data w) mapping_json])))
  /\ (forall meta w id err,
         parseADXTableMappingID (Id (data w)) = inr id ->
         Mgmt (Kusto meta) (sent w)
              (mkCommand (idDatabaseName id)
                         (drop_template (idTableName id) (ToLower (idKind id)) (idName id)))
         = MgmtError err ->
         resourceADXTableMappingDelete meta w
         = (Ok [DiagErrorf "error deleting Table Mapping %q (Table %q, Database %q): %+v"
                           [idName id; idTableName id; idDatabaseName id] err],
            mkWorld (data w)
                    (sent w ++ [mkCommand (idDatabaseName id)
                                          (drop_template (idTableName id)
                                                         (ToLower (idKind id)) (idName id))])))
  /\ (forall meta w id rows final,
         parseADXTableMappingID (Id (data w)) = inr id ->
         Mgmt (Kusto meta) (sent w)
              (mkCommand (idDatabaseName id)
                         (drop_template (idTableName id) (ToLower (idKind id)) (idName id)))
         = MgmtRows rows final ->
         fst (resourceADXTableMappingDelete meta w) = Ok []
         /\ Id (data (snd (resourceADXTableMappingDelete meta w))) = EmptyString)
  /\ (forall meta w,
         Id (data (snd (resourceADXTableMappingCreateUpdate meta w))) <> Id (data w) ->
         exists mapping_json rows final,
           expandTableMapping (attr_mapping (data w)) = Ok mapping_json
           /\ Mgmt (Kusto meta) (sent w) (create_command (data w) mapping_json)
              = MgmtRows rows final)
  /\ (forall meta w,
         Id (data (snd (resourceADXTableMappingDelete meta w))) <> Id (data w) ->
         exists id rows final,
           parseADXTableMappingID (Id (data w)) = inr id
           /\ Mgmt (Kusto meta) (sent w)
                   (mkCommand (idDatabaseName id)
                              (drop_template (idTableName id) (ToLower (idKind id))
                                             (idName id)))
              = MgmtRows rows final).
Proof.
  split; [|split; [|split; [|split]]].
  - intros meta w mapping_json err He Hm.
    rewrite CreateUpdate_cases, He. cbv zeta. now rewrite Hm.
  - intros meta w id err Hid Hm.
    rewrite Delete_cases, Hid. cbv zeta. now rewrite Hm.
  - intros meta w id rows final Hid Hm.
    rewrite Delete_cases, Hid. cbv zeta. rewrite Hm. split; reflexivity.
  - intros meta w. rewrite CreateUpdate_cases.
    destruct (expandTableMapping (attr_mapping (data w))) as [mapping_json|p];
      [|intros H; now contradiction H].
    cbv zeta.
    destruct (Mgmt (Kusto meta) (sent w) _) as [err|rows final] eqn:Hm;
      [intros H; now contradiction H|].
    intros _. eauto.
  - intros meta w. rewrite Delete_cases.
    destruct (parseADXTableMappingID (Id (data w))) as [err|id];
      [intros H; now contradiction H|].
    cbv zeta.
    destruct (Mgmt (Kusto meta) (sent w) _) as [err|rows final] eqn:Hm;
      [intros H; now contradiction H|].
    intros _. eauto.
Qed.

(** C9: a kind that is not [Json] up to case is rejected by the
    validation of the schema: the configuration does not reach
    Create/Update, no command is built or submitted and the state is as
    it was; every spelling of [Json] up to case is accepted, [json] and
    [JSON] among them. *)
Theorem C9_kind_validated_first :
  (forall meta w,
      equal_ignoring_case (attr_kind (data w)) "Json" = false ->
      exists diags,
        validated_CreateUpdate meta w = (Ok diags, w) /\ HasError diags = true)
  /\ (forall kind,
         equal_ignoring_case kind "Json" = true -> stringInSlice ["Json"] "kind" kind = [])
  /\ stringInSlice ["Json"] "kind" "json" = []
  /\ stringInSlice ["Json"] "kind" "JSON" = [].
Proof.
  split; [|split; [|split; reflexivity]].
  - intros meta w Hk. unfold validated_CreateUpdate. run_M.
    assert (HasError (validate_schema (data w)) = true) as Herr.
    { unfold validate_schema, stringInSlice. simpl List.existsb.
      rewrite Hk. simpl orb. cbv iota.
      rewrite !List.app_assoc. apply HasError_app_r. }
    rewrite Herr. eauto.
  - intros kind Hk. unfold stringInSlice. simpl List.existsb. now rewrite Hk.
Qed.

(** C10 (amended): for every list of mapping entries whose column, path
    and datatype hold strings (empty strings included) and whose fields
    contain no quote, no backslash and no control character and are
    valid UTF-8, [flattenTableMapping] applied to the bracket-wrapped
    expansion gives back the entries in order, an absent transform
    being read back as the empty string.  The expansion itself is empty
    or starts with a brace: the brackets are those of the template of
    the command that Create/Update submits. *)
Theorem C10_round_trip_of_wrapped_expansion :
  forall entries : list block,
    Forall (fun b => entry_ok b = true) entries ->
    Forall (fun b => all_fields field_clean b = true) entries ->
    exists s,
      expandTableMapping entries = Ok s
      /\ flattenTableMapping ("[" +:+ s +:+ "]") = Ok (List.map read_back entries)
      /\ (s = EmptyString \/ exists R, s = String "{" R)
      /\ (forall meta w,
             attr_mapping (data w) = entries ->
             exists rest,
               sent (snd (resourceADXTableMappingCreateUpdate meta w))
               = sent w
                 ++ mkCommand (attr_database_name (data w))
                      (".create-or-alter table " +:+ attr_table_name (data w)
                       +:+ " ingestion " +:+ ToLower (attr_kind (data w))
                       +:+ " mapping '" +:+ attr_name (data w)
                       +:+ "' '[" +:+ s +:+ "]'")
                    :: rest)
      /\ (forall c p d t,
             read_back (mk_entry c p d t) = mk_entry c p d t
             /\ read_back (delete "transform" (mk_entry c p d t)) = mk_entry c p d EmptyString).
Proof.
  intros entries Hok Hclean.
  exists (strings.Join (List.map entry_json entries) ",").
  pose proof (expandTableMapping_entry_json entries Hok) as He.
  split; [exact He|].
  split; [now apply flatten_wrapped_entries|].
  split; [now apply (expansion_head entries)|].
  split.
  - intros meta w Hm. rewrite CreateUpdate_sent. unfold create_commands.
    rewrite Hm, He. eexists. reflexivity.
  - intros c p d t. split; [apply read_back_mk_entry | apply read_back_without_transform].
Qed.

(** ** Further properties of the codec *)

Lemma expand_block_untyped (b : block) :
  entry_ok b = false ->
  expand_block b = Panic (PanicTypeAssertion (first_bad_key b))
  /\ get_string (first_bad_key b) b = None.
Proof.
  unfold entry_ok, expand_block, first_bad_key, string_of.
  destruct (get_string "column" b) as [c|] eqn:Hc.
  - destruct (get_string "path" b) as [p|] eqn:Hp.
    + destruct (get_string "datatype" b) as [dt|] eqn:Hd; [discriminate|].
      intros _. split; [|first [exact Hd | reflexivity]].
      unfold get_string in Hc, Hp, Hd.
      destruct (b !! "column") as [[?| | |]|]; try discriminate.
      destruct (b !! "path") as [[?| | |]|]; try discriminate.
      destruct (b !! "datatype") as [[?| | |]|]; try discriminate; reflexivity.
    + intros _. split; [|first [exact Hp | reflexivity]].
      unfold get_string in Hc, Hp.
      destruct (b !! "column") as [[?| | |]|]; try discriminate.
      destruct (b !! "path") as [[?| | |]|]; try discriminate; reflexivity.
  - intros _. split; [|first [exact Hc | reflexivity]].
    unfold get_string in Hc.
    destruct (b !! "column") as [[?| | |]|]; try discriminate; reflexivity.
Qed.

Lemma expand_loop_prefix (good rest : list block) (acc : list string) :
  Forall (fun b => entry_ok b = true) good ->
  expand_loop (good ++ rest) acc = expand_loop rest (acc ++ List.map entry_json good).
Proof.
  intros H. revert acc.
  induction H as [|b good Hb _ IH]; intros acc; simpl.
  - now rewrite app_nil_r.
  - rewrite (expand_block_entry_json b Hb), IH, <- List.app_assoc. reflexivity.
Qed.

Lemma expandTableMapping_untyped (good : list block) (b : block) (rest : list block) :
  Forall (fun e => entry_ok e = true) good ->
  entry_ok b = false ->
  expandTableMapping (good ++ b :: rest) = Panic (PanicTypeAssertion (first_bad_key b)).
Proof.
  intros Hgood Hb. unfold expandTableMapping.
  assert ((length (good ++ b :: rest) =? 0)%nat = false) as ->.
  { apply Nat.eqb_neq. rewrite length_app. simpl. lia. }
  rewrite expand_loop_prefix by assumption. simpl.
  now rewrite (proj1 (expand_block_untyped b Hb)).
Qed.

Lemma first_untyped_entry (entries : list block) :
  Forall (fun b => entry_ok b = true) entries
  \/ exists good b rest,
      entries = good ++ b :: rest
      /\ Forall (fun e => entry_ok e = true) good
      /\ entry_ok b = false.
Proof.
  induction entries as [|a entries IH]; [left; constructor|].
  destruct (entry_ok a) eqn:Ha.
  - destruct IH as [IH|(good & b & rest & -> & Hgood & Hb)].
    + left. now constructor.
    + right. exists (a :: good), b, rest. repeat split; [|exact Hb]. now constructor.
  - right. exists [], a, entries. repeat split; [constructor | exact Ha].
Qed.

(** X1: [expandTableMapping] returns a string exactly on lists whose
    entries all hold a string under column, path and datatype, and the
    string is then the comma-joined list of their objects; on any other
    list it panics on the first entry that is not so typed, at the first
    of the three keys that holds no string, whatever follows. *)
Theorem X1_expand_returns_or_panics :
  forall entries : list block,
    (Forall (fun b => entry_ok b = true) entries
     /\ expandTableMapping entries = Ok (strings.Join (List.map entry_json entries) ","))
    \/ (exists good b rest,
           entries = good ++ b :: rest
           /\ Forall (fun e => entry_ok e = true) good
           /\ entry_ok b = false
           /\ get_string (first_bad_key b) b = None
           /\ expandTableMapping entries = Panic (PanicTypeAssertion (first_bad_key b))).
Proof.
  intros entries.
  destruct (first_untyped_entry entries) as [Hok|(good & b & rest & -> & Hgood & Hb)].
  - left. split; [exact Hok | now apply expandTableMapping_entry_json].
  - right. exists good, b, rest. repeat split; try assumption.
    + apply (expand_block_untyped b Hb).
    + now apply expandTableMapping_untyped.
Qed.

(** X2: when every field of every entry is free of quotes, backslashes
    and control characters, the bracket-wrapped expansion is a valid
    JSON document: an array with one object per entry, in order, whose
    members are column, path, datatype and, when it is not empty,
    transform, each with the field as its string. *)
Theorem X2_wrapped_expansion_is_valid_json :
  forall entries : list block,
    Forall (fun b => entry_ok b = true) entries ->
    Forall (fun b => all_fields scannable b = true) entries ->
    exists s,
      expandTableMapping entries = Ok s
      /\ json.parse_document ("[" +:+ s +:+ "]")
         = json.POk (json.JArray (List.map (fun b => json.JObject (entry_members b)) entries))
                    EmptyString.
Proof.
  intros entries Hok Hscan.
  exists (strings.Join (List.map entry_json entries) ",").
  split; [now apply expandTableMapping_entry_json | now apply parse_document_entries].
Qed.

Lemma flatten_loop_four_keys (oMappings : list json.Mapping) :
  Forall four_keys (flatten_loop oMappings []).
Proof.
  rewrite flatten_loop_app. simpl.
  induction oMappings as [|v l IH]; simpl; constructor; [|exact IH].
  exists (json.Column v), (json.Path v), (json.DataType v), (json.Transform v).
  reflexivity.
Qed.

Lemma flattenTableMapping_four_keys (input : string) :
  exists mappings,
    flattenTableMapping input = Ok mappings /\ Forall four_keys mappings.
Proof.
  unfold flattenTableMapping.
  destruct (String.length input =? 0)%nat; [exists []; split; [reflexivity | constructor]|].
  destruct (Unmarshal_returns input) as (oMappings & err & ->).
  eexists. split; [reflexivity | apply flatten_loop_four_keys].
Qed.

(** X3: on every input, [flattenTableMapping] returns a list of blocks
    that each hold exactly the keys column, path, datatype and
    transform, every one with a string: a field missing from the
    document is the empty string, never a missing key. *)
Theorem X3_flatten_blocks_have_four_keys :
  forall input : string,
    exists mappings,
      flattenTableMapping input = Ok mappings
      /\ Forall four_keys mappings
      /\ Forall (fun b => dom b = ({["column"; "path"; "datatype"; "transform"]} : gset string))
                mappings.
Proof.
  intros input.
  destruct (flattenTableMapping_four_keys input) as (mappings & Hf & Hk).
  exists mappings. repeat split; try assumption.
  eapply Forall_impl; [exact Hk|].
  intros b (c & p & d & t & ->). unfold mk_entry.
  rewrite !dom_insert_L, dom_empty_L. set_solver.
Qed.

Lemma store_elems_length (vs : list json.value) saved ms saved' :
  json.store_elems unicode_foldRune vs saved = Some (ms, saved') ->
  length ms = length vs.
Proof.
  revert saved ms saved'. induction vs as [|v vs IH]; intros saved ms saved'; simpl.
  - intros [= <- _]. reflexivity.
  - destruct (json.store_elem unicode_foldRune v saved) as [[m s1]|]; [|discriminate].
    destruct (json.store_elems unicode_foldRune vs s1) as [[ms' s2]|] eqn:He; [|discriminate].
    intros [= <- _]. simpl. f_equal. now apply (IH s1 ms' s2).
Qed.

Lemma flatten_loop_length (oMappings : list json.Mapping) :
  length (flatten_loop oMappings []) = length oMappings.
Proof. rewrite flatten_loop_app. simpl. apply length_map. Qed.

(** X4: on a non-empty input that is a valid JSON document,
    [flattenTableMapping] returns one block per element of the array,
    whatever the elements are (an element that is not an object gives a
    block of empty strings), and no block when the document is not an
    array. *)
Theorem X4_flatten_one_block_per_element :
  forall (input : string) (v : json.value) (rest : string),
    input <> EmptyString ->
    json.parse_document input = json.POk v rest ->
    exists mappings,
      flattenTableMapping input = Ok mappings
      /\ length mappings = element_count v.
Proof.
  intros input v rest Hne Hp. unfold flattenTableMapping.
  destruct input as [|c r]; [congruence|]. cbn [String.length Nat.eqb].
  unfold json.Unmarshal. rewrite Hp.
  pose proof (parse_document_wf _ _ _ Hp) as Hwf.
  destruct (store_slice_wf v Hwf) as [[ms err] Hs]. rewrite Hs.
  eexists. split; [reflexivity|].
  rewrite flatten_loop_length.
  destruct v; simpl in Hs; try (injection Hs as <- _; reflexivity).
  - destruct (json.unquoteBytes raw); [|discriminate].
    injection Hs as <- _. reflexivity.
  - now apply store_elems_length in Hs.
Qed.

Lemma four_keys_entry_ok (b : block) : four_keys b -> entry_ok b = true /\ read_back b = b.
Proof. intros (c & p & d & t & ->). split; reflexivity. Qed.

Lemma read_back_four_keys (entries : list block) :
  Forall four_keys entries -> List.map read_back entries = entries.
Proof.
  induction 1 as [|b l Hb _ IH]; [reflexivity|].
  simpl. now rewrite (proj2 (four_keys_entry_ok b Hb)), IH.
Qed.

(** X5: what [flattenTableMapping] returns goes through
    [expandTableMapping] and back unchanged: when the fields of the
    returned blocks hold no quote, backslash or control character and
    are valid UTF-8, flattening the bracket-wrapped expansion of the
    list gives the same list. *)
Theorem X5_flattened_list_is_stable :
  forall (input : string) (mappings : list block),
    flattenTableMapping input = Ok mappings ->
    Forall (fun b => all_fields field_clean b = true) mappings ->
    exists s,
      expandTableMapping mappings = Ok s
      /\ flattenTableMapping ("[" +:+ s +:+ "]") = Ok mappings.
Proof.
  intros input mappings Hf Hclean.
  destruct (flattenTableMapping_four_keys input) as (ms & Hf' & Hk).
  rewrite Hf in Hf'. injection Hf' as <-.
  exists (strings.Join (List.map entry_json mappings) ",").
  split.
  - apply expandTableMapping_entry_json.
    eapply Forall_impl; [exact Hk|]. intros b Hb. apply (four_keys_entry_ok b Hb).
  - rewrite flatten_wrapped_entries by assumption.
    now rewrite read_back_four_keys.
Qed.

(** ** Further properties of the operations *)

Lemma resp_Do_structs (id : adxTableMappingResourceID) (recs : list TableMapping)
  (final : option goerror) (acc : list TableMapping) :
  resp_Do id (List.map RowStruct recs) final acc = (acc ++ recs, final).
Proof.
  revert acc. induction recs as [|r recs IH]; intros acc; simpl.
  - now rewrite app_nil_r.
  - rewrite IH, <- List.app_assoc. reflexivity.
Qed.

Lemma resp_Do_row_error (id : adxTableMappingResourceID) (recs : list TableMapping)
  (err : goerror) (rest : list Row) (final : option goerror) (acc : list TableMapping) :
  resp_Do id (List.map RowStruct recs ++ RowError err :: rest) final acc
  = (acc ++ recs, Some (row_error id err)).
Proof.
  revert acc. induction recs as [|r recs IH]; intros acc; simpl.
  - now rewrite app_nil_r.
  - rewrite IH, <- List.app_assoc. reflexivity.
Qed.

Lemma flattenTableMapping_returns (input : string) :
  exists mappings, flattenTableMapping input = Ok mappings.
Proof.
  destruct (flattenTableMapping_four_keys input) as (mappings & H & _). eauto.
Qed.




(** X9: when the management client refuses the show command, Read
    returns one error diagnostic that carries the name and the database
    of the parsed ID and the client's error, and leaves the resource
    data as it was. *)
Theorem X9_read_client_error :
  forall (meta : Meta) (w : World) (id : adxTableMappingResourceID) (err : goerror),
    parseADXTableMappingID (Id (data w)) = inr id ->
    Mgmt (Kusto meta) (sent w) (show_command id) = MgmtError err ->
    resourceADXTableMappingRead meta w
    = (Ok [DiagErrorf "error reading Table %q (Database %q): %+v"
                      [idName id; idDatabaseName id] err],
       mkWorld (data w) (sent w ++ [show_command id])).
Proof.
  intros meta w id err Hid Hresp. unfold show_command in *.
  rewrite Read_cases, Hid. cbv zeta. rewrite Hresp. reflexivity.
Qed.

(** X10: when a row of the answer does not decode, Read stops at that
    row, whatever the rows before and after it and whatever the end of
    the stream: it returns one error diagnostic that wraps the decoding
    error with the name and the database of the parsed ID, and sets no
    attribute, not even from the rows that decoded. *)
Theorem X10_read_stops_at_a_bad_row :
  forall (meta : Meta) (w : World) (id : adxTableMappingResourceID)
         (recs : list TableMapping) (err : goerror) (rest : list Row)
         (final : option goerror),
    parseADXTableMappingID (Id (data w)) = inr id ->
    Mgmt (Kusto meta) (sent w) (show_command id)
    = MgmtRows (List.map RowStruct recs ++ RowError err :: rest) final ->
    resourceADXTableMappingRead meta w
    = (Ok [DiagErrorf "%+v" [] (row_error id err)],
       mkWorld (data w) (sent w ++ [show_command id])).
Proof.
  intros meta w id recs err rest final Hid Hresp. unfold show_command in *.
  rewrite Read_cases, Hid. cbv zeta. rewrite Hresp, resp_Do_row_error.
  cbn [app]. destruct recs; reflexivity.
Qed.

(** X11: when every row decodes but the stream ends with an error, Read
    returns that error as its one diagnostic and sets no attribute,
    although rows were received. *)
Theorem X11_read_stream_error :
  forall (meta : Meta) (w : World) (id : adxTableMappingResourceID)
         (recs : list TableMapping) (err : goerror),
    parseADXTableMappingID (Id (data w)) = inr id ->
    Mgmt (Kusto meta) (sent w) (show_command id)
    = MgmtRows (List.map RowStruct recs) (Some err) ->
    resourceADXTableMappingRead meta w
    = (Ok [DiagErrorf "%+v" [] err], mkWorld (data w) (sent w ++ [show_command id])).
Proof.
  intros meta w id recs err Hid Hresp. unfold show_command in *.
  rewrite Read_cases, Hid. cbv zeta. rewrite Hresp, resp_Do_structs.
  cbn [app]. destruct recs; reflexivity.
Qed.

(** X12: Read is idempotent: when the cluster gives the same answer to
    the show command twice, a second Read returns what the first
    returned and leaves the resource data as the first left it. *)
Theorem X12_read_is_idempotent :
  forall (meta : Meta) (w : World) (id : adxTableMappingResourceID) (resp : MgmtResult),
    parseADXTableMappingID (Id (data w)) = inr id ->
    Mgmt (Kusto meta) (sent w) (show_command id) = resp ->
    Mgmt (Kusto meta) (sent w ++ [show_command id]) (show_command id) = resp ->
    fst (resourceADXTableMappingRead meta (snd (resourceADXTableMappingRead meta w)))
    = fst (resourceADXTableMappingRead meta w)
    /\ data (snd (resourceADXTableMappingRead meta (snd (resourceADXTableMappingRead meta w))))
       = data (snd (resourceADXTableMappingRead meta w)).
Proof.
  intros meta w id resp Hid H1 H2. unfold show_command in *.
  rewrite (Read_cases meta w), Hid. cbv zeta. rewrite H1.
  destruct resp as [err|rows final].
  { cbn [snd fst]. rewrite Read_cases. cbn [data sent]. rewrite Hid. cbv zeta.
    rewrite H2. split; reflexivity. }
  destruct (resp_Do id rows final []) as [[|s schemas] [err|]] eqn:Hdo.
  - cbn [snd fst]. rewrite Read_cases. cbn [data sent]. rewrite Hid. cbv zeta.
    rewrite H2, Hdo. split; reflexivity.
  - cbn [snd fst]. rewrite Read_cases. cbn [data sent]. rewrite Hid. cbv zeta.
    rewrite H2, Hdo. split; reflexivity.
  - cbn [snd fst]. rewrite Read_cases. cbn [data sent]. rewrite Hid. cbv zeta.
    rewrite H2, Hdo. split; reflexivity.
  - destruct (flattenTableMapping_returns (Mapping s)) as (mapping & Hf).
    rewrite Hf. cbn [snd fst]. rewrite Read_cases. cbn [data sent].
    change (Id (Set_last_updated_on _ _)) with (Id (data w)).
    rewrite Hid. cbv zeta. rewrite H2, Hdo, Hf. split; reflexivity.
Qed.

(** X13: when the create command succeeded and the show command that
    follows is refused, Create/Update returns no diagnostic: the error
    diagnostic of the closing Read is dropped.  The ID is set, the
    attributes are as they were, and both commands were submitted. *)
Theorem X13_create_drops_the_diagnostics_of_read :
  forall (meta : Meta) (w : World) (mapping_json : string) (rows : list Row)
         (final : option goerror) (id : adxTableMappingResourceID) (err : goerror),
    expandTableMapping (attr_mapping (data w)) = Ok mapping_json ->
    Mgmt (Kusto meta) (sent w) (create_command (data w) mapping_json) = MgmtRows rows final ->
    parseADXTableMappingID (new_id meta (data w)) = inr id ->
    Mgmt (Kusto meta) (sent w ++ [create_command (data w) mapping_json]) (show_command id)
    = MgmtError err ->
    resourceADXTableMappingCreateUpdate meta w
    = (Ok [],
       mkWorld (SetId (new_id meta (data w)) (data w))
               (sent w ++ [create_command (data w) mapping_json; show_command id])).
Proof.
  intros meta w mapping_json rows final id err He Hm Hid Hshow.
  unfold show_command in *.
  rewrite CreateUpdate_cases, He. cbv zeta. rewrite Hm.
  rewrite Read_cases. cbn [data sent Id SetId]. rewrite Hid. cbv zeta.
  rewrite Hshow, <- List.app_assoc. reflexivity.
Qed.

(** X14: when the create command succeeded and the show command that
    follows returns no row, Create/Update panics with the index out of
    range of Read, after the mapping was created on the cluster and the
    ID was set. *)
Theorem X14_create_panics_when_show_finds_no_row :
  forall (meta : Meta) (w : World) (mapping_json : string) (rows : list Row)
         (final : option goerror) (id : adxTableMappingResourceID),
    expandTableMapping (attr_mapping (data w)) = Ok mapping_json ->
    Mgmt (Kusto meta) (sent w) (create_command (data w) mapping_json) = MgmtRows rows final ->
    parseADXTableMappingID (new_id meta (data w)) = inr id ->
    Mgmt (Kusto meta) (sent w ++ [create_command (data w) mapping_json]) (show_command id)
    = MgmtRows [] None ->
    resourceADXTableMappingCreateUpdate meta w
    = (Panic (PanicIndexOutOfRange 0 0),
       mkWorld (SetId (new_id meta (data w)) (data w))
               (sent w ++ [create_command (data w) mapping_json; show_command id])).
Proof.
  intros meta w mapping_json rows final id He Hm Hid Hshow.
  unfold show_command in *.
  rewrite CreateUpdate_cases, He. cbv zeta. rewrite Hm.
  rewrite Read_cases. cbn [data sent Id SetId]. rewrite Hid. cbv zeta.
  rewrite Hshow, <- List.app_assoc. reflexivity.
Qed.


(** X16: when an entry of the mapping attribute is not typed as the
    schema says, Create/Update panics on the first such entry before
    any command is submitted: the state is as it was. *)
Theorem X16_create_panics_before_any_command :
  forall (meta : Meta) (w : World) (good : list block) (b : block) (rest : list block),
    attr_mapping (data w) = good ++ b :: rest ->
    Forall (fun e => entry_ok e = true) good ->
    entry_ok b = false ->
    resourceADXTableMappingCreateUpdate meta w
    = (Panic (PanicTypeAssertion (first_bad_key b)), w).
Proof.
  intros meta w good b rest Hm Hgood Hb.
  rewrite CreateUpdate_cases, Hm, expandTableMapping_untyped by assumption.
  reflexivity.
Qed.

(** X17: Delete never panics and never touches an attribute: on every
    state and every answer of the cluster it returns diagnostics, and
    the resource data is as it was, or, when it returns no diagnostic,
    as it was but for the ID, which is empty. *)
Theorem X17_delete_never_panics :
  forall (meta : Meta) (w : World),
    exists diags,
      fst (resourceADXTableMappingDelete meta w) = Ok diags
      /\ ((HasError diags = true
           /\ data (snd (resourceADXTableMappingDelete meta w)) = data w)
          \/ (diags = []
              /\ data (snd (resourceADXTableMappingDelete meta w))
                 = SetId EmptyString (data w))).
Proof.
  intros meta w. rewrite Delete_cases.
  destruct (parseADXTableMappingID (Id (data w))) as [err|id].
  { eexists. split; [reflexivity|]. left. split; reflexivity. }
  cbv zeta.
  destruct (Mgmt (Kusto meta) (sent w) _) as [err|rows final].
  - eexists. split; [reflexivity|]. left. split; reflexivity.
  - eexists. split; [reflexivity|]. right. split; reflexivity.
Qed.

(** ** The kind in the commands *)

Lemma lower_byte_idempotent (c : ascii) :
  strings.lower_byte (strings.lower_byte c) = strings.lower_byte c.
Proof. destruct c as [[] [] [] [] [] [] [] []]; vm_compute; reflexivity. Qed.

Lemma lower_byte_ascii (c : ascii) :
  strings.is_ascii (strings.lower_byte c) = strings.is_ascii c.
Proof. destruct c as [[] [] [] [] [] [] [] []]; vm_compute; reflexivity. Qed.

Lemma lower_byte_pipe (c : ascii) :
  Ascii.eqb (strings.lower_byte c) "|" = Ascii.eqb c "|".
Proof. destruct c as [[] [] [] [] [] [] [] []]; vm_compute; reflexivity. Qed.

Lemma lower_byte_not_upper (c : ascii) :
  strings.is_upper (strings.lower_byte c) = false.
Proof. destruct c as [[] [] [] [] [] [] [] []]; vm_compute; reflexivity. Qed.

Lemma ToLower_ascii (s : string) :
  strings.all_bytes strings.is_ascii s = true ->
  ToLower s = strings.map_bytes strings.lower_byte s.
Proof. intros H. unfold ToLower, strings.ToLower. now rewrite H. Qed.

Lemma map_lower_ascii (s : string) :
  strings.all_bytes strings.is_ascii (strings.map_bytes strings.lower_byte s)
  = strings.all_bytes strings.is_ascii s.
Proof.
  induction s as [|c s IH]; [reflexivity|].
  simpl. now rewrite lower_byte_ascii, IH.
Qed.

Lemma map_lower_idempotent (s : string) :
  strings.map_bytes strings.lower_byte (strings.map_bytes strings.lower_byte s)
  = strings.map_bytes strings.lower_byte s.
Proof.
  induction s as [|c s IH]; [reflexivity|].
  simpl. now rewrite lower_byte_idempotent, IH.
Qed.

Lemma map_lower_no_pipe (s : string) :
  no_pipe (strings.map_bytes strings.lower_byte s) = no_pipe s.
Proof.
  unfold no_pipe, strings.contains_byte. do 2 f_equal.
  induction s as [|c s IH]; [reflexivity|].
  simpl. now rewrite lower_byte_pipe, IH.
Qed.

Lemma map_lower_no_upper (s : string) :
  strings.all_bytes (fun c => negb (strings.is_upper c))
                    (strings.map_bytes strings.lower_byte s) = true.
Proof.
  induction s as [|c s IH]; [reflexivity|].
  simpl. now rewrite lower_byte_not_upper, IH.
Qed.

Lemma ToLower_idempotent (s : string) :
  strings.all_bytes strings.is_ascii s = true ->
  ToLower (ToLower s) = ToLower s.
Proof.
  intros H. rewrite (ToLower_ascii s H).
  rewrite ToLower_ascii by now rewrite map_lower_ascii.
  apply map_lower_idempotent.
Qed.

(** X18: for a kind of ASCII letters and fields without pipe, the show
    command of the Read that closes Create/Update names the mapping of
    the create command: same database, table and name, and the same
    lowercased kind, in which no upper-case letter is left, although
    Read lowercases the kind of the ID a second time.  The ID parser is
    not in src/: it is modelled as the spec describes it. *)
Theorem X18_create_and_show_name_the_same_mapping :
  forall (meta : Meta) (w : World) (mapping_json : string) (rows : list Row)
         (final : option goerror),
    strings.all_bytes strings.is_ascii (attr_kind (data w)) = true ->
    no_pipe (Endpoint (Kusto meta)) = true ->
    no_pipe (attr_database_name (data w)) = true ->
    no_pipe (attr_table_name (data w)) = true ->
    no_pipe (attr_kind (data w)) = true ->
    no_pipe (attr_name (data w)) = true ->
    expandTableMapping (attr_mapping (data w)) = Ok mapping_json ->
    Mgmt (Kusto meta) (sent w) (create_command (data w) mapping_json) = MgmtRows rows final ->
    sent (snd (resourceADXTableMappingCreateUpdate meta w))
    = sent w
      ++ [mkCommand (attr_database_name (data w))
            (create_template (attr_table_name (data w)) (ToLower (attr_kind (data w)))
                             (attr_name (data w)) mapping_json);
          mkCommand (attr_database_name (data w))
            (show_template (attr_table_name (data w)) (ToLower (attr_kind (data w)))
                           (attr_name (data w)))]
    /\ strings.all_bytes (fun c => negb (strings.is_upper c))
                         (ToLower (attr_kind (data w))) = true.
Proof.
  intros meta w mapping_json rows final Hascii He Hd Ht Hk Hn Hexp Hm.
  split.
  - rewrite CreateUpdate_sent. unfold create_commands. rewrite Hexp. cbv zeta.
    rewrite Hm. unfold read_commands, new_id. cbn [Id SetId].
    rewrite parse_format; try assumption.
    + cbn [idDatabaseName idTableName idKind idName].
      rewrite (ToLower_idempotent _ Hascii). reflexivity.
    + rewrite (ToLower_ascii _ Hascii), map_lower_no_pipe. exact Hk.
  - rewrite (ToLower_ascii _ Hascii). apply map_lower_no_upper.
Qed.

(** ** The operations and the cluster *)

(** X19: when the ID that Create/Update formats does not parse, as for
    a name that holds a pipe, Create/Update still returns no diagnostic
    once the create command succeeded, with that ID set and no show
    command submitted; Read and Delete on the state it leaves return
    the parse error as their one diagnostic, submit nothing and change
    nothing. *)
Theorem X19_create_leaves_an_id_that_does_not_parse :
  forall (meta : Meta) (w : World) (mapping_json : string) (rows : list Row)
         (final : option goerror) (perr : goerror),
    expandTableMapping (attr_mapping (data w)) = Ok mapping_json ->
    Mgmt (Kusto meta) (sent w) (create_command (data w) mapping_json) = MgmtRows rows final ->
    parseADXTableMappingID (new_id meta (data w)) = inl perr ->
    exists w',
      w' = mkWorld (SetId (new_id meta (data w)) (data w))
                   (sent w ++ [create_command (data w) mapping_json])
      /\ resourceADXTableMappingCreateUpdate meta w = (Ok [], w')
      /\ resourceADXTableMappingRead meta w' = (Ok [DiagFromErr perr], w')
      /\ resourceADXTableMappingDelete meta w' = (Ok [DiagFromErr perr], w').
Proof.
  intros meta w mapping_json rows final perr He Hm Hid.
  eexists. split; [reflexivity|].
  assert (forall sent', resourceADXTableMappingRead meta
                          (mkWorld (SetId (new_id meta (data w)) (data w)) sent')
                        = (Ok [DiagFromErr perr],
                           mkWorld (SetId (new_id meta (data w)) (data w)) sent')) as HR.
  { intros sent'. rewrite Read_cases. cbn [data Id SetId]. now rewrite Hid. }
  split; [|split].
  - rewrite CreateUpdate_cases, He. cbv zeta. rewrite Hm, HR. reflexivity.
  - apply HR.
  - rewrite Delete_cases. cbn [data Id SetId]. now rewrite Hid.
Qed.

(** X20: what an operation submits to the cluster.  Read submits at
    most one command, a show command; Delete at most one, a drop
    command; Create/Update at most two, each a create-or-alter or a
    show command, and never a drop command: an update that changes the
    name, the table or the database leaves the mapping that the old ID
    named on the cluster.  No operation removes a command from the
    history. *)
Theorem X20_commands_of_each_operation :
  forall (meta : Meta) (w : World),
    (exists cs,
        sent (snd (resourceADXTableMappingRead meta w)) = sent w ++ cs
        /\ (length cs <= 1)%nat
        /\ List.forallb (submits [".show table "]) cs = true)
    /\ (exists cs,
           sent (snd (resourceADXTableMappingDelete meta w)) = sent w ++ cs
           /\ (length cs <= 1)%nat
           /\ List.forallb (submits [".drop table "]) cs = true)
    /\ (exists cs,
           sent (snd (resourceADXTableMappingCreateUpdate meta w)) = sent w ++ cs
           /\ (length cs <= 2)%nat
           /\ List.forallb (submits [".create-or-alter table "; ".show table "]) cs = true
           /\ List.existsb (submits [".drop table "]) cs = false).
Proof.
  intros meta w.
  assert (forall d, (length (read_commands d) <= 1)%nat
                    /\ List.forallb (submits [".show table "]) (read_commands d) = true
                    /\ List.forallb (submits [".create-or-alter table "; ".show table "])
                                     (read_commands d) = true
                    /\ List.existsb (submits [".drop table "]) (read_commands d) = false)
    as Hread.
  { intros d. unfold read_commands.
    destruct (parseADXTableMappingID (Id d)) as [err|id]; repeat split.
    all: first [reflexivity | simpl; lia]. }
  split; [|split].
  - exists (read_commands (data w)). split; [apply Read_effects|].
    split; apply (Hread (data w)).
  - exists (delete_commands (data w)). split; [apply Delete_sent|].
    unfold delete_commands.
    destruct (parseADXTableMappingID (Id (data w))) as [err|id]; split;
      solve [simpl; lia | reflexivity].
  - exists (create_commands meta w). split; [apply CreateUpdate_sent|].
    unfold create_commands.
    destruct (expandTableMapping (attr_mapping (data w))) as [mapping_json|p];
      [|repeat split; first [reflexivity | simpl; lia]].
    cbv zeta.
    destruct (Mgmt (Kusto meta) (sent w) _) as [err|rows final];
      [repeat split; first [reflexivity | simpl; lia]|].
    destruct (Hread (SetId (new_id meta (data w)) (data w))) as (Hl & _ & Hs & Hd).
    split; [simpl; lia|]. split.
    + cbn [List.forallb]. rewrite Hs. reflexivity.
    + cbn [List.existsb]. rewrite Hd. reflexivity.
Qed.

Lemma entry_json_read_back (b : block) : entry_json (read_back b) = entry_json b.
Proof.
  unfold entry_json.
  assert (transform_json (read_back b) = transform_json b) as ->.
  { unfold transform_json, read_back, field_or_empty.
    change (get_string "transform" (mk_entry ?c ?p ?d ?t)) with (Some t).
    destruct (get_string "transform" b) as [t|]; reflexivity. }
  reflexivity.
Qed.

Lemma map_entry_json_read_back (entries : list block) :
  List.map entry_json (List.map read_back entries) = List.map entry_json entries.
Proof.
  rewrite List.map_map. apply List.map_ext. intros b. apply entry_json_read_back.
Qed.

Lemma read_back_all_entry_ok (entries : list block) :
  Forall (fun b => entry_ok b = true) (List.map read_back entries).
Proof. induction entries as [|b l IH]; simpl; constructor; [reflexivity | exact IH]. Qed.

(** X21: what Read stores expands to what Create/Update sent: for
    entries typed as the schema says, the entries read back (every
    block with its four keys, an absent transform being the empty
    string) have the same expansion as the entries themselves. *)
Theorem X21_read_back_keeps_the_expansion :
  forall entries : list block,
    Forall (fun b => entry_ok b = true) entries ->
    expandTableMapping (List.map read_back entries) = expandTableMapping entries.
Proof.
  intros entries Hok.
  rewrite (expandTableMapping_entry_json entries Hok).
  rewrite (expandTableMapping_entry_json _ (read_back_all_entry_ok entries)).
  now rewrite map_entry_json_read_back.
Qed.

End Resource.

(** ** The claims on concrete instances *)

Lemma C1_witness :
  exists s,
    expandTableMapping sample_entries = Ok s
    /\ flattenTableMapping no_table ("[" +:+ s +:+ "]") = Ok (List.map read_back sample_entries)
    /\ flattenTableMapping no_table s = Ok []
    /\ (forall c p d t, read_back (mk_entry c p d t) = mk_entry c p d t).
Proof.
  apply (C1_round_trip_of_wrapped_expansion no_table sample_entries);
    repeat constructor.
Defined.

(** C1 as stated fails on one entry with non-empty fields and no quote
    or backslash: its expansion is a JSON object, which is not decoded
    into a list. *)
Lemma C1_bare_expansion_is_not_decoded :
  let e := mk_entry "a" "$.a" "string" "" in
  entry_ok e = true
  /\ required_nonempty e = true
  /\ all_fields no_quote_backslash e = true
  /\ ~ (exists unicode_foldRune s,
           expandTableMapping [e] = Ok s
           /\ flattenTableMapping unicode_foldRune s = Ok [e]).
Proof.
  cbv zeta. repeat split; try reflexivity.
  intros (fold & s & He & Hf).
  rewrite (flatten_expansion_empty fold [mk_entry "a" "$.a" "string" ""] s) in Hf;
    [discriminate | repeat constructor | exact He].
Qed.

Lemma C2_witness :
  fst (resourceADXTableMappingRead no_table no_table silent_cluster
         (mkWorld (sample_data sample_id "Json") []))
  = Panic (PanicIndexOutOfRange 0 0).
Proof.
  apply (C2_read_of_no_rows_panics no_table no_table silent_cluster
           (mkWorld (sample_data sample_id "Json") [])
           (mkADXTableMappingID "https://c.kusto.windows.net" "db" "t" "json" "m"));
    reflexivity.
Defined.

Lemma C3_witness :
  parseADXTableMappingID (id_format "https://c.kusto.windows.net" "db" "t" "json" "m")
  = inr (mkADXTableMappingID "https://c.kusto.windows.net" "db" "t" "json" "m").
Proof.
  apply (proj1 (proj2 (C3_resource_id_round_trip no_table no_table))); reflexivity.
Defined.

(** C3 as stated fails when a field holds a pipe: the ID of a mapping
    named [a|b] has six fields and does not parse; and two different
    sets of fields have the same ID, so no parser recovers both. *)
Lemma C3_pipe_in_a_field :
  parseADXTableMappingID (id_format "https://c" "db" "t" "json" "a|b")
  <> inr (mkADXTableMappingID "https://c" "db" "t" "json" "a|b")
  /\ id_format "https://c" "x|db" "t" "json" "m" = id_format "https://c|x" "db" "t" "json" "m".
Proof. split; [vm_compute; discriminate | reflexivity]. Qed.

Lemma C4_witness :
  expandTableMapping sample_entries
  = Ok (strings.Join (List.map entry_json sample_entries) ",").
Proof.
  apply (proj1 C4_expand_emits_keys sample_entries); repeat constructor.
Defined.

Lemma C7_witness :
  json.Unmarshal no_table "{column}" = Ok ([], Some json.SyntaxError)
  /\ flattenTableMapping no_table "{column}" = Ok [].
Proof.
  apply (proj1 (proj2 (proj2 (C7_flatten_never_fails no_table))) "{column}");
    [discriminate | vm_compute; reflexivity].
Defined.

Lemma C8_witness :
  exists mapping_json,
    resourceADXTableMappingCreateUpdate no_table no_table failing_cluster
      (mkWorld (sample_data "" "Json") [])
    = (Ok [DiagErrorf "error creating Mapping %q (Table %q, Database %q): %+v"
                      ["m"; "t"; "db"] (ErrOpaque "refused")],
       mkWorld (sample_data "" "Json")
               [create_command no_table (sample_data "" "Json") mapping_json]).
Proof.
  eexists.
  apply (proj1 (C8_client_errors no_table no_table) failing_cluster
           (mkWorld (sample_data "" "Json") []) _ (ErrOpaque "refused"));
    reflexivity.
Defined.

Lemma C9_witness :
  exists diags,
    validated_CreateUpdate no_table no_table silent_cluster
      (mkWorld (sample_data "" "Csv") [])
    = (Ok diags, mkWorld (sample_data "" "Csv") [])
    /\ HasError diags = true.
Proof.
  apply (proj1 (C9_kind_validated_first no_table no_table) silent_cluster
           (mkWorld (sample_data "" "Csv") [])).
  reflexivity.
Defined.

Lemma C10_witness :
  exists s,
    expandTableMapping sample_entries = Ok s
    /\ flattenTableMapping no_table ("[" +:+ s +:+ "]") = Ok (List.map read_back sample_entries)
    /\ (s = EmptyString \/ exists R, s = String "{" R).
Proof.
  destruct (C10_round_trip_of_wrapped_expansion no_table no_table sample_entries)
    as (s & He & Hf & Hs & _); [repeat constructor..|].
  exists s. repeat split; assumption.
Defined.

(** C10 as stated fails on fields without quote or backslash that hold
    a control character (a tab: the document is refused and nothing is
    decoded) or a byte that is not valid UTF-8 (the byte 200: it is
    read back as the replacement character). *)
Lemma C10_control_character_or_invalid_utf8 :
  let tab := mk_entry (String "009" EmptyString) "$.a" "string" "" in
  let bad := mk_entry (String "200" EmptyString) "$.a" "string" "" in
  entry_ok tab = true /\ all_fields no_quote_backslash tab = true
  /\ entry_ok bad = true /\ all_fields no_quote_backslash bad = true
  /\ ~ (exists unicode_foldRune s,
           expandTableMapping [tab] = Ok s
           /\ flattenTableMapping unicode_foldRune ("[" +:+ s +:+ "]") = Ok [tab])
  /\ ~ (exists unicode_foldRune s,
           expandTableMapping [bad] = Ok s
           /\ flattenTableMapping unicode_foldRune ("[" +:+ s +:+ "]") = Ok [bad]).
Proof.
  cbv zeta. repeat split; try reflexivity.
  - intros (fold & s & He & Hf).
    rewrite expandTableMapping_entry_json in He by (repeat constructor).
    assert (s = entry_json (mk_entry (String "009" EmptyString) "$.a" "string" "")) as ->
        by (injection He as <-; reflexivity).
    assert (flattenTableMapping fold
              ("[" +:+ entry_json (mk_entry (String "009" EmptyString) "$.a" "string" "")
               +:+ "]") = Ok []) as Hnil by (vm_compute; reflexivity).
    rewrite Hnil in Hf. discriminate.
  - intros (fold & s & He & Hf).
    rewrite expandTableMapping_entry_json in He by (repeat constructor).
    assert (s = entry_json (mk_entry (String "200" EmptyString) "$.a" "string" "")) as ->
        by (injection He as <-; reflexivity).
    assert (flattenTableMapping fold
              ("[" +:+ entry_json (mk_entry (String "200" EmptyString) "$.a" "string" "")
               +:+ "]")
            = Ok [mk_entry (utf8.EncodeRune utf8.RuneError) "$.a" "string" ""]) as Hrep
        by (vm_compute; reflexivity).
    rewrite Hrep in Hf.
    apply (f_equal (fun o : outcome (list block) =>
                      match o with
                      | Ok (m :: _) => m !! "column"
                      | _ => None
                      end)) in Hf.
    vm_compute in Hf. discriminate.
Qed.

(** ** What the expansion keeps *)

(** X6: on entries typed as the schema says, with clean fields,
    [expandTableMapping] loses nothing but the difference between an
    absent and an empty transform: two lists have the same expansion
    exactly when they are the same list once each entry is read back. *)
Theorem X6_expansion_determines_entries :
  forall a b : list block,
    Forall (fun e => entry_ok e = true) a ->
    Forall (fun e => entry_ok e = true) b ->
    Forall (fun e => all_fields field_clean e = true) a ->
    Forall (fun e => all_fields field_clean e = true) b ->
    (expandTableMapping a = expandTableMapping b
     <-> List.map read_back a = List.map read_back b).
Proof.
  intros a b Hoka Hokb Hca Hcb. split.
  - rewrite !expandTableMapping_entry_json by assumption.
    intros [= Hs].
    pose proof (flatten_wrapped_entries no_table a Hca) as Fa.
    pose proof (flatten_wrapped_entries no_table b Hcb) as Fb.
    rewrite Hs in Fa. rewrite Fa in Fb. now injection Fb.
  - intros Hr. rewrite !expandTableMapping_entry_json by assumption.
    rewrite <- (map_entry_json_read_back a), <- (map_entry_json_read_back b), Hr.
    reflexivity.
Qed.

(** ** The further properties on concrete instances *)

Lemma X2_witness :
  exists s,
    expandTableMapping sample_entries = Ok s
    /\ json.parse_document ("[" +:+ s +:+ "]")
       = json.POk (json.JArray (List.map (fun b => json.JObject (entry_members b))
                                         sample_entries))
                  EmptyString.
Proof.
  apply (X2_wrapped_expansion_is_valid_json sample_entries); repeat constructor.
Defined.

Lemma X4_witness :
  exists mappings,
    flattenTableMapping no_table "[1,2]" = Ok mappings
    /\ length mappings = 2%nat.
Proof.
  apply (X4_flatten_one_block_per_element no_table "[1,2]"
           (json.JArray [json.JNumber "1"; json.JNumber "2"]) EmptyString);
    [discriminate | vm_compute; reflexivity].
Defined.

Lemma X5_witness :
  exists s,
    expandTableMapping sample_entries = Ok s
    /\ flattenTableMapping no_table ("[" +:+ s +:+ "]") = Ok sample_entries.
Proof.
  apply (X5_flattened_list_is_stable no_table sample_document sample_entries);
    [vm_compute; reflexivity | repeat constructor].
Defined.

Lemma X6_witness :
  List.map read_back [delete "transform" (mk_entry "a" "$.a" "string" "")]
  = List.map read_back [mk_entry "a" "$.a" "string" ""].
Proof.
  apply (proj1 (X6_expansion_determines_entries
                  [delete "transform" (mk_entry "a" "$.a" "string" "")]
                  [mk_entry "a" "$.a" "string" ""]
                  ltac:(repeat constructor) ltac:(repeat constructor)
                  ltac:(repeat constructor) ltac:(repeat constructor)));
    vm_compute; reflexivity.
Defined.


Lemma X9_witness :
  resourceADXTableMappingRead no_table no_table failing_cluster
    (mkWorld (sample_data sample_id "Json") [])
  = (Ok [DiagErrorf "error reading Table %q (Database %q): %+v" ["m"; "db"]
                    (ErrOpaque "refused")],
     mkWorld (sample_data sample_id "Json") [show_command no_table sample_parsed_id]).
Proof.
  apply (X9_read_client_error no_table no_table failing_cluster
           (mkWorld (sample_data sample_id "Json") []) sample_parsed_id
           (ErrOpaque "refused"));
    reflexivity.
Defined.

Lemma X10_witness :
  resourceADXTableMappingRead no_table no_table bad_row_cluster
    (mkWorld (sample_data sample_id "Json") [])
  = (Ok [DiagErrorf "%+v" [] (row_error sample_parsed_id (ErrOpaque "column mismatch"))],
     mkWorld (sample_data sample_id "Json") [show_command no_table sample_parsed_id]).
Proof.
  apply (X10_read_stops_at_a_bad_row no_table no_table bad_row_cluster
           (mkWorld (sample_data sample_id "Json") []) sample_parsed_id
           [sample_row sample_document] (ErrOpaque "column mismatch")
           [RowStruct (sample_row EmptyString)] None);
    reflexivity.
Defined.

Lemma X11_witness :
  resourceADXTableMappingRead no_table no_table broken_stream_cluster
    (mkWorld (sample_data sample_id "Json") [])
  = (Ok [DiagErrorf "%+v" [] (ErrOpaque "stream broken")],
     mkWorld (sample_data sample_id "Json") [show_command no_table sample_parsed_id]).
Proof.
  apply (X11_read_stream_error no_table no_table broken_stream_cluster
           (mkWorld (sample_data sample_id "Json") []) sample_parsed_id
           [sample_row sample_document] (ErrOpaque "stream broken"));
    reflexivity.
Defined.

Lemma X12_witness :
  fst (resourceADXTableMappingRead no_table no_table echo_cluster
         (snd (resourceADXTableMappingRead no_table no_table echo_cluster
                 (mkWorld (sample_data sample_id "Json") []))))
  = fst (resourceADXTableMappingRead no_table no_table echo_cluster
           (mkWorld (sample_data sample_id "Json") []))
  /\ data (snd (resourceADXTableMappingRead no_table no_table echo_cluster
                  (snd (resourceADXTableMappingRead no_table no_table echo_cluster
                          (mkWorld (sample_data sample_id "Json") [])))))
     = data (snd (resourceADXTableMappingRead no_table no_table echo_cluster
                    (mkWorld (sample_data sample_id "Json") []))).
Proof.
  apply (X12_read_is_idempotent no_table no_table echo_cluster
           (mkWorld (sample_data sample_id "Json") []) sample_parsed_id
           (MgmtRows [RowStruct (sample_row sample_document);
                      RowStruct (sample_row EmptyString)] None));
    reflexivity.
Defined.

Lemma X13_witness :
  exists mapping_json,
    resourceADXTableMappingCreateUpdate no_table no_table refusing_after_first
      (mkWorld (sample_data "" "Json") [])
    = (Ok [],
       mkWorld (sample_data sample_id "Json")
               [create_command no_table (sample_data "" "Json") mapping_json;
                show_command no_table sample_parsed_id]).
Proof.
  eexists.
  apply (X13_create_drops_the_diagnostics_of_read no_table no_table refusing_after_first
           (mkWorld (sample_data "" "Json") []) _ [] None sample_parsed_id
           (ErrOpaque "refused"));
    reflexivity.
Defined.

Lemma X14_witness :
  exists mapping_json,
    resourceADXTableMappingCreateUpdate no_table no_table silent_cluster
      (mkWorld (sample_data "" "Json") [])
    = (Panic (PanicIndexOutOfRange 0 0),
       mkWorld (sample_data sample_id "Json")
               [create_command no_table (sample_data "" "Json") mapping_json;
                show_command no_table sample_parsed_id]).
Proof.
  eexists.
  apply (X14_create_panics_when_show_finds_no_row no_table no_table silent_cluster
           (mkWorld (sample_data "" "Json") []) _ [] None sample_parsed_id);
    reflexivity.
Defined.


Lemma X16_witness :
  resourceADXTableMappingCreateUpdate no_table no_table silent_cluster
    (mkWorld (mkResourceData "" "m" "db" "t" "Json"
                (sample_entries ++ [untyped_entry; mk_entry "c" "$.c" "string" ""]) None) [])
  = (Panic (PanicTypeAssertion "path"),
     mkWorld (mkResourceData "" "m" "db" "t" "Json"
                (sample_entries ++ [untyped_entry; mk_entry "c" "$.c" "string" ""]) None) []).
Proof.
  apply (X16_create_panics_before_any_command no_table no_table silent_cluster
           (mkWorld (mkResourceData "" "m" "db" "t" "Json"
                       (sample_entries ++ [untyped_entry; mk_entry "c" "$.c" "string" ""])
                       None) [])
           sample_entries untyped_entry [mk_entry "c" "$.c" "string" ""]);
    [reflexivity | repeat constructor | reflexivity].
Defined.

Lemma X18_witness :
  exists mapping_json,
    sent (snd (resourceADXTableMappingCreateUpdate no_table no_table silent_cluster
                 (mkWorld (sample_data "" "Json") [])))
    = [mkCommand "db" (create_template "t" "json" "m" mapping_json);
       mkCommand "db" (show_template "t" "json" "m")]
    /\ strings.all_bytes (fun c => negb (strings.is_upper c)) "json" = true.
Proof.
  eexists.
  apply (X18_create_and_show_name_the_same_mapping no_table no_table silent_cluster
           (mkWorld (sample_data "" "Json") []) _ [] None);
    reflexivity.
Defined.

Lemma X19_witness :
  exists w',
    w' = mkWorld (SetId "https://c.kusto.windows.net|db|t|json|a|b"
                        (mkResourceData "" "a|b" "db" "t" "Json" sample_entries None))
                 [create_command no_table
                    (mkResourceData "" "a|b" "db" "t" "Json" sample_entries None)
                    (strings.Join (List.map entry_json sample_entries) ",")]
    /\ resourceADXTableMappingCreateUpdate no_table no_table silent_cluster
         (mkWorld (mkResourceData "" "a|b" "db" "t" "Json" sample_entries None) [])
       = (Ok [], w')
    /\ resourceADXTableMappingRead no_table no_table silent_cluster w'
       = (Ok [DiagFromErr
                (ErrErrorf "error parsing ADX Table Mapping resource ID: unexpected format: %q"
                           ["https://c.kusto.windows.net|db|t|json|a|b"])], w')
    /\ resourceADXTableMappingDelete no_table silent_cluster w'
       = (Ok [DiagFromErr
                (ErrErrorf "error parsing ADX Table Mapping resource ID: unexpected format: %q"
                           ["https://c.kusto.windows.net|db|t|json|a|b"])], w').
Proof.
  apply (X19_create_leaves_an_id_that_does_not_parse no_table no_table silent_cluster
           (mkWorld (mkResourceData "" "a|b" "db" "t" "Json" sample_entries None) [])
           (strings.Join (List.map entry_json sample_entries) ",") [] None
           (ErrErrorf "error parsing ADX Table Mapping resource ID: unexpected format: %q"
                      ["https://c.kusto.windows.net|db|t|json|a|b"]));
    reflexivity.
Defined.

Lemma X21_witness :
  expandTableMapping (List.map read_back sample_entries) = expandTableMapping sample_entries.
Proof.
  apply (X21_read_back_keeps_the_expansion sample_entries); repeat constructor.
Defined.
